(** * CCTV video analyzer: time codec, colour matcher, analysis worker,
    evidence recorder

  A shallow embedding of the Python sources

    - [utils/time_utils.py]   (module [TimeUtils])
    - [utils/color_utils.py]  (module [ColorUtils])
    - [video_worker.py]       (module [VideoWorker])
    - [gui.py], [report_generator.py] (module [Evidence])

  and the properties of the specification checked against it.

  Conventions of the embedding.
    - Python [int] is [Z]; Python [float] is [Q], exact: rounding, [nan]
      and the infinities are outside the model, except the end bound
      [float('inf')], which is [None] in an [option Q].
    - Python [str] is [string], over the 256 one-byte characters.
    - A raised exception is a value of the result type, never a
      missing result. *)

From Stdlib Require Import ZArith QArith Qround List String Ascii Bool Lia.
From Stdlib Require Import Sorted.
Import ListNotations.

Open Scope Z_scope.

(* ================================================================== *)
(** * Python primitives used by the sources *)
(* ================================================================== *)

Module Py.

(** [int(x)] on a float: truncation towards zero. *)
Definition int_of_float (x : Q) : Z := Z.quot (Qnum x) (Zpos (Qden x)).

(** ** Strings *)

Fixpoint string_forallb (p : ascii -> bool) (s : string) : bool :=
  match s with
  | EmptyString => true
  | String c r => p c && string_forallb p r
  end.

Definition code (c : ascii) : Z := Z.of_N (N_of_ascii c).

(** [str.lower()]: the letters [A]-[Z] move to [a]-[z]. *)
Definition lower_char (c : ascii) : ascii :=
  if (65 <=? code c) && (code c <=? 90)
  then ascii_of_N (Z.to_N (code c + 32))
  else c.

Fixpoint lower (s : string) : string :=
  match s with
  | EmptyString => EmptyString
  | String c r => String (lower_char c) (lower r)
  end.

(** [str.split(sep)] for a one-character separator: always at least one
    part, empty parts kept. *)
Fixpoint split (sep : ascii) (s : string) : list string :=
  match s with
  | EmptyString => [EmptyString]
  | String c r =>
      if Ascii.eqb c sep then EmptyString :: split sep r
      else match split sep r with
           | [] => [String c EmptyString]
           | p :: ps => String c p :: ps
           end
  end.

(** [str.replace(a, b)] for one-character [a] and [b]. *)
Fixpoint replace_char (a b : ascii) (s : string) : string :=
  match s with
  | EmptyString => EmptyString
  | String c r =>
      String (if Ascii.eqb c a then b else c) (replace_char a b r)
  end.

(** ** [int(text)]

    The text is stripped of white space at both ends, may carry one sign,
    and is then a run of decimal digits in which single underscores may
    separate digits.  Anything else raises [ValueError], here [None]. *)

(** The characters [int] strips: tab, line feed, vertical tab, form
    feed, carriage return and space, and of the characters from 128 on
    the two that count as spaces, U+0085 and U+00A0.  The separators
    U+001C to U+001F are not among them: [int('1\x1c')] raises. *)
Definition is_space (c : ascii) : bool :=
  ((9 <=? code c) && (code c <=? 13))
  || (code c =? 32) || (code c =? 133) || (code c =? 160).

Fixpoint lstrip (s : string) : string :=
  match s with
  | EmptyString => EmptyString
  | String c r => if is_space c then lstrip r else s
  end.

Fixpoint rstrip (s : string) : string :=
  match s with
  | EmptyString => EmptyString
  | String c r =>
      match rstrip r with
      | EmptyString => if is_space c then EmptyString
                       else String c EmptyString
      | r' => String c r'
      end
  end.

Definition strip (s : string) : string := rstrip (lstrip s).

Definition is_digit (c : ascii) : bool :=
  (48 <=? code c) && (code c <=? 57).

Definition digit_val (c : ascii) : Z := code c - 48.

(** [after_digit] tells whether the previous character was a digit: an
    underscore is legal only there, and the text may end only there. *)
Fixpoint int_digits (acc : Z) (after_digit : bool) (s : string)
  : option Z :=
  match s with
  | EmptyString => if after_digit then Some acc else None
  | String c r =>
      if is_digit c then int_digits (acc * 10 + digit_val c) true r
      else if Ascii.eqb c "_" && after_digit then int_digits acc false r
      else None
  end.

Definition int_of_str (s : string) : option Z :=
  match strip s with
  | EmptyString => None
  | String c r =>
      if Ascii.eqb c "-" then option_map Z.opp (int_digits 0 false r)
      else if Ascii.eqb c "+" then int_digits 0 false r
      else int_digits 0 false (String c r)
  end.

(** ** Formatting integers *)

Definition digit_char (d : Z) : ascii := ascii_of_N (Z.to_N (48 + d)).

(** Decimal digits of [n >= 0], most significant first, in front of
    [acc]. *)
Fixpoint decimal_aux (fuel : nat) (n : Z) (acc : string) : string :=
  match fuel with
  | O => acc
  | S f =>
      let acc' := String (digit_char (n mod 10)) acc in
      if n / 10 =? 0 then acc' else decimal_aux f (n / 10) acc'
  end.

Definition decimal (n : Z) : string :=
  decimal_aux (S (Z.to_nat n)) n EmptyString.

Fixpoint zeros (k : nat) (s : string) : string :=
  match k with
  | O => s
  | S k' => String "0" (zeros k' s)
  end.

Definition zfill (width : nat) (s : string) : string :=
  zeros (width - String.length s) s.

(** [str(n)] and [f"{n}"]. *)
Definition str_of_int (n : Z) : string :=
  if n <? 0 then String "-" (decimal (- n)) else decimal n.

(** [f"{n:02d}"]: at least two characters, zeros after the sign. *)
Definition format_02d (n : Z) : string :=
  if n <? 0 then String "-" (zfill 1 (decimal (- n)))
  else zfill 2 (decimal n).

End Py.

(* ================================================================== *)
(** * utils/time_utils.py *)
(* ================================================================== *)

Module TimeUtils.

Local Open Scope string_scope.

(** [hms_to_seconds]: [-1] is the invalid-format signal.  The three
    [int(...)] calls run in order inside the [try]; a [ValueError] from
    any of them lands in the [except] branch. *)
Definition hms_to_seconds (hms_str : string) : Z :=
  match Py.split ":" hms_str with
  | [p0; p1; p2] =>
      match Py.int_of_str p0 with
      | None => -1
      | Some h =>
          match Py.int_of_str p1 with
          | None => -1
          | Some m =>
              match Py.int_of_str p2 with
              | None => -1
              | Some s =>
                  if ((m >=? 60) || (s >=? 60) || (h <? 0) || (m <? 0)
                      || (s <? 0))%Z
                  then -1
                  else (h * 3600 + m * 60 + s)%Z
              end
          end
      end
  | _ => -1
  end.

(** [seconds_to_min_sec_string]. *)
Definition seconds_to_min_sec_string (seconds : Q) : string :=
  let seconds := Py.int_of_float seconds in
  let m := seconds / 60 in
  let s := seconds mod 60 in
  if (m =? 0)%Z then Py.str_of_int s ++ " secs"
  else Py.str_of_int m ++ " min " ++ Py.str_of_int s ++ " secs".

(** [seconds_to_hms]; [//] and [%] are the flooring ones, as [Z.div] and
    [Z.modulo] are. *)
Definition seconds_to_hms (seconds : Q) : string :=
  let seconds := Py.int_of_float seconds in
  let h := seconds / 3600 in
  let m := (seconds mod 3600) / 60 in
  let s := seconds mod 60 in
  Py.format_02d h ++ ":" ++ Py.format_02d m ++ ":" ++ Py.format_02d s.

End TimeUtils.

(* ================================================================== *)
(** * Images: the part of numpy and OpenCV the sources rely on *)
(* ================================================================== *)

Module Np.

(** A pixel has three 8-bit channels: B, G, R for a decoded frame, H, S, V
    after the colour conversion. *)
Definition Pixel : Type := (Z * Z * Z)%type.

(** An image is its list of rows.  The rows of an array all have one
    length; an array without rows reports width [0] here. *)
Definition Image : Type := list (list Pixel).

Definition shape0 (img : Image) : Z := Z.of_nat (List.length img).

Definition shape1 (img : Image) : Z :=
  match img with
  | [] => 0
  | row :: _ => Z.of_nat (List.length row)
  end.

(** [img.size]: the number of stored values, three a pixel. *)
Definition size (img : Image) : Z := shape0 img * shape1 img * 3.

(** A slice bound as Python resolves it against a length: a negative
    bound counts from the end, and every bound is clipped to
    [0 .. len]. *)
Definition slice_bound (len i : Z) : Z :=
  if i <? 0 then Z.max 0 (i + len) else Z.min i len.

(** [l[start:stop]]. *)
Definition slice {A : Type} (start stop : Z) (l : list A) : list A :=
  let len := Z.of_nat (List.length l) in
  let a := slice_bound len start in
  let b := slice_bound len stop in
  firstn (Z.to_nat (b - a)) (skipn (Z.to_nat a) l).

(** [img[y1:y2, x1:x2]]. *)
Definition crop (y1 y2 x1 x2 : Z) (img : Image) : Image :=
  map (slice x1 x2) (slice y1 y2 img).

(** [cv2.inRange]: 255 where every channel lies between the bounds, both
    included, 0 elsewhere. *)
Definition in_range (lower upper px : Pixel) : bool :=
  let '(l0, l1, l2) := lower in
  let '(u0, u1, u2) := upper in
  let '(p0, p1, p2) := px in
  (l0 <=? p0) && (p0 <=? u0) && (l1 <=? p1) && (p1 <=? u1)
  && (l2 <=? p2) && (p2 <=? u2).

Definition Mask : Type := list (list Z).

Definition inRange (img : Image) (lower upper : Pixel) : Mask :=
  map (map (fun px => if in_range lower upper px then 255 else 0)) img.

(** [np.zeros(img.shape[:2], dtype=np.uint8)]. *)
Definition zeros_like (img : Image) : Mask := map (map (fun _ => 0)) img.

Fixpoint zip_with {A B C : Type} (f : A -> B -> C) (l : list A)
  (r : list B) : list C :=
  match l, r with
  | a :: l', b :: r' => f a b :: zip_with f l' r'
  | _, _ => []
  end.

(** [cv2.bitwise_or] of two masks of one shape. *)
Definition bitwise_or (m1 m2 : Mask) : Mask :=
  zip_with (zip_with Z.lor) m1 m2.

Definition count_nonzero_row (row : list Z) : Z :=
  Z.of_nat (List.length (filter (fun v => negb (v =? 0)) row)).

(** [cv2.countNonZero]. *)
Definition countNonZero (m : Mask) : Z :=
  fold_right Z.add 0 (map count_nonzero_row m).

End Np.

(* ================================================================== *)
(** * utils/color_utils.py *)
(* ================================================================== *)

Module ColorUtils.

Import Np.
Local Open Scope string_scope.

(** [get_hsv_range]: the bounds are H, S, V triples. *)
Definition get_hsv_range (color_name : string)
  : option (list (Pixel * Pixel)) :=
  let color_name := Py.lower color_name in
  if String.eqb color_name "white" then
    Some [((0, 0, 180), (180, 50, 255))]
  else if String.eqb color_name "black" then
    Some [((0, 0, 0), (180, 150, 80))]
  else if String.eqb color_name "red" then
    Some [((0, 50, 50), (10, 255, 255));
          ((170, 50, 50), (180, 255, 255))]
  else if String.eqb color_name "blue" then
    Some [((100, 50, 50), (140, 255, 255))]
  else if String.eqb color_name "green" then
    Some [((40, 50, 50), (80, 255, 255))]
  else if String.eqb color_name "yellow" then
    Some [((20, 50, 50), (40, 255, 255))]
  else None.

(** The default of [match_threshold], 0.20. *)
Definition default_match_threshold : Q := 20 # 100.

Section WithColourConversion.

(** [cv2.cvtColor(_, cv2.COLOR_BGR2HSV)] works pixel by pixel and keeps
    the shape; what it does to one pixel is OpenCV's business. *)
Variable bgr2hsv : Pixel -> Pixel.

Definition cvtColor_BGR2HSV (img : Image) : Image :=
  map (map bgr2hsv) img.

(** The [for lower, upper in hsv_ranges] loop. *)
Fixpoint combine_masks (hsv_roi : Image) (hsv_ranges : list (Pixel * Pixel))
  (total_mask : Mask) : Mask :=
  match hsv_ranges with
  | [] => total_mask
  | (lower, upper) :: rest =>
      let mask := inRange hsv_roi lower upper in
      combine_masks hsv_roi rest (bitwise_or total_mask mask)
  end.

(** [is_color_match].  [not hsv_ranges] holds for [None] and for an empty
    list. *)
Definition is_color_match (image_roi : Image) (color_filter_name : string)
  (match_threshold : Q) : bool :=
  if String.eqb (Py.lower color_filter_name) "none"
     || (size image_roi =? 0)%Z
  then true
  else
    match get_hsv_range color_filter_name with
    | None => true
    | Some [] => true
    | Some hsv_ranges =>
        let hsv_roi := cvtColor_BGR2HSV image_roi in
        let total_mask := zeros_like hsv_roi in
        let total_mask := combine_masks hsv_roi hsv_ranges total_mask in
        let total_pixels := (shape0 hsv_roi * shape1 hsv_roi)%Z in
        let matching_pixels := countNonZero total_mask in
        let color_percentage :=
          (inject_Z matching_pixels / inject_Z total_pixels)%Q in
        negb (Qle_bool color_percentage match_threshold)
    end.

End WithColourConversion.

End ColorUtils.

(* ================================================================== *)
(** * video_worker.py *)
(* ================================================================== *)

Module VideoWorker.

Import Np.
Local Open Scope string_scope.

(** One row of [results[0].boxes]: corner coordinates, confidence and
    class, all floats. *)
Record BoxData : Type := mkBox {
  xyxy : Q * Q * Q * Q;
  conf : Q;
  cls : Q
}.

(** The detector.  [predict frame conf classes] is
    [model.predict(source=frame, conf=conf, classes=classes)] followed by
    [results[0].boxes.cpu().numpy()]; [None] when the call raises. *)
Record Model : Type := mkModel {
  predict : Image -> Q -> list Z -> option (list BoxData);
  names : Z -> string
}.

(** The fields [__init__] stores.  [video_path] is represented by what
    opening it yields, an argument of [run]; [end_sec] is [None] for
    [float('inf')]. *)
Record Worker : Type := mkWorker {
  model : Model;
  target_classes : list Z;
  conf_threshold : Q;
  frame_skip : Z;
  video_fps : Q;
  start_sec : Q;
  end_sec : option Q;
  color_filter : string
}.

(** ** The decoder

    [cv2.VideoCapture] over a recorded file: a cursor into the list of
    decoded frames.  [CAP_PROP_POS_FRAMES] is the 0-based index of the
    frame that the next [read] delivers. *)
Record VideoCapture : Type := mkCap {
  is_opened : bool;
  frames : list Image;
  pos_frames : Z
}.

(** [cv2.VideoCapture(path)]: [None] stands for a path that cannot be
    opened. *)
Definition VideoCapture_open (source : option (list Image)) : VideoCapture :=
  match source with
  | None => mkCap false [] 0
  | Some fs => mkCap true fs 0
  end.

(** Where a seek to frame [k] of a video of [len] frames lands.  The
    index travels as a signed 64-bit integer: from 2^63 on it wraps to a
    negative one; a negative index rewinds to the first frame; an index
    past the end stops at the end. *)
Definition seek_index (len k : Z) : Z :=
  if ((k <? 0) || (2 ^ 63 <=? k))%Z then 0%Z else Z.min k len.

(** [cap.set(cv2.CAP_PROP_POS_FRAMES, k)]: no effect on a capture that is
    not open. *)
Definition cap_set_pos_frames (cap : VideoCapture) (k : Z) : VideoCapture :=
  if is_opened cap
  then mkCap true (frames cap)
         (seek_index (Z.of_nat (List.length (frames cap))) k)
  else cap.

(** [cap.get(cv2.CAP_PROP_POS_FRAMES)], a float. *)
Definition cap_get_pos_frames (cap : VideoCapture) : Q :=
  inject_Z (pos_frames cap).

(** [cap.read()]: the frame under the cursor, and the cursor moves on;
    [None] for [success == False]. *)
Definition cap_read (cap : VideoCapture) : option Image * VideoCapture :=
  if is_opened cap && (0 <=? pos_frames cap)%Z then
    match nth_error (frames cap) (Z.to_nat (pos_frames cap)) with
    | Some frame =>
        (Some frame, mkCap true (frames cap) (pos_frames cap + 1))
    | None => (None, cap)
    end
  else (None, cap).

(** [cap.release()]. *)
Definition cap_release (cap : VideoCapture) : VideoCapture :=
  mkCap false (frames cap) (pos_frames cap).

(** ** What the worker emits *)

(** What [cv2.rectangle] and [cv2.putText] are asked to draw for one
    validated detection; the rasterisation itself is not modelled. *)
Record Drawing : Type := mkDrawing {
  rect : Z * Z * Z * Z;
  label_name : string;
  label_conf : Q;
  label_org : Z * Z
}.

(** [frame.copy()] and the drawings made on the copy. *)
Record AnnotatedFrame : Type := mkAnnotated {
  base_frame : Image;
  drawings : list Drawing
}.

(** The arguments of one [frame_signal.emit], in their order. *)
Record FrameSignal : Type := mkFrameSignal {
  sig_frame : AnnotatedFrame;
  sig_detection_count : Z;
  sig_frame_pos : Q;
  sig_video_fps : Q;
  sig_frame_counter : Z
}.

Inductive Signal : Type :=
| frame_signal (f : FrameSignal)
| finished_signal (total_time : Q).

Inductive Exception : Type :=
| ZeroDivisionError
| DetectorError.

(** How the [while] loop is left. *)
Record LoopEnd : Type := mkLoopEnd {
  loop_emitted : list FrameSignal;
  loop_raised : option Exception;
  loop_cap : VideoCapture;
  loop_frame_counter : Z;
  loop_reads : Z
}.

(** How [run] is left: the signals in emission order, the exception that
    escaped, and the capture as the thread leaves it. *)
Record RunEnd : Type := mkRunEnd {
  emitted : list Signal;
  raised : option Exception;
  final_cap : VideoCapture;
  frames_read : Z
}.

Definition emit (f : FrameSignal) (e : LoopEnd) : LoopEnd :=
  mkLoopEnd (f :: loop_emitted e) (loop_raised e) (loop_cap e)
    (loop_frame_counter e) (loop_reads e).

Definition one_more_read (e : LoopEnd) : LoopEnd :=
  mkLoopEnd (loop_emitted e) (loop_raised e) (loop_cap e)
    (loop_frame_counter e) (loop_reads e + 1).

(** [x1, y1, x2, y2 = map(int, box_data.xyxy[0])]. *)
Definition int_box (b : BoxData) : Z * Z * Z * Z :=
  let '(x1, y1, x2, y2) := xyxy b in
  (Py.int_of_float x1, Py.int_of_float y1, Py.int_of_float x2,
   Py.int_of_float y2).

(** [x1, y1 = max(0, x1), max(0, y1)] and
    [x2, y2 = min(w, x2), min(h, y2)]. *)
Definition clamp_box (h w : Z) (b : Z * Z * Z * Z) : Z * Z * Z * Z :=
  let '(x1, y1, x2, y2) := b in
  (Z.max 0 x1, Z.max 0 y1, Z.min w x2, Z.min h y2).

(** [roi = frame[y1:y2, x1:x2]] after the clamping. *)
Definition roi_of (frame : Image) (b : BoxData) : Image :=
  let h := shape0 frame in
  let w := shape1 frame in
  let '(x1, y1, x2, y2) := clamp_box h w (int_box b) in
  crop y1 y2 x1 x2 frame.

Definition draw (m : Model) (b : BoxData) : Drawing :=
  let '(x1, y1, x2, y2) := int_box b in
  mkDrawing (x1, y1, x2, y2) (names m (Py.int_of_float (cls b))) (conf b)
    (x1, (y1 - 10)%Z).

Section Run.

Variable bgr2hsv : Pixel -> Pixel.

(** The colour filtering of one frame's detections. *)
Definition validate (self : Worker) (frame : Image)
  (detections : list BoxData) : list BoxData :=
  if negb (String.eqb (Py.lower (color_filter self)) "none") then
    filter
      (fun box_data =>
         ColorUtils.is_color_match bgr2hsv (roi_of frame box_data)
           (color_filter self) ColorUtils.default_match_threshold)
      detections
  else detections.

Definition annotate (self : Worker) (frame : Image)
  (validated_detections : list BoxData) : AnnotatedFrame :=
  let current_detection_count :=
    Z.of_nat (List.length validated_detections) in
  mkAnnotated frame
    (if (current_detection_count >? 0)%Z
     then map (draw (model self)) validated_detections
     else []).

(** [time_of_current_frame_sec > self.end_sec], guarded by
    [self.end_sec != float('inf')]. *)
Definition past_end (self : Worker) (time_of_current_frame_sec : Q) : bool :=
  match end_sec self with
  | None => false
  | Some e => negb (Qle_bool time_of_current_frame_sec e)
  end.

Definition skipped (self : Worker) (frame_counter : Z) : bool :=
  (frame_skip self >? 1)%Z
  && negb (frame_counter mod frame_skip self =? 0)%Z.

(** How one pass through the [while] statement ends: the loop is left
    ([break], or a false condition), an exception escapes, or the next
    pass begins, after an emission or, for a skipped frame, without
    one.  [reads] is 1 when [cap.read()] delivered a frame in this
    pass. *)
Inductive Pass : Type :=
| Break (cap : VideoCapture) (frame_counter : Z) (reads : Z)
| Raise (exn : Exception) (cap : VideoCapture) (frame_counter : Z)
| Continue (cap : VideoCapture) (frame_counter : Z)
    (emission : option FrameSignal).

(** The condition and the body of
    [while self._is_running and cap.isOpened()].  [_is_running] is
    cleared by another thread; [running k] is its value when the
    condition is evaluated for the [k]-th time. *)
Definition pass (self : Worker) (running : nat -> bool) (k : nat)
  (cap : VideoCapture) (frame_counter : Z) : Pass :=
  if negb (running k && is_opened cap) then Break cap frame_counter 0
  else
    match cap_read cap with
    | (None, cap) => Break cap frame_counter 0
    | (Some frame, cap) =>
        let frame_counter := (frame_counter + 1)%Z in
        let current_frame_pos := cap_get_pos_frames cap in
        if Qeq_bool (video_fps self) 0 then
          Raise ZeroDivisionError cap frame_counter
        else
          let time_of_current_frame_sec :=
            ((current_frame_pos - 1) / video_fps self)%Q in
          if past_end self time_of_current_frame_sec then
            Break cap frame_counter 1
          else if skipped self frame_counter then
            Continue cap frame_counter None
          else
            match predict (model self) frame (conf_threshold self)
                    (target_classes self) with
            | None => Raise DetectorError cap frame_counter
            | Some detections =>
                let validated_detections :=
                  validate self frame detections in
                let current_detection_count :=
                  Z.of_nat (List.length validated_detections) in
                let annotated_frame :=
                  annotate self frame validated_detections in
                Continue cap frame_counter
                  (Some
                     (mkFrameSignal annotated_frame
                        current_detection_count current_frame_pos
                        (video_fps self) frame_counter))
            end
    end.

Definition after_pass (emission : option FrameSignal) (e : LoopEnd)
  : LoopEnd :=
  one_more_read
    (match emission with
     | Some f => emit f e
     | None => e
     end).

(** The [while] loop.  One unit of [fuel] is spent per pass; [None] only
    when it runs out. *)
Fixpoint loop (self : Worker) (running : nat -> bool) (fuel : nat)
  (k : nat) (cap : VideoCapture) (frame_counter : Z) : option LoopEnd :=
  match fuel with
  | O => None
  | S fuel' =>
      match pass self running k cap frame_counter with
      | Break cap frame_counter reads =>
          Some (mkLoopEnd [] None cap frame_counter reads)
      | Raise exn cap frame_counter =>
          Some (mkLoopEnd [] (Some exn) cap frame_counter 1)
      | Continue cap frame_counter emission =>
          option_map (after_pass emission)
            (loop self running fuel' (S k) cap frame_counter)
      end
  end.

(** The code before the loop: open, and seek when [start_sec > 0]. *)
Definition start (self : Worker) (source : option (list Image))
  : VideoCapture * Z :=
  let cap := VideoCapture_open source in
  let frame_counter := 0%Z in
  if negb (Qle_bool (start_sec self) 0) then
    let start_frame :=
      Py.int_of_float (start_sec self * video_fps self)%Q in
    (cap_set_pos_frames cap start_frame, (start_frame - 1)%Z)
  else (cap, frame_counter).

(** [run].  [total_time] is the wall-clock difference the thread
    measures.  An exception that leaves the loop leaves [run] too: there
    is no handler, so neither [cap.release()] nor
    [finished_signal.emit] is reached. *)
Definition run (self : Worker) (source : option (list Image))
  (running : nat -> bool) (total_time : Q) : option RunEnd :=
  let '(cap, frame_counter) := start self source in
  match loop self running (S (List.length (frames cap))) 0 cap
          frame_counter with
  | None => None
  | Some e =>
      match loop_raised e with
      | Some exn =>
          Some (mkRunEnd (map frame_signal (loop_emitted e)) (Some exn)
                  (loop_cap e) (loop_reads e))
      | None =>
          Some (mkRunEnd
                  (map frame_signal (loop_emitted e)
                   ++ [finished_signal total_time])
                  None (cap_release (loop_cap e)) (loop_reads e))
      end
  end.

End Run.

End VideoWorker.

(* ================================================================== *)
(** * gui.py and report_generator.py: the evidence log *)
(* ================================================================== *)

Module Evidence.

Import VideoWorker.
Local Open Scope string_scope.

(** The dict [get_current_filter_settings] builds, keys in insertion
    order. *)
Definition FilterSettings : Type := list (string * string).

(** One dict appended to [evidence_log]. *)
Record EvidenceEntry : Type := mkEntry {
  frame_num : Z;
  timestamp : string;
  detection_count : Z;
  frame_rgb : AnnotatedFrame;
  filters_used : FilterSettings
}.

(** The fields of [AnalyzerWindow] that the evidence code reads or
    writes.  [worker_running] stands for
    [self.video_worker and self.video_worker.isRunning()]. *)
Record Window : Type := mkWindow {
  total_evidence_frames : Z;
  gallery_frame_counter : Z;
  evidence_log : list EvidenceEntry;
  worker_running : bool;
  report_enabled : bool;
  total_frames : Z
}.

(** [__init__]. *)
Definition init : Window := mkWindow 0 0 [] false false 0.

(** [clear_evidence_gallery]; [reset_file_path] only changes a label. *)
Definition clear_evidence_gallery (self : Window) (reset_file_path : bool)
  : Window :=
  mkWindow 0 0 [] false false (total_frames self).

(** [add_evidence_to_gallery].  The division raises when [video_fps] is
    zero, before anything is stored. *)
Definition add_evidence_to_gallery (self : Window)
  (frame_rgb : AnnotatedFrame) (current_frame_pos video_fps : Q)
  (detection_count : Z) (filter_settings : FilterSettings)
  : Window * option Exception :=
  if negb (Qle_bool current_frame_pos 0) && Qeq_bool video_fps 0 then
    (self, Some ZeroDivisionError)
  else
    let current_time_seconds :=
      if negb (Qle_bool current_frame_pos 0)
      then ((current_frame_pos - 1) / video_fps)%Q
      else 0%Q in
    let timestamp_hms := TimeUtils.seconds_to_hms current_time_seconds in
    let entry :=
      mkEntry (Py.int_of_float (current_frame_pos - 1)%Q) timestamp_hms
        detection_count frame_rgb filter_settings in
    (mkWindow (total_evidence_frames self + 1)%Z
       (gallery_frame_counter self + 1)%Z
       (evidence_log self ++ [entry])
       (worker_running self) (report_enabled self) (total_frames self),
     None).

(** [update_frame], the slot connected to [frame_signal].  The progress
    bar and the live view hold no state of the evidence log. *)
Definition update_frame (self : Window) (f : FrameSignal)
  (filter_settings : FilterSettings) : Window * option Exception :=
  if (sig_detection_count f >? 0)%Z then
    add_evidence_to_gallery self (sig_frame f) (sig_frame_pos f)
      (sig_video_fps f) (sig_detection_count f) filter_settings
  else (self, None).

(** [select_video_file]: stops a running worker, clears the gallery, then
    reads the metadata of the chosen file. *)
Definition select_video_file (self : Window) (new_total_frames : Z)
  : Window :=
  let self := clear_evidence_gallery self false in
  mkWindow (total_evidence_frames self) (gallery_frame_counter self)
    (evidence_log self) (worker_running self) (report_enabled self)
    new_total_frames.

(** [start_analysis]: clears the gallery, then starts a worker unless no
    target class is ticked. *)
Definition start_analysis (self : Window) (any_target_class : bool)
  : Window :=
  let self := clear_evidence_gallery self false in
  mkWindow (total_evidence_frames self) (gallery_frame_counter self)
    (evidence_log self) any_target_class false (total_frames self).

(** [reset_filters]: stops a running worker, resets the filter
    widgets. *)
Definition reset_filters (self : Window) : Window :=
  mkWindow (total_evidence_frames self) (gallery_frame_counter self)
    (evidence_log self) false (report_enabled self) (total_frames self).

(** [analysis_finished], the slot connected to [finished_signal]. *)
Definition analysis_finished (self : Window) (total_time : Q) : Window :=
  mkWindow (total_evidence_frames self) (gallery_frame_counter self)
    (evidence_log self) false
    (if (total_evidence_frames self >? 0)%Z then true
     else report_enabled self)
    (total_frames self).

(** The name [generate_report] gives to the image of one entry:
    [f"{timestamp_hms.replace(':', '_')}_F{frame_num}.png"]. *)
Definition img_filename (entry : EvidenceEntry) : string :=
  Py.replace_char ":" "_" (timestamp entry)
  ++ "_F" ++ Py.str_of_int (frame_num entry) ++ ".png".

(** What the user and the worker can make the window do. *)
Inductive Operation : Type :=
| OpUpdateFrame (f : FrameSignal) (filter_settings : FilterSettings)
| OpClearEvidence (reset_file_path : bool)
| OpSelectVideoFile (new_total_frames : Z)
| OpStartAnalysis (any_target_class : bool)
| OpResetFilters
| OpAnalysisFinished (total_time : Q).

(** A slot that raises leaves the window as the slot left it. *)
Definition perform (self : Window) (op : Operation) : Window :=
  match op with
  | OpUpdateFrame f filter_settings =>
      fst (update_frame self f filter_settings)
  | OpClearEvidence reset_file_path =>
      clear_evidence_gallery self reset_file_path
  | OpSelectVideoFile n => select_video_file self n
  | OpStartAnalysis any => start_analysis self any
  | OpResetFilters => reset_filters self
  | OpAnalysisFinished t => analysis_finished self t
  end.

Definition perform_all (self : Window) (ops : list Operation) : Window :=
  fold_left perform ops self.

(** The window after it received, in order, the frame signals of a
    finished worker run. *)
Definition record_run (self : Window) (signals : list Signal)
  (filter_settings : FilterSettings) : Window :=
  fold_left
    (fun w s =>
       match s with
       | frame_signal f => fst (update_frame w f filter_settings)
       | finished_signal t => analysis_finished w t
       end)
    signals self.

End Evidence.

(* ================================================================== *)
(** * Notions used to state the properties *)
(* ================================================================== *)

Module Notions.

Import Py Np VideoWorker Evidence.
Local Open Scope string_scope.

(** No character of [s] is the separator. *)
Definition free_of (sep : ascii) (s : string) : bool :=
  string_forallb (fun c => negb (Ascii.eqb c sep)) s.

(** [seconds_to_hms] only looks at [int(seconds)]. *)
Definition hms_of_int (seconds : Z) : string :=
  format_02d (seconds / 3600) ++ ":"
  ++ format_02d ((seconds mod 3600) / 60) ++ ":"
  ++ format_02d (seconds mod 60).

(** The mask that is 255 exactly on the pixels satisfying [p]. *)
Definition mask_of (p : Pixel -> bool) (img : Image) : Mask :=
  map (map (fun px => if p px then 255 else 0)%Z) img.

(** A pixel lies in the union of the ranges. *)
Definition in_ranges (hsv_ranges : list (Pixel * Pixel)) (px : Pixel)
  : bool :=
  existsb (fun r => in_range (fst r) (snd r) px) hsv_ranges.

(** The pixels of the region whose converted colour lies in the union of
    the ranges. *)
Definition matching_pixels (bgr2hsv : Pixel -> Pixel)
  (hsv_ranges : list (Pixel * Pixel)) (image_roi : Image) : Z :=
  Z.of_nat
    (List.length
       (filter (fun px => in_ranges hsv_ranges (bgr2hsv px))
          (List.concat image_roi))).

(** The pixels of the region, as the shape counts them. *)
Definition total_pixels (image_roi : Image) : Z :=
  (shape0 image_roi * shape1 image_roi)%Z.

(** The time the worker reconstructs for a frame from the position the
    decoder reports after reading it. *)
Definition time_of (current_frame_pos video_fps : Q) : Q :=
  ((current_frame_pos - 1) / video_fps)%Q.

(** Frames still to be delivered by a capture. *)
Definition remaining (cap : VideoCapture) : nat :=
  if is_opened cap && (0 <=? pos_frames cap)%Z
  then (List.length (frames cap) - Z.to_nat (pos_frames cap))%nat
  else 0%nat.

(** The signal is the finished signal. *)
Definition is_finished (s : Signal) : bool :=
  match s with
  | finished_signal _ => true
  | frame_signal _ => false
  end.

(** The session invariant: the counter shown to the user is the length
    of the log. *)
Definition consistent (w : Window) : Prop :=
  total_evidence_frames w = Z.of_nat (List.length (evidence_log w)).

(** [f] is one of the frame signals of a run of a worker over
    [video]. *)
Definition emitted_in (bgr2hsv : Pixel -> Pixel) (self : Worker)
  (video : list Image) (running : nat -> bool) (total_time : Q)
  (f : FrameSignal) : Prop :=
  exists r,
    run bgr2hsv self (Some video) running total_time = Some r
    /\ In (frame_signal f) (emitted r).

(** The signal [f] with another read counter. *)
Definition with_counter (f : FrameSignal) (frame_counter : Z)
  : FrameSignal :=
  mkFrameSignal (sig_frame f) (sig_detection_count f) (sig_frame_pos f)
    (sig_video_fps f) frame_counter.

(** The entry [add_evidence_to_gallery] builds. *)
Definition entry_of (frame_rgb : AnnotatedFrame)
  (current_frame_pos video_fps : Q) (detection_count : Z)
  (filter_settings : FilterSettings) : EvidenceEntry :=
  mkEntry (Py.int_of_float (current_frame_pos - 1)%Q)
    (TimeUtils.seconds_to_hms
       (if negb (Qle_bool current_frame_pos 0)
        then ((current_frame_pos - 1) / video_fps)%Q
        else 0%Q))
    detection_count frame_rgb filter_settings.

End Notions.

(* ================================================================== *)
(** * Small inputs to run the embedding on *)
(* ================================================================== *)

Module Samples.

Import Np VideoWorker Evidence.
Local Open Scope string_scope.

(** A colour conversion to run the matcher on: a pixel that is already
    H, S, V. *)
Definition already_hsv (px : Pixel) : Pixel := px.

(** Pure red and pure blue in H, S, V. *)
Definition red_hsv : Pixel := (0, 255, 255)%Z.
Definition blue_hsv : Pixel := (120, 255, 255)%Z.

(** A row of five pixels, the first [reds] of them red. *)
Definition five_pixels (reds : nat) : Image :=
  [(repeat red_hsv reds ++ repeat blue_hsv (5 - reds))%list].

(** A frame of four rows and six columns, already in H, S, V: the left
    half red, the right half blue. *)
Definition half_red_frame : Image :=
  repeat
    ((repeat red_hsv 3
      ++ repeat blue_hsv 3)%list)
    4.

(** A detection that lies wholly to the left of the frame. *)
Definition box_left_of_frame : BoxData :=
  mkBox (-10, 1, -3, 3)%Q (9 # 10) 0.

(** A worker that filters for red. *)
Definition red_filter_worker : Worker :=
  mkWorker (mkModel (fun _ _ _ => Some [box_left_of_frame])
              (fun _ => "person"))
    [0%Z] (25 # 100) 1 30 0 None "red".

(** A frame of one pixel that carries its index in the video. *)
Definition tiny_frame (tag : Z) : Image := [[(tag, 0, 0)%Z]].

Definition tag_of (frame : Image) : Z :=
  match frame with
  | ((b, _, _) :: _) :: _ => b
  | _ => 0%Z
  end.

Definition video (n : nat) : list Image :=
  map (fun i => tiny_frame (Z.of_nat i)) (seq 0 n).

(** A detector that finds nothing, and one that raises on the frame
    tagged [bad]. *)
Definition quiet_model : Model :=
  mkModel (fun _ _ _ => Some []) (fun _ => "person").

Definition flaky_model (bad : Z) : Model :=
  mkModel
    (fun frame _ _ => if (tag_of frame =? bad)%Z then None else Some [])
    (fun _ => "person").

Definition worker (m : Model) (skip : Z) (fps start_s : Q)
  (end_s : option Q) : Worker :=
  mkWorker m [0%Z] (25 # 100) skip fps start_s end_s "none".

Definition never_stopped (k : nat) : bool := true.

Definition hsv := already_hsv.

(** A detector that reports one person in every frame. *)
Definition spotting_model : Model :=
  mkModel (fun _ _ _ => Some [mkBox (0, 0, 1, 1)%Q (9 # 10) 0])
    (fun _ => "person").

Definition spotting_worker : Worker := worker spotting_model 1 30 0 None.

Definition ui_filters : FilterSettings :=
  [("target_objects", "person"); ("conf_threshold", "0.25");
   ("frame_skip", "1"); ("start_time", "00:00:00");
   ("end_time", "99:99:99"); ("color_filter", "None")].

(** The signal emitted for the second frame of the video. *)
Definition second_signal : FrameSignal :=
  mkFrameSignal
    (mkAnnotated (tiny_frame 1)
       [mkDrawing (0, 0, 1, 1)%Z "person" (9 # 10) (0, -10)%Z])
    1 (inject_Z 2) 30 2.

End Samples.

(* ================================================================== *)
(** * gui.py: the time inputs and the start button *)
(* ================================================================== *)

Module Gui.

Import VideoWorker Evidence.
Local Open Scope string_scope.

(** The text of [end_time_input] when nothing bounds the run. *)
Definition unbounded_end : string := "99:99:99".

(** The text [select_video_file] puts into [end_time_input] for the
    chosen file, and [reset_filters] for the current one: the duration
    of the video when [self.total_frames > 0 and self.video_fps > 0],
    the sentinel otherwise. *)
Definition default_end_time (total_frames : Z) (video_fps : Q) : string :=
  if (total_frames >? 0)%Z && negb (Qle_bool video_fps 0) then
    let total_duration_sec := (inject_Z total_frames / video_fps)%Q in
    TimeUtils.seconds_to_hms total_duration_sec
  else unbounded_end.

(** The text both functions put into [start_time_input]. *)
Definition default_start_time : string := "00:00:00".

(** The time validation at the head of [start_analysis_from_ui]:
    [None] when the warning box is shown, else [start_sec] and
    [end_sec], the latter [None] for [float('inf')]. *)
Definition read_times (start_text end_time_str : string)
  : option (Z * option Z) :=
  let start_sec := TimeUtils.hms_to_seconds start_text in
  let end_sec :=
    if String.eqb end_time_str unbounded_end then None
    else Some (TimeUtils.hms_to_seconds end_time_str) in
  if (start_sec =? -1)%Z
     || match end_sec with
        | Some e => (e =? -1)%Z
        | None => false
        end
     || match end_sec with
        | Some e => (start_sec >=? e)%Z
        | None => false
        end
  then None
  else Some (start_sec, end_sec).

(** What a click on the start button came to. *)
Inductive Click : Type :=
| NoVideoSelected
| InvalidTimeInput
| WorkerStopped
| AnalysisRequested (start_sec : Z) (end_sec : option Z).

(** [start_analysis_from_ui].  [has_video] stands for
    [self.current_video_path]; the last argument tells whether a target
    class is ticked, which [start_analysis] looks at. *)
Definition start_analysis_from_ui (self : Window) (has_video : bool)
  (start_text end_time_str : string) (any_target_class : bool)
  : Window * Click :=
  if negb has_video then (self, NoVideoSelected)
  else
    match read_times start_text end_time_str with
    | None => (self, InvalidTimeInput)
    | Some (start_sec, end_sec) =>
        if worker_running self then
          (mkWindow (total_evidence_frames self)
             (gallery_frame_counter self) (evidence_log self) false
             (report_enabled self) (total_frames self),
           WorkerStopped)
        else
          (start_analysis self any_target_class,
           AnalysisRequested start_sec end_sec)
    end.


End Gui.

(* ================================================================== *)
(** * report_generator.py: what is written *)
(* ================================================================== *)

Module Report.

Import VideoWorker Evidence.
Local Open Scope string_scope.

(** The header row: four fixed columns, then the keys of the first
    entry's filter snapshot. *)
Definition header (evidence_log : list EvidenceEntry) : list string :=
  match evidence_log with
  | [] => []
  | first :: _ =>
      (["Image_File"; "Frame_Number"; "Timestamp"; "Total_Detections"]
       ++ map fst (filters_used first))%list
  end.

(** The row of one entry, cells as [csv.writer] writes them. *)
Definition row (entry : EvidenceEntry) : list string :=
  ([img_filename entry; Py.str_of_int (frame_num entry); timestamp entry;
    Py.str_of_int (detection_count entry)]
   ++ map snd (filters_used entry))%list.

(** What [generate_report] writes when every write succeeds: the names
    of the images, in log order, and the lines of the CSV file.  [None]
    for the empty log, where it returns before touching the disk. *)
Definition generate_report (evidence_log : list EvidenceEntry)
  : option (list string * list (list string)) :=
  match evidence_log with
  | [] => None
  | _ :: _ =>
      Some (map img_filename evidence_log,
            header evidence_log :: map row evidence_log)
  end.

End Report.

(* ================================================================== *)
(** * Further notions *)
(* ================================================================== *)

Module MoreNotions.

Import Np VideoWorker Evidence.
Local Open Scope string_scope.

(** The frame signals among the signals of a run. *)
Definition frame_signals (signals : list Signal) : list FrameSignal :=
  flat_map
    (fun s =>
       match s with
       | frame_signal f => [f]
       | finished_signal _ => []
       end)
    signals.

(** All rows of the image have [w] pixels. *)
Definition rectangular (w : nat) (img : Image) : Prop :=
  Forall (fun row => List.length row = w) img.

(** The names the range table knows. *)
Definition known_colors : list string :=
  ["white"; "black"; "red"; "blue"; "green"; "yellow"].

(** The detector never raises. *)
Definition reliable (m : Model) : Prop :=
  forall frame conf classes, predict m frame conf classes <> None.

(** The frame numbers from [lo] (excluded) to [hi] (included) that the
    skip rule lets through. *)
Definition let_through (frame_skip lo hi : Z) : Z :=
  if (frame_skip >? 1)%Z then (hi / frame_skip - lo / frame_skip)%Z
  else (hi - lo)%Z.

(** The entry the recorder stores for a signal. *)
Definition entry_for (f : FrameSignal) (filter_settings : FilterSettings)
  : EvidenceEntry :=
  Notions.entry_of (sig_frame f) (sig_frame_pos f) (sig_video_fps f)
    (sig_detection_count f) filter_settings.

(** The pixel in row [i], column [j] of an image, if there is one. *)
Definition pixel_at (img : Image) (i j : Z) : option Pixel :=
  if ((i <? 0) || (j <? 0))%Z then None
  else
    match nth_error img (Z.to_nat i) with
    | Some row => nth_error row (Z.to_nat j)
    | None => None
    end.

(** No character of [s] is white space. *)
Definition no_space (s : string) : bool :=
  Py.string_forallb (fun c => negb (Py.is_space c)) s.

(** The characters of a formatted field: digits and the sign. *)
Definition field_char (c : ascii) : bool :=
  Py.is_digit c || Ascii.eqb c "-".

(** The signals that the recorder stores. *)
Definition with_detections (fs : list FrameSignal) : list FrameSignal :=
  filter (fun f => (sig_detection_count f >? 0)%Z) fs.

End MoreNotions.

(* ================================================================== *)
(** * Further small inputs *)
(* ================================================================== *)

Module MoreSamples.

Import Np VideoWorker Samples.
Local Open Scope string_scope.

(** The owner clears the flag after two evaluations of the loop
    condition. *)
Definition stopped_after_two (k : nat) : bool := (k <? 2)%nat.

(** A worker asked to filter for a colour the table does not have. *)
Definition purple_worker : Worker :=
  mkWorker spotting_model [0%Z] (25 # 100) 1 30 0 None "Purple".

(** A detection that reaches over the upper right corner of
    [half_red_frame]. *)
Definition box_over_corner : BoxData := mkBox (4, -2, 9, 2)%Q (9 # 10) 0.



End MoreSamples.

(* ================================================================== *)
(** * The time code pattern, in words of the specification *)
(* ================================================================== *)

Module Pattern.

Local Open Scope string_scope.

(** The number a run of decimal digits writes. *)
Fixpoint digits_value_from (acc : Z) (s : string) : Z :=
  match s with
  | EmptyString => acc
  | String c r => digits_value_from (acc * 10 + Py.digit_val c)%Z r
  end.

Definition digits_value (s : string) : Z := digits_value_from 0 s.

(** A field of the pattern H:M:S: decimal digits, at least one. *)
Definition digit_field (s : string) : bool :=
  negb (String.eqb s EmptyString) && Py.string_forallb Py.is_digit s.

(** The pattern H:M:S: three fields of digits between two colons,
    minutes and seconds below 60, hours without bound. *)
Definition plain_hms (text : string) (h m s : Z) : Prop :=
  exists H M S,
    text = H ++ ":" ++ M ++ ":" ++ S
    /\ digit_field H = true /\ digit_field M = true
    /\ digit_field S = true
    /\ h = digits_value H /\ m = digits_value M /\ s = digits_value S
    /\ (m < 60)%Z /\ (s < 60)%Z.

(** Digits in groups: the first and the last character are digits, all
    are digits or underscores, and no underscore follows another. *)
Definition digit_or_underscore (c : ascii) : bool :=
  Py.is_digit c || Ascii.eqb c "_".

Definition first_is_digit (s : string) : bool :=
  match s with
  | EmptyString => false
  | String c _ => Py.is_digit c
  end.

Fixpoint last_is_digit (s : string) : bool :=
  match s with
  | EmptyString => false
  | String c EmptyString => Py.is_digit c
  | String _ r => last_is_digit r
  end.

Fixpoint no_double_underscore (s : string) : bool :=
  match s with
  | String a ((String b _) as r) =>
      negb (Ascii.eqb a "_" && Ascii.eqb b "_") && no_double_underscore r
  | _ => true
  end.

Definition grouped_digits (s : string) : bool :=
  first_is_digit s && last_is_digit s
  && Py.string_forallb digit_or_underscore s && no_double_underscore s.

Fixpoint remove_underscores (s : string) : string :=
  match s with
  | EmptyString => EmptyString
  | String c r =>
      if Ascii.eqb c "_" then remove_underscores r
      else String c (remove_underscores r)
  end.

Definition all_space (s : string) : bool := Py.string_forallb Py.is_space s.

(** What [int] takes for a whole number, said without its parser:
    digits in groups, an optional sign in front of them, white space
    around the whole; the value is that of the digits, the underscores
    left out. *)
Definition int_literal (text : string) (v : Z) : Prop :=
  exists lead sign body trail,
    text = lead ++ sign ++ body ++ trail
    /\ all_space lead = true /\ all_space trail = true
    /\ grouped_digits body = true
    /\ (((sign = EmptyString \/ sign = "+")
         /\ v = digits_value (remove_underscores body))
        \/ (sign = "-"
            /\ v = (- digits_value (remove_underscores body))%Z)).

(** The texts [hms_to_seconds] takes: three such numbers between two
    colons, none of them negative, minutes and seconds below 60. *)
Definition lenient_hms (text : string) (h m s : Z) : Prop :=
  exists f0 f1 f2,
    text = f0 ++ ":" ++ f1 ++ ":" ++ f2
    /\ int_literal f0 h /\ int_literal f1 m /\ int_literal f2 s
    /\ (0 <= h /\ 0 <= m < 60 /\ 0 <= s < 60)%Z.

(** What the parser of [int] has to find after a digit ([after_digit])
    or after anything else. *)
Definition accepts (after_digit : bool) (s : string) : bool :=
  Py.string_forallb digit_or_underscore s && no_double_underscore s
  && (if after_digit then true else first_is_digit s)
  && match s with
     | EmptyString => after_digit
     | String _ _ => last_is_digit s
     end.

End Pattern.

(* ================================================================== *)
(** * Properties: the Python primitives *)
(* ================================================================== *)

Module PyFacts.

Import Py Notions.

Ltac digit_cases d :=
  let H := fresh in
  assert (H : d = 0 \/ d = 1 \/ d = 2 \/ d = 3 \/ d = 4 \/ d = 5
              \/ d = 6 \/ d = 7 \/ d = 8 \/ d = 9) by lia;
  repeat (destruct H as [H | H]); subst d.

Lemma int_of_float_inject_Z (z : Z) : int_of_float (inject_Z z) = z.
Proof. unfold int_of_float. simpl. apply Z.quot_1_r. Qed.

Lemma int_of_float_nonneg (x : Q) :
  (0 <= x)%Q -> int_of_float x = Qfloor x.
Proof.
  destruct x as [n d]. unfold Qle, int_of_float, Qfloor. simpl.
  intros H. apply Z.quot_div_nonneg; lia.
Qed.

Lemma is_digit_digit_char (d : Z) :
  0 <= d < 10 -> is_digit (digit_char d) = true.
Proof. intros H. digit_cases d; reflexivity. Qed.

Lemma digit_val_digit_char (d : Z) :
  0 <= d < 10 -> digit_val (digit_char d) = d.
Proof. intros H. digit_cases d; reflexivity. Qed.

Lemma is_digit_code (c : ascii) :
  is_digit c = true -> 48 <= code c <= 57.
Proof. unfold is_digit. intros H. lia. Qed.

Lemma digit_not_space (c : ascii) :
  is_digit c = true -> is_space c = false.
Proof. intros H%is_digit_code. unfold is_space. lia. Qed.

Lemma digit_not_char (c x : ascii) :
  is_digit c = true -> is_digit x = false -> Ascii.eqb c x = false.
Proof.
  intros Hc Hx. destruct (Ascii.eqb_spec c x) as [-> | Hne];
    [congruence | reflexivity].
Qed.

(** *** Decimal digits *)

Lemma decimal_aux_digits (fuel : nat) :
  forall n acc,
    string_forallb is_digit acc = true ->
    string_forallb is_digit (decimal_aux fuel n acc) = true.
Proof.
  induction fuel as [| f IH]; intros n acc Hacc; simpl; [exact Hacc |].
  assert (Hd : string_forallb is_digit (String (digit_char (n mod 10)) acc)
               = true).
  { simpl. rewrite Hacc, is_digit_digit_char; [reflexivity |].
    apply Z.mod_pos_bound. lia. }
  destruct (n / 10 =? 0); [exact Hd | apply IH, Hd].
Qed.

Lemma decimal_digits (n : Z) : string_forallb is_digit (decimal n) = true.
Proof. apply decimal_aux_digits. reflexivity. Qed.

Lemma zeros_digits (k : nat) (s : string) :
  string_forallb is_digit s = true ->
  string_forallb is_digit (zeros k s) = true.
Proof. intros H. induction k as [| k IH]; simpl; auto. Qed.

Lemma decimal_aux_nonempty (fuel : nat) :
  forall n acc, acc <> EmptyString -> decimal_aux fuel n acc <> EmptyString.
Proof.
  induction fuel as [| f IH]; intros n acc Hacc; simpl; [exact Hacc |].
  destruct (n / 10 =? 0); [discriminate | apply IH; discriminate].
Qed.

Lemma decimal_nonempty (n : Z) : decimal n <> EmptyString.
Proof.
  unfold decimal. simpl.
  destruct (n / 10 =? 0); [discriminate |].
  apply decimal_aux_nonempty. discriminate.
Qed.

Lemma zeros_nonempty (k : nat) (s : string) :
  s <> EmptyString -> zeros k s <> EmptyString.
Proof. intros H. destruct k; simpl; [exact H | discriminate]. Qed.

(** Reading back the digits of [n] puts [n] in the accumulator. *)
Lemma int_digits_decimal_aux (fuel : nat) :
  forall n acc b,
    0 <= n < Z.of_nat fuel ->
    int_digits 0 b (decimal_aux fuel n acc) = int_digits n true acc.
Proof.
  induction fuel as [| f IH]; intros n acc b Hn; [lia |].
  cbn [decimal_aux].
  assert (Hm : 0 <= n mod 10 < 10) by (apply Z.mod_pos_bound; lia).
  destruct (n / 10 =? 0) eqn:Hq.
  - cbn [int_digits].
    rewrite is_digit_digit_char, digit_val_digit_char by exact Hm.
    f_equal. apply Z.eqb_eq in Hq.
    pose proof (Z.div_mod n 10). lia.
  - apply Z.eqb_neq in Hq.
    rewrite IH.
    + cbn [int_digits].
      rewrite is_digit_digit_char, digit_val_digit_char by exact Hm.
      f_equal. pose proof (Z.div_mod n 10). lia.
    + pose proof (Z.div_mod n 10).
      assert (0 <= n / 10) by (apply Z.div_pos; lia).
      lia.
Qed.

Lemma int_digits_decimal (n : Z) (b : bool) :
  0 <= n -> int_digits 0 b (decimal n) = Some n.
Proof.
  intros Hn. unfold decimal. rewrite int_digits_decimal_aux by lia.
  reflexivity.
Qed.

Lemma int_digits_zeros (k : nat) (n : Z) :
  0 <= n ->
  forall b, int_digits 0 b (zeros k (decimal n)) = Some n.
Proof.
  intros Hn. induction k as [| k IH]; intros b; simpl.
  - apply int_digits_decimal, Hn.
  - apply IH.
Qed.

(** *** Stripping *)

Lemma lstrip_digits (s : string) :
  string_forallb is_digit s = true -> lstrip s = s.
Proof.
  destruct s as [| c r]; simpl; [reflexivity |].
  intros [Hc _]%andb_prop. rewrite (digit_not_space _ Hc). reflexivity.
Qed.

Lemma rstrip_digits (s : string) :
  string_forallb is_digit s = true -> rstrip s = s.
Proof.
  induction s as [| c r IH]; simpl; [reflexivity |].
  intros [Hc Hr]%andb_prop. rewrite (IH Hr), (digit_not_space _ Hc).
  destruct r; reflexivity.
Qed.

Lemma strip_digits (s : string) :
  string_forallb is_digit s = true -> strip s = s.
Proof.
  intros H. unfold strip. rewrite (lstrip_digits _ H).
  apply rstrip_digits, H.
Qed.

(** [int(f"{n:02d}")] is [n]. *)
Lemma int_of_str_format_02d (n : Z) :
  0 <= n -> int_of_str (format_02d n) = Some n.
Proof.
  intros Hn. unfold format_02d, zfill.
  destruct (n <? 0) eqn:Hneg; [lia |].
  set (k := (2 - String.length (decimal n))%nat).
  assert (Hd : string_forallb is_digit (zeros k (decimal n)) = true)
    by apply zeros_digits, decimal_digits.
  unfold int_of_str. rewrite (strip_digits _ Hd).
  destruct (zeros k (decimal n)) as [| c r] eqn:Hs.
  - exfalso. exact (zeros_nonempty k _ (decimal_nonempty n) Hs).
  - simpl in Hd. apply andb_prop in Hd as [Hc _].
    rewrite (digit_not_char c "-" Hc eq_refl).
    rewrite (digit_not_char c "+" Hc eq_refl).
    rewrite <- Hs. apply int_digits_zeros, Hn.
Qed.

(** *** Splitting *)

Lemma split_free (sep : ascii) (s : string) :
  free_of sep s = true -> split sep s = [s].
Proof.
  induction s as [| c r IH]; simpl; [reflexivity |].
  intros [Hc Hr]%andb_prop. apply negb_true_iff in Hc.
  rewrite Hc, (IH Hr). reflexivity.
Qed.

Lemma split_nonempty (sep : ascii) (s : string) : split sep s <> [].
Proof.
  destruct s as [| c r]; simpl; [discriminate |].
  destruct (Ascii.eqb c sep); [discriminate |].
  destruct (split sep r); discriminate.
Qed.

Lemma split_app (sep : ascii) (a b : string) :
  free_of sep a = true ->
  split sep (a ++ String sep b) = a :: split sep b.
Proof.
  induction a as [| c r IH]; simpl.
  - intros _. rewrite Ascii.eqb_refl. reflexivity.
  - intros [Hc Hr]%andb_prop. apply negb_true_iff in Hc.
    rewrite Hc, (IH Hr). reflexivity.
Qed.

Lemma digits_free_of_colon (s : string) :
  string_forallb is_digit s = true -> free_of ":" s = true.
Proof.
  unfold free_of.
  induction s as [| c r IH]; cbn [string_forallb]; [reflexivity |].
  intros [Hc Hr]%andb_prop.
  rewrite (digit_not_char c ":" Hc eq_refl), (IH Hr). reflexivity.
Qed.

Lemma format_02d_digits (n : Z) :
  0 <= n -> string_forallb is_digit (format_02d n) = true.
Proof.
  intros Hn. unfold format_02d, zfill.
  destruct (n <? 0) eqn:Hneg; [lia |].
  apply zeros_digits, decimal_digits.
Qed.

End PyFacts.

(* ================================================================== *)
(** * Properties: the time codec *)
(* ================================================================== *)

Module TimeUtilsFacts.

Import Py PyFacts TimeUtils Notions.
Local Open Scope string_scope.

Lemma seconds_to_hms_int (x : Q) :
  seconds_to_hms x = hms_of_int (int_of_float x).
Proof. reflexivity. Qed.

Example hms_to_seconds_plain : hms_to_seconds "01:02:03" = 3723%Z.
Proof. reflexivity. Qed.

Example seconds_to_hms_plain : seconds_to_hms (3723 # 1) = "01:02:03".
Proof. reflexivity. Qed.

Example seconds_to_hms_long : seconds_to_hms (360000 # 1) = "100:00:00".
Proof. reflexivity. Qed.

Example seconds_to_hms_fraction : seconds_to_hms (388 # 30) = "00:00:12".
Proof. reflexivity. Qed.

Example min_sec_45 : seconds_to_min_sec_string (45 # 1) = "45 secs".
Proof. reflexivity. Qed.

Example min_sec_71 : seconds_to_min_sec_string (71 # 1) = "1 min 11 secs".
Proof. reflexivity. Qed.

(** The end-time sentinel of the window is no time code. *)
Example hms_to_seconds_sentinel : hms_to_seconds "99:99:99" = (-1)%Z.
Proof. reflexivity. Qed.

(** [int] takes white space, a sign and underscores. *)
Example hms_to_seconds_lenient : hms_to_seconds " 1: +2 :0_3" = 3723%Z.
Proof. reflexivity. Qed.

Example hms_to_seconds_negative : hms_to_seconds "1:-2:03" = (-1)%Z.
Proof. reflexivity. Qed.

Lemma split_hms (a b c : string) :
  string_forallb is_digit a = true ->
  string_forallb is_digit b = true ->
  string_forallb is_digit c = true ->
  split ":" (a ++ ":" ++ b ++ ":" ++ c) = [a; b; c].
Proof.
  intros Ha Hb Hc. cbn [append].
  rewrite split_app by apply digits_free_of_colon, Ha.
  rewrite split_app by apply digits_free_of_colon, Hb.
  rewrite split_free by apply digits_free_of_colon, Hc.
  reflexivity.
Qed.

Lemma hms_fields (n : Z) :
  (0 <= n ->
   0 <= n / 3600
   /\ 0 <= (n mod 3600) / 60 < 60
   /\ 0 <= n mod 60 < 60
   /\ n / 3600 * 3600 + (n mod 3600) / 60 * 60 + n mod 60 = n)%Z.
Proof.
  intros Hn.
  pose proof (Z.div_mod n 3600 ltac:(lia)) as E1.
  pose proof (Z.mod_pos_bound n 3600 ltac:(lia)) as B1.
  pose proof (Z.div_mod (n mod 3600) 60 ltac:(lia)) as E2.
  pose proof (Z.mod_pos_bound (n mod 3600) 60 ltac:(lia)) as B2.
  pose proof (Z.mod_pos_bound n 60 ltac:(lia)) as B3.
  assert (E3 : ((n mod 3600) mod 60 = n mod 60)%Z).
  { apply Z.mod_mod_divide. exists 60%Z. reflexivity. }
  assert (0 <= n / 3600)%Z by (apply Z.div_pos; lia).
  assert (0 <= (n mod 3600) / 60)%Z by (apply Z.div_pos; lia).
  assert ((n mod 3600) / 60 < 60)%Z
    by (apply Z.div_lt_upper_bound; lia).
  lia.
Qed.

Lemma hms_to_seconds_accepted (text p0 p1 p2 : string) (h m s : Z) :
  split ":" text = [p0; p1; p2] ->
  int_of_str p0 = Some h ->
  int_of_str p1 = Some m ->
  int_of_str p2 = Some s ->
  (0 <= h /\ 0 <= m < 60 /\ 0 <= s < 60)%Z ->
  hms_to_seconds text = (h * 3600 + m * 60 + s)%Z.
Proof.
  intros Hsplit H0 H1 H2 (Hh & Hm & Hs).
  unfold hms_to_seconds. rewrite Hsplit, H0, H1, H2.
  assert (E : ((m >=? 60) || (s >=? 60) || (h <? 0) || (m <? 0)
               || (s <? 0))%Z = false) by lia.
  rewrite E. reflexivity.
Qed.

Lemma hms_to_seconds_range (text : string) :
  (hms_to_seconds text = -1 \/ 0 <= hms_to_seconds text)%Z.
Proof.
  unfold hms_to_seconds.
  destruct (split ":" text) as [| p0 [| p1 [| p2 [| p3 rest]]]];
    try (left; reflexivity).
  destruct (int_of_str p0) as [h |]; [| left; reflexivity].
  destruct (int_of_str p1) as [m |]; [| left; reflexivity].
  destruct (int_of_str p2) as [s |]; [| left; reflexivity].
  destruct ((m >=? 60) || (s >=? 60) || (h <? 0) || (m <? 0)
            || (s <? 0))%Z eqn:E; [left; reflexivity | right; lia].
Qed.

(** C5.  [hms_to_seconds] undoes [seconds_to_hms]: for every integer
    [s >= 0], [hms_to_seconds(seconds_to_hms(s)) == s]. *)
Theorem hms_to_seconds_seconds_to_hms (s : Z) :
  (0 <= s)%Z -> hms_to_seconds (seconds_to_hms (inject_Z s)) = s.
Proof.
  intros Hs. rewrite seconds_to_hms_int, int_of_float_inject_Z.
  destruct (hms_fields s Hs) as (Hh & Hm & Hsec & Hsum).
  rewrite <- Hsum at 2.
  apply (hms_to_seconds_accepted _ (format_02d (s / 3600))
           (format_02d ((s mod 3600) / 60)) (format_02d (s mod 60)));
    try (apply int_of_str_format_02d; lia); [| lia].
  apply split_hms; apply format_02d_digits; lia.
Qed.

Lemma hms_to_seconds_seconds_to_hms_witness :
  (0 <= 86399)%Z
  /\ hms_to_seconds (seconds_to_hms (inject_Z 86399)) = 86399%Z.
Proof.
  split; [lia | apply (hms_to_seconds_seconds_to_hms 86399); lia].
Defined.

End TimeUtilsFacts.

(* ================================================================== *)
(** * Properties: the colour matcher *)
(* ================================================================== *)

Module ColorUtilsFacts.

Import Np ColorUtils Notions Samples.
Local Open Scope string_scope.

Section Matcher.

Variable bgr2hsv : Pixel -> Pixel.

Lemma zip_with_map_same {A B C D : Type} (f : B -> C -> D) (g : A -> B)
  (h : A -> C) (l : list A) :
  zip_with f (map g l) (map h l) = map (fun a => f (g a) (h a)) l.
Proof. induction l as [| a l IH]; simpl; [| rewrite IH]; reflexivity. Qed.

Lemma bitwise_or_mask_of (p q : Pixel -> bool) (img : Image) :
  bitwise_or (mask_of p img) (mask_of q img)
  = mask_of (fun px => p px || q px) img.
Proof.
  unfold bitwise_or, mask_of. rewrite zip_with_map_same.
  apply map_ext. intros row. rewrite zip_with_map_same.
  apply map_ext. intros px. destruct (p px), (q px); reflexivity.
Qed.

Lemma mask_of_ext (p q : Pixel -> bool) (img : Image) :
  (forall px, p px = q px) -> mask_of p img = mask_of q img.
Proof.
  intros H. unfold mask_of. apply map_ext. intros row.
  apply map_ext. intros px. rewrite H. reflexivity.
Qed.

Lemma combine_masks_mask_of (hsv_roi : Image)
  (hsv_ranges : list (Pixel * Pixel)) :
  forall p,
    combine_masks hsv_roi hsv_ranges (mask_of p hsv_roi)
    = mask_of (fun px => p px || in_ranges hsv_ranges px) hsv_roi.
Proof.
  induction hsv_ranges as [| [lower upper] rest IH]; intros p; simpl.
  - apply mask_of_ext. intros px. rewrite orb_false_r. reflexivity.
  - change (inRange hsv_roi lower upper)
      with (mask_of (in_range lower upper) hsv_roi).
    rewrite bitwise_or_mask_of, IH.
    apply mask_of_ext. intros px. rewrite orb_assoc. reflexivity.
Qed.

Lemma count_nonzero_row_mask (p : Pixel -> bool) (row : list Pixel) :
  count_nonzero_row (map (fun px => if p px then 255 else 0)%Z row)
  = Z.of_nat (List.length (filter p row)).
Proof.
  unfold count_nonzero_row. f_equal.
  induction row as [| px row IH]; simpl; [reflexivity |].
  destruct (p px); simpl; rewrite IH; reflexivity.
Qed.

Lemma countNonZero_mask_of (p : Pixel -> bool) (img : Image) :
  countNonZero (mask_of p img)
  = Z.of_nat (List.length (filter p (List.concat img))).
Proof.
  unfold countNonZero, mask_of.
  induction img as [| row img IH]; simpl; [reflexivity |].
  rewrite IH, count_nonzero_row_mask, filter_app, length_app. lia.
Qed.

Lemma filter_map_pixels (p : Pixel -> bool) (img : Image) :
  List.length (filter p (List.concat (map (map bgr2hsv) img)))
  = List.length (filter (fun px => p (bgr2hsv px)) (List.concat img)).
Proof.
  induction img as [| row img IH]; simpl; [reflexivity |].
  rewrite !filter_app, !length_app, IH. f_equal.
  induction row as [| px row IHr]; simpl; [reflexivity |].
  destruct (p (bgr2hsv px)); simpl; rewrite IHr; reflexivity.
Qed.

(** What the mask loop counts. *)
Lemma counted_pixels (image_roi : Image)
  (hsv_ranges : list (Pixel * Pixel)) :
  countNonZero
    (combine_masks (cvtColor_BGR2HSV bgr2hsv image_roi) hsv_ranges
       (zeros_like (cvtColor_BGR2HSV bgr2hsv image_roi)))
  = matching_pixels bgr2hsv hsv_ranges image_roi.
Proof.
  change (zeros_like (cvtColor_BGR2HSV bgr2hsv image_roi))
    with (mask_of (fun _ => false) (cvtColor_BGR2HSV bgr2hsv image_roi)).
  rewrite combine_masks_mask_of, countNonZero_mask_of.
  unfold matching_pixels, cvtColor_BGR2HSV.
  rewrite filter_map_pixels. reflexivity.
Qed.

Lemma shape_cvtColor (image_roi : Image) :
  (shape0 (cvtColor_BGR2HSV bgr2hsv image_roi)
   * shape1 (cvtColor_BGR2HSV bgr2hsv image_roi))%Z
  = total_pixels image_roi.
Proof.
  unfold total_pixels, shape0, shape1, cvtColor_BGR2HSV.
  rewrite length_map. destruct image_roi as [| row rest]; simpl;
    [reflexivity | rewrite length_map; reflexivity].
Qed.

Lemma get_hsv_range_nonempty (color_name : string) :
  get_hsv_range color_name <> Some [].
Proof.
  unfold get_hsv_range.
  repeat match goal with
         | |- context [if ?b then _ else _] => destruct b
         end; discriminate.
Qed.

(** All pixels are counted by the shape when the rows have one length. *)
Lemma total_pixels_rectangular (image_roi : Image) (w : nat) :
  Forall (fun row => List.length row = w) image_roi ->
  image_roi <> [] ->
  total_pixels image_roi = Z.of_nat (List.length (List.concat image_roi)).
Proof.
  intros Hall Hne. unfold total_pixels, shape0, shape1.
  destruct image_roi as [| row rest]; [contradiction |].
  assert (Hw : List.length row = w) by (inversion Hall; assumption).
  rewrite Hw. clear Hne Hw.
  induction Hall as [| r l Hr Hl IH]; [simpl; lia |].
  cbn [List.concat List.length]. rewrite length_app, Hr.
  cbn [List.length] in IH. lia.
Qed.

(** C7.  [is_color_match] returns true without looking at the pixels when
    the colour name is the sentinel ["none"], when the region is empty, or
    when the range table does not know the name; in every other case it
    returns true if and only if the fraction of the region's pixels that
    fall in the union of the colour's HSV ranges is strictly greater than
    the threshold (0.20 by default). *)
Theorem is_color_match_spec (image_roi : Image) (color_filter_name : string)
  (match_threshold : Q) :
  (Py.lower color_filter_name = "none" ->
   is_color_match bgr2hsv image_roi color_filter_name match_threshold
   = true)
  /\ (size image_roi = 0%Z ->
      is_color_match bgr2hsv image_roi color_filter_name match_threshold
      = true)
  /\ (get_hsv_range color_filter_name = None ->
      is_color_match bgr2hsv image_roi color_filter_name match_threshold
      = true)
  /\ (forall hsv_ranges,
         Py.lower color_filter_name <> "none" ->
         size image_roi <> 0%Z ->
         get_hsv_range color_filter_name = Some hsv_ranges ->
         (is_color_match bgr2hsv image_roi color_filter_name
            match_threshold = true
          <-> (match_threshold
               < inject_Z (matching_pixels bgr2hsv hsv_ranges image_roi)
                 / inject_Z (total_pixels image_roi))%Q))
  /\ default_match_threshold == 0.20.
Proof.
  unfold is_color_match.
  split; [| split; [| split; [| split]]].
  - intros ->. reflexivity.
  - intros ->. rewrite orb_true_r. reflexivity.
  - intros ->. destruct (_ || _); reflexivity.
  - intros hsv_ranges Hname Hsize Hranges.
    apply String.eqb_neq in Hname. apply Z.eqb_neq in Hsize.
    rewrite Hname, Hsize, Hranges. cbn [orb].
    destruct hsv_ranges as [| r rest];
      [exfalso; exact (get_hsv_range_nonempty _ Hranges) |].
    cbv zeta. rewrite counted_pixels, shape_cvtColor.
    rewrite negb_true_iff. split.
    + intros H. apply Qnot_le_lt. intros Hle.
      apply Qle_bool_iff in Hle. congruence.
    + intros H. destruct (Qle_bool _ _) eqn:E; [| reflexivity].
      apply Qle_bool_iff in E. exfalso. exact (Qlt_not_le _ _ H E).
  - reflexivity.
Qed.

End Matcher.

Example one_red_in_five_is_no_match :
  is_color_match already_hsv (five_pixels 1) "red" default_match_threshold
  = false.
Proof. reflexivity. Qed.

Example two_red_in_five_is_a_match :
  is_color_match already_hsv (five_pixels 2) "Red" default_match_threshold
  = true.
Proof. reflexivity. Qed.

Example unknown_colour_matches :
  is_color_match already_hsv (five_pixels 0) "purple"
    default_match_threshold = true.
Proof. reflexivity. Qed.

Lemma is_color_match_spec_witness :
  Py.lower "red" <> "none"
  /\ size (five_pixels 2) <> 0%Z
  /\ get_hsv_range "red"
     = Some [((0, 50, 50), (10, 255, 255));
             ((170, 50, 50), (180, 255, 255))]%Z
  /\ (is_color_match already_hsv (five_pixels 2) "red"
        default_match_threshold = true
      <-> (default_match_threshold
           < inject_Z
               (matching_pixels already_hsv
                  [((0, 50, 50), (10, 255, 255));
                   ((170, 50, 50), (180, 255, 255))]%Z (five_pixels 2))
             / inject_Z (total_pixels (five_pixels 2)))%Q).
Proof.
  assert (H1 : Py.lower "red" <> "none") by discriminate.
  assert (H2 : size (five_pixels 2) <> 0%Z) by discriminate.
  split; [exact H1 |]. split; [exact H2 |]. split; [reflexivity |].
  exact (proj1 (proj2 (proj2 (proj2
           (is_color_match_spec already_hsv (five_pixels 2) "red"
              default_match_threshold))))
           _ H1 H2 eq_refl).
Defined.

End ColorUtilsFacts.

(* ================================================================== *)
(** * Properties: the analysis worker *)
(* ================================================================== *)

Module VideoWorkerFacts.

Import Np VideoWorker Notions.
Local Open Scope string_scope.

(** ** The decoder *)

Lemma cap_read_some (cap cap' : VideoCapture) (frame : Image) :
  cap_read cap = (Some frame, cap') ->
  is_opened cap = true
  /\ (0 <= pos_frames cap)%Z
  /\ nth_error (frames cap) (Z.to_nat (pos_frames cap)) = Some frame
  /\ cap' = mkCap true (frames cap) (pos_frames cap + 1).
Proof.
  unfold cap_read.
  destruct (is_opened cap) eqn:Ho; [| discriminate].
  destruct (0 <=? pos_frames cap)%Z eqn:Hp; [| discriminate].
  cbn [andb].
  destruct (nth_error _ _) as [fr |] eqn:Hn; [| discriminate].
  intros [= <- <-]. repeat split; try assumption; try reflexivity; lia.
Qed.

Lemma cap_read_none (cap cap' : VideoCapture) :
  cap_read cap = (None, cap') -> cap' = cap.
Proof.
  unfold cap_read.
  destruct (is_opened cap && (0 <=? pos_frames cap)%Z).
  - destruct (nth_error _ _); [discriminate | intros [= <-]; reflexivity].
  - intros [= <-]. reflexivity.
Qed.

Lemma remaining_after_read (cap cap' : VideoCapture) (frame : Image) :
  cap_read cap = (Some frame, cap') ->
  (remaining cap' < remaining cap)%nat.
Proof.
  intros (Ho & Hp & Hn & ->)%cap_read_some.
  assert (Hlt : (Z.to_nat (pos_frames cap) < List.length (frames cap))%nat)
    by (apply nth_error_Some; congruence).
  unfold remaining. rewrite Ho. cbn [is_opened pos_frames frames andb].
  replace (0 <=? pos_frames cap)%Z with true by lia.
  replace (0 <=? pos_frames cap + 1)%Z with true by lia.
  lia.
Qed.

Section Facts.

Variable bgr2hsv : Pixel -> Pixel.
Variable self : Worker.
Variable running : nat -> bool.

Local Abbreviation pass := (pass bgr2hsv self running).
Local Abbreviation loop := (loop bgr2hsv self running).

(** ** One pass *)

Lemma pass_continue (k : nat) (cap cap' : VideoCapture) (fc fc' : Z)
  (emission : option FrameSignal) :
  pass k cap fc = Continue cap' fc' emission ->
  running k = true
  /\ (exists frame, cap_read cap = (Some frame, cap'))
  /\ fc' = (fc + 1)%Z
  /\ Qeq_bool (video_fps self) 0 = false
  /\ past_end self (time_of (cap_get_pos_frames cap') (video_fps self))
     = false
  /\ match emission with
     | None => skipped self fc' = true
     | Some f =>
         skipped self fc' = false
         /\ sig_frame_pos f = cap_get_pos_frames cap'
         /\ sig_video_fps f = video_fps self
         /\ sig_frame_counter f = fc'
     end.
Proof.
  unfold VideoWorker.pass, time_of.
  destruct (running k) eqn:Hr; [| discriminate].
  destruct (is_opened cap) eqn:Ho; [| discriminate]. cbn [andb negb].
  destruct (cap_read cap) as [[frame |] c] eqn:Hread; [| discriminate].
  destruct (Qeq_bool (video_fps self) 0) eqn:Hz; [discriminate |].
  destruct (past_end self _) eqn:Hp; [discriminate |].
  destruct (skipped self (fc + 1)) eqn:Hs.
  - intros [= <- <- <-]. repeat split; eauto.
  - destruct (predict _ _ _ _) as [dets |]; [| discriminate].
    intros [= <- <- <-]. cbn. repeat split; eauto.
Qed.

Lemma pass_break (k : nat) (cap cap' : VideoCapture) (fc fc' reads : Z) :
  pass k cap fc = Break cap' fc' reads ->
  (reads = 0%Z /\ cap' = cap /\ fc' = fc)
  \/ (reads = 1%Z /\ fc' = (fc + 1)%Z
      /\ exists frame, cap_read cap = (Some frame, cap')).
Proof.
  unfold VideoWorker.pass.
  destruct (negb (running k && is_opened cap));
    [intros [= <- <- <-]; left; auto |].
  destruct (cap_read cap) as [[frame |] c] eqn:Hread.
  - destruct (Qeq_bool (video_fps self) 0); [discriminate |].
    destruct (past_end self _).
    + intros [= <- <- <-]. right. eauto.
    + destruct (skipped self (fc + 1)); [discriminate |].
      destruct (predict _ _ _ _); discriminate.
  - intros [= <- <- <-]. left. apply cap_read_none in Hread. auto.
Qed.

Lemma pass_raise (k : nat) (cap cap' : VideoCapture) (fc fc' : Z)
  (exn : Exception) :
  pass k cap fc = Raise exn cap' fc' ->
  exists frame, cap_read cap = (Some frame, cap').
Proof.
  unfold VideoWorker.pass.
  destruct (negb (running k && is_opened cap)); [discriminate |].
  destruct (cap_read cap) as [[frame |] c] eqn:Hread; [| discriminate].
  destruct (Qeq_bool (video_fps self) 0);
    [intros [= <- <- <-]; eauto |].
  destruct (past_end self _); [discriminate |].
  destruct (skipped self (fc + 1)); [discriminate |].
  destruct (predict _ _ _ _); [discriminate |].
  intros [= <- <- <-]. eauto.
Qed.

Lemma pass_unopened (k : nat) (cap : VideoCapture) (fc : Z) :
  is_opened cap = false -> pass k cap fc = Break cap fc 0.
Proof.
  intros H. unfold VideoWorker.pass. rewrite H, andb_false_r. reflexivity.
Qed.

(** A pass on which the detector raises. *)
Lemma pass_detector_raises (k : nat) (cap cap' : VideoCapture) (fc : Z)
  (frame : Image) :
  running k = true ->
  cap_read cap = (Some frame, cap') ->
  Qeq_bool (video_fps self) 0 = false ->
  past_end self (time_of (cap_get_pos_frames cap') (video_fps self))
  = false ->
  skipped self (fc + 1) = false ->
  predict (model self) frame (conf_threshold self) (target_classes self)
  = None ->
  pass k cap fc = Raise DetectorError cap' (fc + 1).
Proof.
  intros Hr Hread Hz Hp Hs Hd. unfold VideoWorker.pass, time_of in *.
  destruct (cap_read_some _ _ _ Hread) as (Ho & _).
  rewrite Hr, Ho, Hread, Hz, Hp, Hs, Hd. reflexivity.
Qed.

(** ** The loop *)

(** The loop ends: fuel beyond the frames still to be delivered is never
    used up. *)
Lemma loop_total (fuel : nat) :
  forall k cap fc,
    (remaining cap < fuel)%nat -> exists e, loop fuel k cap fc = Some e.
Proof.
  induction fuel as [| fuel IH]; intros k cap fc Hfuel; [lia |].
  cbn [VideoWorker.loop].
  destruct (pass k cap fc) as [c fc' rd | exn c fc' | c fc' em] eqn:Hp;
    [eauto | eauto |].
  destruct (pass_continue _ _ _ _ _ _ Hp) as (_ & (fr & Hread) & _).
  pose proof (remaining_after_read _ _ _ Hread).
  destruct (IH (S k) c fc' ltac:(lia)) as (e & ->). cbn. eauto.
Qed.

(** What is known of every emitted frame signal: it carries the worker's
    frame rate, which is not zero; its frame is not past the end bound
    and was not to be skipped; and its position is ahead of its counter
    by as much as the capture was ahead of the counter when the loop
    began. *)
Lemma loop_emitted_inv (fuel : nat) :
  forall k cap fc e,
    loop fuel k cap fc = Some e ->
    forall f,
      In f (loop_emitted e) ->
      sig_video_fps f = video_fps self
      /\ Qeq_bool (video_fps self) 0 = false
      /\ past_end self (time_of (sig_frame_pos f) (video_fps self)) = false
      /\ skipped self (sig_frame_counter f) = false
      /\ (fc < sig_frame_counter f)%Z
      /\ sig_frame_pos f
         = inject_Z (sig_frame_counter f + (pos_frames cap - fc)).
Proof.
  induction fuel as [| fuel IH]; intros k cap fc e; [discriminate |].
  cbn [VideoWorker.loop].
  destruct (pass k cap fc) as [c fc' rd | exn c fc' | c fc' em] eqn:Hp.
  - intros [= <-] f [].
  - intros [= <-] f [].
  - destruct (loop fuel (S k) c fc') as [e' |] eqn:Hl; [| discriminate].
    intros [= <-] f Hin.
    destruct (pass_continue _ _ _ _ _ _ Hp)
      as (_ & (fr & Hread) & -> & Hz & Hpe & Hem).
    destruct (cap_read_some _ _ _ Hread) as (_ & _ & _ & ->).
    assert (Hlater :
              In f (loop_emitted e') ->
              sig_video_fps f = video_fps self
              /\ Qeq_bool (video_fps self) 0 = false
              /\ past_end self (time_of (sig_frame_pos f) (video_fps self))
                 = false
              /\ skipped self (sig_frame_counter f) = false
              /\ (fc < sig_frame_counter f)%Z
              /\ sig_frame_pos f
                 = inject_Z (sig_frame_counter f + (pos_frames cap - fc))).
    { intros Hin'.
      destruct (IH _ _ _ _ Hl f Hin') as (H1 & H2 & H3 & H4 & H5 & H6).
      cbn [pos_frames] in H6.
      repeat split; try assumption; [lia |].
      rewrite H6. f_equal. lia. }
    destruct em as [f0 |]; cbn in Hin; [| exact (Hlater Hin)].
    destruct Hin as [<- | Hin]; [| exact (Hlater Hin)].
    destruct Hem as (Hs & Hpos & Hfps & Hc).
    rewrite Hpos, Hc. unfold cap_get_pos_frames in *. cbn [pos_frames] in *.
    repeat split; try assumption; [lia |].
    f_equal. lia.
Qed.

(** The first emitted frame signal belongs to the first frame that is
    not to be skipped. *)
Lemma loop_first_emitted (fuel : nat) :
  forall k cap fc e f rest,
    loop fuel k cap fc = Some e ->
    loop_emitted e = f :: rest ->
    forall c, (fc < c < sig_frame_counter f)%Z -> skipped self c = true.
Proof.
  induction fuel as [| fuel IH]; intros k cap fc e f rest; [discriminate |].
  cbn [VideoWorker.loop].
  destruct (pass k cap fc) as [c' fc' rd | exn c' fc' | c' fc' em] eqn:Hp.
  - intros [= <-]. discriminate.
  - intros [= <-]. discriminate.
  - destruct (loop fuel (S k) c' fc') as [e' |] eqn:Hl; [| discriminate].
    intros [= <-] Hem c Hc.
    destruct (pass_continue _ _ _ _ _ _ Hp)
      as (_ & _ & -> & _ & _ & Hcase).
    destruct em as [f0 |]; cbn in Hem.
    + injection Hem as -> _. destruct Hcase as (_ & _ & _ & Hcnt). lia.
    + destruct (Z.eq_dec c (fc + 1)) as [-> | Hne]; [exact Hcase |].
      apply (IH _ _ _ _ _ _ Hl Hem). lia.
Qed.

(** Every frame read before the last one read passed the end-time
    check. *)
Lemma loop_reads_within (fuel : nat) :
  forall k cap fc e,
    loop fuel k cap fc = Some e ->
    forall j,
      (0 <= j < loop_reads e - 1)%Z ->
      past_end self
        (time_of (inject_Z (pos_frames cap + j + 1)) (video_fps self))
      = false.
Proof.
  induction fuel as [| fuel IH]; intros k cap fc e; [discriminate |].
  cbn [VideoWorker.loop].
  destruct (pass k cap fc) as [c fc' rd | exn c fc' | c fc' em] eqn:Hp.
  - intros [= <-] j Hj. cbn in Hj.
    destruct (pass_break _ _ _ _ _ _ Hp) as [(-> & _) | (-> & _)]; lia.
  - intros [= <-] j Hj. cbn in Hj. lia.
  - destruct (loop fuel (S k) c fc') as [e' |] eqn:Hl; [| discriminate].
    intros [= <-] j Hj.
    destruct (pass_continue _ _ _ _ _ _ Hp)
      as (_ & (fr & Hread) & _ & _ & Hpe & _).
    destruct (cap_read_some _ _ _ Hread) as (_ & _ & _ & ->).
    unfold cap_get_pos_frames in Hpe. cbn [pos_frames] in Hpe.
    assert (Hreads : loop_reads (after_pass em e') = (loop_reads e' + 1)%Z)
      by (destruct em; reflexivity).
    rewrite Hreads in Hj.
    destruct (Z.eq_dec j 0) as [-> | Hne].
    + rewrite Z.add_0_r. exact Hpe.
    + pose proof (IH _ _ _ _ Hl (j - 1)%Z ltac:(lia)) as H.
      cbn [pos_frames] in H.
      replace (pos_frames cap + 1 + (j - 1) + 1)%Z
        with (pos_frames cap + j + 1)%Z in H by lia.
      exact H.
Qed.

(** An exception leaves the capture open. *)
Lemma loop_raised_open (fuel : nat) :
  forall k cap fc e exn,
    loop fuel k cap fc = Some e ->
    loop_raised e = Some exn ->
    is_opened (loop_cap e) = true.
Proof.
  induction fuel as [| fuel IH]; intros k cap fc e exn; [discriminate |].
  cbn [VideoWorker.loop].
  destruct (pass k cap fc) as [c fc' rd | x c fc' | c fc' em] eqn:Hp.
  - intros [= <-]. discriminate.
  - intros [= <-] _. cbn.
    destruct (pass_raise _ _ _ _ _ _ Hp) as (fr & Hread).
    destruct (cap_read_some _ _ _ Hread) as (_ & _ & _ & ->). reflexivity.
  - destruct (loop fuel (S k) c fc') as [e' |] eqn:Hl; [| discriminate].
    intros [= <-] Hr.
    assert (E : loop_raised (after_pass em e') = loop_raised e'
                /\ loop_cap (after_pass em e') = loop_cap e')
      by (destruct em; split; reflexivity).
    destruct E as [E1 E2]. rewrite E2. rewrite E1 in Hr.
    exact (IH _ _ _ _ _ Hl Hr).
Qed.

Lemma pass_emission_frame (k : nat) (cap cap' : VideoCapture) (fc fc' : Z)
  (f : FrameSignal) :
  pass k cap fc = Continue cap' fc' (Some f) ->
  cap_read cap = (Some (base_frame (sig_frame f)), cap').
Proof.
  unfold VideoWorker.pass.
  destruct (negb (running k && is_opened cap)); [discriminate |].
  destruct (cap_read cap) as [[frame |] c] eqn:Hread; [| discriminate].
  destruct (Qeq_bool (video_fps self) 0); [discriminate |].
  destruct (past_end self _); [discriminate |].
  destruct (skipped self (fc + 1)); [discriminate |].
  destruct (predict _ _ _ _); [| discriminate].
  intros [= <- <- <-]. reflexivity.
Qed.

(** The frame an emitted signal shows is the frame of the video just
    before the position the signal carries. *)
Lemma loop_emitted_frame (fuel : nat) :
  forall k cap fc e,
    loop fuel k cap fc = Some e ->
    forall f,
      In f (loop_emitted e) ->
      exists z,
        (1 <= z)%Z
        /\ sig_frame_pos f = inject_Z z
        /\ nth_error (frames cap) (Z.to_nat (z - 1))
           = Some (base_frame (sig_frame f)).
Proof.
  induction fuel as [| fuel IH]; intros k cap fc e; [discriminate |].
  cbn [VideoWorker.loop].
  destruct (pass k cap fc) as [c fc' rd | exn c fc' | c fc' em] eqn:Hp.
  - intros [= <-] f [].
  - intros [= <-] f [].
  - destruct (loop fuel (S k) c fc') as [e' |] eqn:Hl; [| discriminate].
    intros [= <-] f Hin.
    destruct (pass_continue _ _ _ _ _ _ Hp)
      as (_ & (fr & Hread) & _ & _ & _ & Hem).
    destruct (cap_read_some _ _ _ Hread) as (_ & Hpos & _ & ->).
    assert (Hlater :
              In f (loop_emitted e') ->
              exists z,
                (1 <= z)%Z
                /\ sig_frame_pos f = inject_Z z
                /\ nth_error (frames cap) (Z.to_nat (z - 1))
                   = Some (base_frame (sig_frame f)))
      by (intros Hin'; exact (IH _ _ _ _ Hl f Hin')).
    destruct em as [f0 |]; cbn in Hin; [| exact (Hlater Hin)].
    destruct Hin as [<- | Hin]; [| exact (Hlater Hin)].
    destruct Hem as (_ & Hfpos & _).
    apply pass_emission_frame in Hp.
    destruct (cap_read_some _ _ _ Hp) as (_ & _ & Hnth & _).
    exists (pos_frames cap + 1)%Z. split; [lia |]. split; [exact Hfpos |].
    replace (pos_frames cap + 1 - 1)%Z with (pos_frames cap) by lia.
    exact Hnth.
Qed.

(** ** The run *)

Local Abbreviation run := (run bgr2hsv self).

Lemma start_frames (source : option (list Image)) :
  (remaining (fst (start self source))
   <= List.length (frames (fst (start self source))))%nat.
Proof.
  unfold remaining.
  destruct (is_opened _ && _); lia.
Qed.

(** [run] returns. *)
Lemma run_total (source : option (list Image)) (total_time : Q) :
  exists r, run source running total_time = Some r.
Proof.
  unfold VideoWorker.run.
  pose proof (start_frames source) as Hrem.
  destruct (start self source) as [cap fc]. cbn [fst] in Hrem.
  destruct (loop_total (S (List.length (frames cap))) 0%nat cap fc
              ltac:(lia)) as (e & ->).
  destruct (loop_raised e); eauto.
Qed.

(** [run] in terms of its loop. *)
Lemma run_inv (source : option (list Image)) (total_time : Q) (r : RunEnd) :
  run source running total_time = Some r ->
  exists e,
    loop (S (List.length (frames (fst (start self source))))) 0%nat
      (fst (start self source)) (snd (start self source)) = Some e
    /\ frames_read r = loop_reads e
    /\ raised r = loop_raised e
    /\ match loop_raised e with
       | Some _ =>
           emitted r = map frame_signal (loop_emitted e)
           /\ final_cap r = loop_cap e
       | None =>
           emitted r
           = (map frame_signal (loop_emitted e)
              ++ [finished_signal total_time])%list
           /\ final_cap r = cap_release (loop_cap e)
       end.
Proof.
  unfold VideoWorker.run.
  destruct (start self source) as [cap fc]. cbn [fst snd].
  destruct (loop _ _ _ _) as [e |]; [| discriminate].
  destruct (loop_raised e) eqn:Hr; intros [= <-]; exists e; cbn;
    rewrite ?Hr; auto.
Qed.

Lemma emitted_frame_signal (source : option (list Image)) (total_time : Q)
  (r : RunEnd) (e : LoopEnd) (f : FrameSignal) :
  match loop_raised e with
  | Some _ => emitted r = map frame_signal (loop_emitted e)
              /\ final_cap r = loop_cap e
  | None => emitted r
            = (map frame_signal (loop_emitted e)
               ++ [finished_signal total_time])%list
            /\ final_cap r = cap_release (loop_cap e)
  end ->
  In (frame_signal f) (emitted r) -> In f (loop_emitted e).
Proof.
  intros H Hin.
  assert (Hmap : In (frame_signal f) (map frame_signal (loop_emitted e))).
  { destruct (loop_raised e); destruct H as [H _]; rewrite H in Hin;
      [exact Hin |].
    apply in_app_or in Hin as [Hin | [Hin | []]];
      [exact Hin | discriminate]. }
  apply in_map_iff in Hmap as (f' & [= ->] & Hf). exact Hf.
Qed.

(** ** The end bound *)

(** C2.  In a run with a finite [end_sec], no frame signal is emitted for
    a frame whose reconstructed time [(position - 1) / video_fps] exceeds
    [end_sec], whatever [frame_skip] is; the check is made on every
    frame read, skipped or not, and the loop stops at the first frame
    past the bound: every frame read before the last one read lies
    within the bound. *)
Theorem end_bound_respected (source : option (list Image))
  (total_time : Q) (end_second : Q) (r : RunEnd) :
  end_sec self = Some end_second ->
  run source running total_time = Some r ->
  (forall f,
      In (frame_signal f) (emitted r) ->
      (time_of (sig_frame_pos f) (sig_video_fps f) <= end_second)%Q)
  /\ (forall j,
         (0 <= j < frames_read r - 1)%Z ->
         (time_of
            (inject_Z (pos_frames (fst (start self source)) + j + 1))
            (video_fps self)
          <= end_second)%Q).
Proof.
  intros Hend Hrun.
  destruct (run_inv _ _ _ Hrun) as (e & Hloop & Hreads & _ & Hem).
  assert (Hle : forall t, past_end self t = false -> (t <= end_second)%Q).
  { intros t. unfold past_end. rewrite Hend. intros H.
    apply negb_false_iff in H. apply Qle_bool_iff, H. }
  split.
  - intros f Hin.
    pose proof (emitted_frame_signal source total_time r e f Hem Hin) as Hf.
    destruct (loop_emitted_inv _ _ _ _ _ Hloop f Hf) as (-> & _ & Hp & _).
    apply Hle, Hp.
  - intros j Hj. rewrite Hreads in Hj.
    apply Hle, (loop_reads_within _ _ _ _ _ Hloop j Hj).
Qed.

(** ** The seek *)

Lemma start_seek (source : option (list Image)) :
  (0 < start_sec self)%Q ->
  start self source
  = (cap_set_pos_frames (VideoCapture_open source)
       (Py.int_of_float (start_sec self * video_fps self)),
     (Py.int_of_float (start_sec self * video_fps self) - 1)%Z).
Proof.
  intros H. unfold start.
  destruct (Qle_bool (start_sec self) 0) eqn:E; [| reflexivity].
  apply Qle_bool_iff in E. exfalso. exact (Qlt_not_le _ _ H E).
Qed.

Lemma seek_index_inside (len k : Z) :
  (0 <= k < 2 ^ 63)%Z -> seek_index len k = Z.min k len.
Proof.
  intros [Hlo Hhi]. unfold seek_index.
  destruct (Z.ltb_spec k 0); [lia |].
  destruct (Z.leb_spec (2 ^ 63) k); [lia | reflexivity].
Qed.

Lemma seek_index_outside (len k : Z) :
  (k < 0 \/ 2 ^ 63 <= k)%Z -> seek_index len k = 0%Z.
Proof.
  intros H. unfold seek_index.
  destruct (Z.ltb_spec k 0); [reflexivity |].
  destruct (Z.leb_spec (2 ^ 63) k); [reflexivity | lia].
Qed.

Lemma seek_index_bounds (len k : Z) :
  (0 <= len)%Z -> (0 <= seek_index len k <= len)%Z.
Proof.
  intros H. unfold seek_index.
  destruct ((k <? 0) || (2 ^ 63 <=? k))%Z eqn:E; [lia |].
  apply orb_false_iff in E as [E _]. lia.
Qed.

Lemma start_seek_position (video : list Image) :
  (0 < start_sec self)%Q ->
  frames (fst (start self (Some video))) = video
  /\ pos_frames (fst (start self (Some video)))
     = seek_index (Z.of_nat (List.length video))
         (Py.int_of_float (start_sec self * video_fps self)).
Proof.
  intros H. rewrite (start_seek _ H). split; reflexivity.
Qed.

Lemma some_multiple_is_near (n : Z) (base : Z) :
  (1 < n ->
   exists c, base < c <= base + n /\ c mod n = 0)%Z.
Proof.
  intros Hn. exists (n * (base / n + 1))%Z.
  pose proof (Z.div_mod base n ltac:(lia)).
  pose proof (Z.mod_pos_bound base n ltac:(lia)).
  split; [lia |].
  rewrite Z.mul_comm. apply Z_mod_mult.
Qed.

Lemma int_of_time_30 (c : Z) :
  (300 <= c < 330)%Z ->
  Py.int_of_float (time_of (inject_Z (c + 1)) 30) = 10%Z.
Proof.
  intros Hc. unfold Py.int_of_float, time_of. cbn.
  replace ((c + 1) * 1 + -1)%Z with c by lia.
  rewrite Z.mul_1_r, Z.quot_div_nonneg by lia.
  symmetry. apply Z.div_unique with (r := (c - 300)%Z); lia.
Qed.

(** C1, as the code has it.  If [start_sec > 0] the decoder is set to
    frame index [int(start_sec * video_fps)], which is the floor of the
    product for a frame rate that is not negative, and the read counter
    starts one below that index.  For [start_sec = 10] and
    [video_fps = 30] the first frame read is frame 300; the first frame
    signal emitted belongs to the first frame from there on that the
    skip rule lets through, and its reconstructed time stamp is
    [00:00:10] whenever [frame_skip] is at most 30. *)
Theorem seek_then_first_timestamp (source : option (list Image))
  (total_time : Q) :
  ((0 < start_sec self)%Q ->
   (0 <= video_fps self)%Q ->
   start self source
   = (cap_set_pos_frames (VideoCapture_open source)
        (Qfloor (start_sec self * video_fps self)),
      (Qfloor (start_sec self * video_fps self) - 1)%Z))
  /\ (start_sec self = 10%Q ->
      video_fps self = 30%Q ->
      (frame_skip self <= 30)%Z ->
      forall r f rest,
        run source running total_time = Some r ->
        emitted r = frame_signal f :: rest ->
        TimeUtils.seconds_to_hms
          (time_of (sig_frame_pos f) (sig_video_fps f))
        = "00:00:10").
Proof.
  split.
  - intros Hs Hf. rewrite (start_seek _ Hs).
    rewrite PyFacts.int_of_float_nonneg; [reflexivity |].
    apply Qmult_le_0_compat; [apply Qlt_le_weak, Hs | exact Hf].
  - intros Hs Hfps Hskip r f rest Hrun Hem.
    destruct (run_inv _ _ _ Hrun) as (e & Hloop & _ & _ & Hshape).
    assert (Hpos : (0 < start_sec self)%Q) by (rewrite Hs; reflexivity).
    assert (Hin : In (frame_signal f) (emitted r))
      by (rewrite Hem; left; reflexivity).
    pose proof (emitted_frame_signal source total_time r e f Hshape Hin)
      as Hf.
    assert (Hsrc : source <> None).
    { intros ->. revert Hloop. rewrite (start_seek _ Hpos).
      cbn. rewrite pass_unopened by reflexivity.
      intros [= <-]. exact Hf. }
    destruct (loop_emitted_inv _ _ _ _ _ Hloop f Hf)
      as (Hfps' & _ & _ & Hnoskip & Hlow & Hfpos).
    destruct (loop_emitted_frame _ _ _ _ _ Hloop f Hf)
      as (z & Hz & Hzpos & Hnth).
    assert (Hfc : snd (start self source) = 299%Z).
    { rewrite (start_seek _ Hpos), Hs, Hfps. reflexivity. }
    assert (Hahead : pos_frames (fst (start self source)) = 300%Z).
    { destruct source as [video |]; [| contradiction].
      destruct (start_seek_position video Hpos) as [Hfr Hseek].
      rewrite Hs, Hfps in Hseek.
      change (Py.int_of_float (10 * 30)) with 300%Z in Hseek.
      rewrite seek_index_inside in Hseek by (split; [lia | reflexivity]).
      rewrite Hfr in Hnth.
      assert (Hlen : (Z.to_nat (z - 1) < List.length video)%nat)
        by (apply nth_error_Some; congruence).
      rewrite Hzpos in Hfpos. injection Hfpos as Hzeq.
      rewrite Hfc in Hzeq, Hlow. lia. }
    rewrite Hahead in Hfpos.
    rewrite Hfc in *.
    assert (Hhead : exists rest', loop_emitted e = f :: rest').
    { destruct (loop_emitted e) as [| f0 l] eqn:El; [destruct Hf |].
      exists l. f_equal.
      destruct (loop_raised e); destruct Hshape as [Hshape _];
        rewrite Hem in Hshape; cbn in Hshape; congruence. }
    destruct Hhead as (rest' & Hhead).
    pose proof (loop_first_emitted _ _ _ _ _ _ _ Hloop Hhead) as Hskipped.
    assert (Hup : (sig_frame_counter f < 330)%Z).
    { destruct (Z_lt_ge_dec (sig_frame_counter f) 330) as [Hlt | Hge];
        [exact Hlt | exfalso].
      destruct (Z_lt_ge_dec 1 (frame_skip self)) as [Hbig | Hsmall].
      - destruct (some_multiple_is_near (frame_skip self) 299 Hbig)
          as (c & Hc & Hmod).
        pose proof (Hskipped c ltac:(lia)) as Hsk.
        unfold skipped in Hsk. rewrite Hmod in Hsk.
        rewrite andb_false_r in Hsk. discriminate.
      - pose proof (Hskipped 300%Z ltac:(lia)) as Hsk.
        unfold skipped in Hsk.
        replace (frame_skip self >? 1)%Z with false in Hsk by lia.
        discriminate. }
    rewrite TimeUtilsFacts.seconds_to_hms_int, Hfps', Hfps, Hfpos.
    replace (sig_frame_counter f + (300 - 299))%Z
      with (sig_frame_counter f + 1)%Z by lia.
    rewrite int_of_time_30 by lia. reflexivity.
Qed.

(** ** Failures *)

(** C3, as the code has it.  [run] has no exception handler.  When the
    detector raises on a frame, the pass ends there: nothing is emitted
    for that frame and the loop is left with the exception, so no later
    frame is read.  A run that the detector's exception leaves emits no
    finished signal and does not release the capture. *)
Theorem detector_exception_ends_run :
  (forall fuel k cap cap' fc frame,
      running k = true ->
      cap_read cap = (Some frame, cap') ->
      Qeq_bool (video_fps self) 0 = false ->
      past_end self (time_of (cap_get_pos_frames cap') (video_fps self))
      = false ->
      skipped self (fc + 1) = false ->
      predict (model self) frame (conf_threshold self)
        (target_classes self) = None ->
      loop (S fuel) k cap fc
      = Some (mkLoopEnd [] (Some DetectorError) cap' (fc + 1) 1))
  /\ (forall source total_time r,
         run source running total_time = Some r ->
         raised r = Some DetectorError ->
         forallb (fun s => negb (is_finished s)) (emitted r) = true
         /\ is_opened (final_cap r) = true).
Proof.
  split.
  - intros fuel k cap cap' fc frame Hr Hread Hz Hp Hs Hd.
    cbn [VideoWorker.loop].
    rewrite (pass_detector_raises _ _ _ _ _ Hr Hread Hz Hp Hs Hd).
    reflexivity.
  - intros source total_time r Hrun Hraised.
    destruct (run_inv _ _ _ Hrun) as (e & Hloop & _ & Hr & Hshape).
    rewrite Hraised in Hr. rewrite <- Hr in Hshape.
    destruct Hshape as [-> ->]. split.
    + apply forallb_forall. intros s (f & <- & _)%in_map_iff. reflexivity.
    + apply (loop_raised_open _ _ _ _ _ DetectorError Hloop).
      symmetry. exact Hr.
Qed.

(** C4, as the code has it.  When the video cannot be opened the loop
    condition is false at once: no frame is read, no frame signal is
    emitted, and the run ends as every finished run does, with its
    finished signal and without an exception; nothing tells the receiver
    that the source was unreadable. *)
Theorem unopened_source_finishes_normally (total_time : Q) :
  run None running total_time
  = Some (mkRunEnd [finished_signal total_time] None (mkCap false [] 0) 0).
Proof.
  unfold VideoWorker.run, start. cbn.
  destruct (negb (Qle_bool (start_sec self) 0)); cbn;
    rewrite pass_unopened by reflexivity; reflexivity.
Qed.

End Facts.

End VideoWorkerFacts.

(* ================================================================== *)
(** * Properties: the region of interest *)
(* ================================================================== *)

Module RoiFacts.

Import Np VideoWorker Notions Samples.
Local Open Scope string_scope.

Lemma in_firstn {A : Type} (x : A) (n : nat) :
  forall l, In x (firstn n l) -> In x l.
Proof.
  induction n as [| n IH]; intros [| a l]; simpl; try tauto.
  intros [-> | H]; [left; reflexivity | right; apply IH, H].
Qed.

Lemma in_skipn {A : Type} (x : A) (n : nat) :
  forall l, In x (skipn n l) -> In x l.
Proof.
  induction n as [| n IH]; intros [| a l]; simpl; try tauto.
  intros H. right. apply IH, H.
Qed.

Lemma in_slice {A : Type} (x : A) (start stop : Z) (l : list A) :
  In x (slice start stop l) -> In x l.
Proof. unfold slice. intros H. eapply in_skipn, in_firstn, H. Qed.


(** What the two [max] and the two [min] give. *)
Lemma clamp_box_bounds (h w x1 y1 x2 y2 : Z) :
  let '(x1', y1', x2', y2') := clamp_box h w (x1, y1, x2, y2) in
  (0 <= x1' /\ 0 <= y1' /\ x2' <= w /\ y2' <= h
   /\ x1' = Z.max 0 x1 /\ y1' = Z.max 0 y1
   /\ x2' = Z.min w x2 /\ y2' = Z.min h y2)%Z.
Proof. cbn. lia. Qed.

(** A box that does not meet the frame, which no detector run on the
    frame delivers: [min(w, x2)] leaves a negative [x2] as it is, and
    the slice [frame[1:3, 0:-3]] counts [-3] from the right edge. *)
Example clamp_of_box_left_of_frame :
  clamp_box (shape0 half_red_frame) (shape1 half_red_frame)
    (int_box box_left_of_frame)
  = (0, 1, -3, 3)%Z
  /\ roi_of half_red_frame box_left_of_frame
     = repeat (repeat red_hsv 3) 2
  /\ validate already_hsv red_filter_worker half_red_frame
       [box_left_of_frame]
     = [box_left_of_frame].
Proof. repeat split. Qed.

End RoiFacts.

(* ================================================================== *)
(** * Runs of the worker on small videos *)
(* ================================================================== *)

Module Scenarios.

Import Np VideoWorker VideoWorkerFacts Notions Samples.
Local Open Scope string_scope.

(** C1 fails as stated: with [start_sec = 10], [video_fps = 30] and
    [frame_skip = 97] the first frame let through after the seek is frame
    388, and the first frame signal carries position 389, whose
    reconstructed time stamp is [00:00:12]. *)
Lemma first_timestamp_with_skip_97 :
  exists r f rest,
    run hsv (worker quiet_model 97 30 10 None) (Some (video 400))
      never_stopped 0 = Some r
    /\ emitted r = frame_signal f :: rest
    /\ sig_frame_pos f = inject_Z 389
    /\ TimeUtils.seconds_to_hms
         (time_of (sig_frame_pos f) (sig_video_fps f)) = "00:00:12"
    /\ "00:00:12" <> "00:00:10".
Proof.
  eexists _, _, _.
  split; [vm_compute; reflexivity |].
  split; [reflexivity |].
  split; [reflexivity |].
  split; [vm_compute; reflexivity | discriminate].
Qed.

Lemma seek_then_first_timestamp_witness :
  exists r f rest,
    start (worker quiet_model 7 30 10 None) (Some (video 400))
    = (mkCap true (video 400) 300, 299%Z)
    /\ run hsv (worker quiet_model 7 30 10 None) (Some (video 400))
         never_stopped 0 = Some r
    /\ emitted r = frame_signal f :: rest
    /\ TimeUtils.seconds_to_hms
         (time_of (sig_frame_pos f) (sig_video_fps f)) = "00:00:10".
Proof.
  eexists _, _, _.
  split.
  { rewrite (proj1 (seek_then_first_timestamp hsv
                      (worker quiet_model 7 30 10 None) never_stopped
                      (Some (video 400)) 0) eq_refl);
      [reflexivity | discriminate]. }
  split; [vm_compute; reflexivity |].
  split; [reflexivity |].
  eapply (proj2 (seek_then_first_timestamp hsv
                   (worker quiet_model 7 30 10 None) never_stopped
                   (Some (video 400)) 0));
    [reflexivity | reflexivity | cbn; lia | vm_compute; reflexivity
    | reflexivity].
Defined.

Lemma end_bound_respected_witness :
  exists r,
    run hsv (worker quiet_model 3 10 0 (Some 5%Q)) (Some (video 100))
      never_stopped 0 = Some r
    /\ frames_read r = 52%Z
    /\ List.length (emitted r) = 18%nat
    /\ (forall f,
           In (frame_signal f) (emitted r) ->
           (time_of (sig_frame_pos f) (sig_video_fps f) <= 5)%Q)
    /\ (forall j,
           (0 <= j < frames_read r - 1)%Z ->
           (time_of (inject_Z (0 + j + 1)) 10 <= 5)%Q).
Proof.
  eexists.
  split; [vm_compute; reflexivity |].
  split; [reflexivity |].
  split; [reflexivity |].
  eapply (end_bound_respected hsv (worker quiet_model 3 10 0 (Some 5%Q))
            never_stopped (Some (video 100)) 0 5%Q);
    [reflexivity | vm_compute; reflexivity].
Defined.

(** C3 fails as stated: the detector raises on the second of three
    frames; the run ends there with the exception, after one frame
    signal, without reading the third frame and without a finished
    signal. *)
Lemma detector_exception_escapes :
  exists r,
    run hsv (worker (flaky_model 1) 1 30 0 None) (Some (video 3))
      never_stopped 0 = Some r
    /\ predict (flaky_model 1) (tiny_frame 1) (25 # 100) [0%Z] = None
    /\ raised r = Some DetectorError
    /\ frames_read r = 2%Z
    /\ List.length (emitted r) = 1%nat
    /\ forallb (fun s => negb (is_finished s)) (emitted r) = true.
Proof.
  eexists. split; [vm_compute; reflexivity |]. repeat split.
Qed.

Lemma detector_exception_ends_run_witness :
  loop hsv (worker (flaky_model 1) 1 30 0 None) never_stopped 3 1
    (mkCap true (video 3) 1) 1
  = Some (mkLoopEnd [] (Some DetectorError) (mkCap true (video 3) 2) 2 1)
  /\ exists r,
       run hsv (worker (flaky_model 1) 1 30 0 None) (Some (video 3))
         never_stopped 0 = Some r
       /\ raised r = Some DetectorError
       /\ forallb (fun s => negb (is_finished s)) (emitted r) = true
       /\ is_opened (final_cap r) = true.
Proof.
  split.
  - apply (proj1 (detector_exception_ends_run hsv
                    (worker (flaky_model 1) 1 30 0 None) never_stopped)
             2%nat 1%nat (mkCap true (video 3) 1) (mkCap true (video 3) 2)
             1%Z (tiny_frame 1)); reflexivity.
  - eexists. split; [vm_compute; reflexivity |].
    split; [reflexivity |].
    eapply (proj2 (detector_exception_ends_run hsv
                     (worker (flaky_model 1) 1 30 0 None) never_stopped)
              (Some (video 3)) 0%Q);
      [vm_compute; reflexivity | reflexivity].
Defined.

(** C4 fails as stated: on a path that cannot be opened the run ends
    with its finished signal and no exception, as a run over an empty
    video does; the receiver cannot tell the two apart. *)
Lemma unopened_source_looks_completed :
  run hsv (worker quiet_model 5 30 0 None) None never_stopped 7
  = Some (mkRunEnd [finished_signal 7] None (mkCap false [] 0) 0)
  /\ run hsv (worker quiet_model 5 30 0 None) (Some []) never_stopped 7
     = Some (mkRunEnd [finished_signal 7] None (mkCap false [] 0) 0).
Proof. split; vm_compute; reflexivity. Qed.

End Scenarios.

(* ================================================================== *)
(** * Properties: the evidence log *)
(* ================================================================== *)

Module EvidenceFacts.

Import Np VideoWorker VideoWorkerFacts Evidence Notions Samples.
Local Open Scope string_scope.

Lemma int_of_float_pred (z : Z) :
  Py.int_of_float (inject_Z z - 1)%Q = (Py.int_of_float (inject_Z z) - 1)%Z.
Proof.
  rewrite PyFacts.int_of_float_inject_Z.
  unfold Py.int_of_float. cbn. rewrite Z.quot_1_r. lia.
Qed.

Lemma inject_Z_inj (a b : Z) : inject_Z a = inject_Z b -> a = b.
Proof. intros [= H]. exact H. Qed.

Lemma start_source (self : Worker) (video : list Image) :
  frames (fst (start self (Some video))) = video.
Proof.
  unfold start. destruct (negb (Qle_bool (start_sec self) 0)); reflexivity.
Qed.

Lemma start_unseeked (self : Worker) (video : list Image) :
  (start_sec self <= 0)%Q ->
  start self (Some video) = (mkCap true video 0, 0%Z).
Proof.
  intros H. apply Qle_bool_iff in H. unfold start. rewrite H. reflexivity.
Qed.

(** What the recorder can rely on for a signal that a worker emitted. *)
Lemma emitted_in_inv (bgr2hsv : Pixel -> Pixel) (self : Worker)
  (video : list Image) (running : nat -> bool) (total_time : Q)
  (f : FrameSignal) :
  emitted_in bgr2hsv self video running total_time f ->
  Qeq_bool (sig_video_fps f) 0 = false
  /\ exists z,
       (1 <= z)%Z
       /\ sig_frame_pos f = inject_Z z
       /\ nth_error video (Z.to_nat (z - 1))
          = Some (base_frame (sig_frame f))
       /\ ((start_sec self <= 0)%Q -> sig_frame_counter f = z).
Proof.
  intros (r & Hrun & Hin).
  destruct (run_inv _ _ _ _ _ _ Hrun) as (e & Hloop & _ & _ & Hshape).
  pose proof (emitted_frame_signal (Some video) total_time r e f Hshape Hin)
    as Hf.
  destruct (loop_emitted_inv _ _ _ _ _ _ _ _ Hloop f Hf)
    as (Hfps & Hnz & _ & _ & _ & Hpos).
  destruct (loop_emitted_frame _ _ _ _ _ _ _ _ Hloop f Hf)
    as (z & Hz & Hfz & Hnth).
  rewrite start_source in Hnth.
  split; [rewrite Hfps; exact Hnz |].
  exists z. repeat split; try assumption.
  intros Hs. rewrite (start_unseeked _ _ Hs) in Hpos. cbn in Hpos.
  rewrite Hfz in Hpos. apply inject_Z_inj in Hpos. lia.
Qed.

Lemma add_evidence_stores (self : Window) (frame_rgb : AnnotatedFrame)
  (current_frame_pos video_fps : Q) (detection_count : Z)
  (filter_settings : FilterSettings) :
  negb (Qle_bool current_frame_pos 0) && Qeq_bool video_fps 0 = false ->
  add_evidence_to_gallery self frame_rgb current_frame_pos video_fps
    detection_count filter_settings
  = (mkWindow (total_evidence_frames self + 1)
       (gallery_frame_counter self + 1)
       (evidence_log self
        ++ [entry_of frame_rgb current_frame_pos video_fps detection_count
              filter_settings])
       (worker_running self) (report_enabled self) (total_frames self),
     None).
Proof.
  intros H. unfold add_evidence_to_gallery. rewrite H. reflexivity.
Qed.

Lemma add_evidence_consistent (self : Window) (frame_rgb : AnnotatedFrame)
  (current_frame_pos video_fps : Q) (detection_count : Z)
  (filter_settings : FilterSettings) :
  consistent self ->
  consistent
    (fst (add_evidence_to_gallery self frame_rgb current_frame_pos
            video_fps detection_count filter_settings)).
Proof.
  intros Hc. unfold add_evidence_to_gallery.
  destruct (negb (Qle_bool current_frame_pos 0) && Qeq_bool video_fps 0);
    [exact Hc |].
  unfold consistent in *. cbn. rewrite length_app. cbn. lia.
Qed.

Lemma perform_consistent (w : Window) (op : Operation) :
  consistent w -> consistent (perform w op).
Proof.
  intros Hc. destruct op as [f fs | b | n | any | | t]; cbn;
    try reflexivity; try exact Hc.
  unfold update_frame.
  destruct (sig_detection_count f >? 0)%Z;
    [apply add_evidence_consistent, Hc | exact Hc].
Qed.

Lemma perform_all_consistent (ops : list Operation) :
  forall w, consistent w -> consistent (perform_all w ops).
Proof.
  unfold perform_all.
  induction ops as [| op ops IH]; intros w Hc; cbn; [exact Hc |].
  apply IH, perform_consistent, Hc.
Qed.

(** C9.  [total_evidence_frames == len(evidence_log)] after every
    operation: both start at zero; a frame signal of a worker with
    [detection_count > 0] appends exactly one entry and adds exactly one
    to the counter, a frame signal without detections changes neither;
    and clearing the gallery, which starting a run and selecting a file
    also do, empties the log and zeroes the counter together. *)
Theorem evidence_counter_matches_log :
  (total_evidence_frames init = 0%Z /\ evidence_log init = [])
  /\ (forall ops, consistent (perform_all init ops))
  /\ (forall w op, consistent w -> consistent (perform w op))
  /\ (forall bgr2hsv self video running total_time f w filter_settings,
         emitted_in bgr2hsv self video running total_time f ->
         (sig_detection_count f > 0)%Z ->
         exists entry,
           evidence_log (perform w (OpUpdateFrame f filter_settings))
           = (evidence_log w ++ [entry])%list
           /\ total_evidence_frames
                (perform w (OpUpdateFrame f filter_settings))
              = (total_evidence_frames w + 1)%Z)
  /\ (forall f w filter_settings,
         (sig_detection_count f <= 0)%Z ->
         perform w (OpUpdateFrame f filter_settings) = w)
  /\ (forall w op,
         match op with
         | OpClearEvidence _ | OpSelectVideoFile _ | OpStartAnalysis _ =>
             total_evidence_frames (perform w op) = 0%Z
             /\ evidence_log (perform w op) = []
         | _ => True
         end).
Proof.
  split; [split; reflexivity |].
  split; [intros ops; apply perform_all_consistent; reflexivity |].
  split; [exact perform_consistent |].
  split; [| split].
  - intros bgr2hsv self video running total_time f w fs Hem Hcount.
    destruct (emitted_in_inv _ _ _ _ _ _ Hem) as (Hfps & _).
    cbn [perform]. unfold update_frame.
    replace (sig_detection_count f >? 0)%Z with true by lia.
    rewrite add_evidence_stores by (rewrite Hfps; apply andb_false_r).
    cbn. eexists. split; reflexivity.
  - intros f w fs Hcount. cbn [perform]. unfold update_frame.
    replace (sig_detection_count f >? 0)%Z with false by lia.
    reflexivity.
  - intros w op. destruct op; cbn; auto.
Qed.

(** C10.  The [frame_num] of an evidence entry is
    [int(current_frame_pos) - 1], the 0-based index in the video of the
    frame the entry shows, and that number stands after [_F] in the name
    of the exported image.  The read counter carried by the same frame
    signal plays no part in the entry; in a run that did not seek it is
    [frame_num + 1].  When the position is not positive the seconds of
    the time stamp are taken to be 0. *)
Theorem evidence_frame_num_is_decoder_index :
  (forall bgr2hsv self video running total_time f w filter_settings,
      emitted_in bgr2hsv self video running total_time f ->
      (sig_detection_count f > 0)%Z ->
      exists entry,
        evidence_log (fst (update_frame w f filter_settings))
        = (evidence_log w ++ [entry])%list
        /\ frame_num entry = (Py.int_of_float (sig_frame_pos f) - 1)%Z
        /\ nth_error video (Z.to_nat (frame_num entry))
           = Some (base_frame (frame_rgb entry))
        /\ img_filename entry
           = Py.replace_char ":" "_" (timestamp entry) ++ "_F"
             ++ Py.str_of_int (Py.int_of_float (sig_frame_pos f) - 1)
             ++ ".png"
        /\ ((start_sec self <= 0)%Q ->
            sig_frame_counter f = (frame_num entry + 1)%Z))
  /\ (forall w f filter_settings frame_counter,
         update_frame w (with_counter f frame_counter) filter_settings
         = update_frame w f filter_settings)
  /\ (forall w frame_rgb current_frame_pos video_fps detection_count
        filter_settings,
         (current_frame_pos <= 0)%Q ->
         exists entry,
           add_evidence_to_gallery w frame_rgb current_frame_pos video_fps
             detection_count filter_settings
           = (mkWindow (total_evidence_frames w + 1)
                (gallery_frame_counter w + 1) (evidence_log w ++ [entry])
                (worker_running w) (report_enabled w) (total_frames w),
              None)
           /\ timestamp entry = TimeUtils.seconds_to_hms 0
           /\ timestamp entry = "00:00:00").
Proof.
  split; [| split].
  - intros bgr2hsv self video running total_time f w fs Hem Hcount.
    destruct (emitted_in_inv _ _ _ _ _ _ Hem)
      as (Hfps & z & Hz & Hpos & Hnth & Hcounter).
    unfold update_frame.
    replace (sig_detection_count f >? 0)%Z with true by lia.
    rewrite add_evidence_stores by (rewrite Hfps; apply andb_false_r).
    cbn [fst evidence_log]. eexists. split; [reflexivity |].
    unfold entry_of, img_filename.
    cbn [frame_num frame_rgb timestamp].
    rewrite Hpos, int_of_float_pred, PyFacts.int_of_float_inject_Z.
    repeat split; [exact Hnth |].
    intros Hs. rewrite (Hcounter Hs). lia.
  - intros w f fs c. reflexivity.
  - intros w frame_rgb pos fps dc fs Hpos.
    apply Qle_bool_iff in Hpos.
    eexists. split.
    + apply add_evidence_stores. rewrite Hpos. reflexivity.
    + unfold entry_of. cbn [timestamp]. rewrite Hpos. split; reflexivity.
Qed.

End EvidenceFacts.

(* ================================================================== *)
(** * A run with detections, recorded *)
(* ================================================================== *)

Module EvidenceScenarios.

Import Np VideoWorker VideoWorkerFacts Evidence EvidenceFacts Scenarios
  Notions Samples.
Local Open Scope string_scope.

Lemma second_signal_emitted :
  emitted_in hsv spotting_worker (video 3) never_stopped 0 second_signal.
Proof.
  eexists. split; [vm_compute; reflexivity |].
  right. left. reflexivity.
Qed.

Example second_entry :
  evidence_log (fst (update_frame init second_signal ui_filters))
  = [mkEntry 1 "00:00:00" 1 (sig_frame second_signal) ui_filters].
Proof. reflexivity. Qed.

Example second_entry_file :
  map img_filename
    (evidence_log (fst (update_frame init second_signal ui_filters)))
  = ["00_00_00_F1.png"].
Proof. reflexivity. Qed.

(** A whole run, recorded: one entry per frame, numbered from 0. *)
Example recorded_run_counts :
  exists r,
    run hsv spotting_worker (Some (video 3)) never_stopped 0 = Some r
    /\ map frame_num
         (evidence_log (record_run init (emitted r) ui_filters))
       = [0; 1; 2]%Z
    /\ map sig_frame_counter
         (flat_map (fun s => match s with
                             | frame_signal f => [f]
                             | finished_signal _ => []
                             end) (emitted r))
       = [1; 2; 3]%Z
    /\ total_evidence_frames (record_run init (emitted r) ui_filters)
       = 3%Z.
Proof. eexists. split; [vm_compute; reflexivity |]. repeat split. Qed.

(** After a seek the read counter starts one below the target index, so
    it no longer counts reads from 1: counter and frame number are then
    one number, here 300 for the first frame of a run from second 10. *)
Example recorded_run_after_seek :
  exists r,
    run hsv (worker spotting_model 1 30 10 None) (Some (video 302))
      never_stopped 0 = Some r
    /\ map frame_num
         (evidence_log (record_run init (emitted r) ui_filters))
       = [300; 301]%Z
    /\ map timestamp
         (evidence_log (record_run init (emitted r) ui_filters))
       = ["00:00:10"; "00:00:10"]
    /\ map sig_frame_counter
         (flat_map (fun s => match s with
                             | frame_signal f => [f]
                             | finished_signal _ => []
                             end) (emitted r))
       = [300; 301]%Z.
Proof. eexists. split; [vm_compute; reflexivity |]. repeat split. Qed.

Lemma evidence_counter_matches_log_witness :
  emitted_in hsv spotting_worker (video 3) never_stopped 0 second_signal
  /\ (sig_detection_count second_signal > 0)%Z
  /\ (exists entry,
         evidence_log (perform init (OpUpdateFrame second_signal ui_filters))
         = ([] ++ [entry])%list
         /\ total_evidence_frames
              (perform init (OpUpdateFrame second_signal ui_filters))
            = (0 + 1)%Z)
  /\ consistent
       (perform_all init
          [OpSelectVideoFile 3; OpStartAnalysis true;
           OpUpdateFrame second_signal ui_filters;
           OpAnalysisFinished 1; OpClearEvidence true]).
Proof.
  assert (H : (sig_detection_count second_signal > 0)%Z) by (cbn; lia).
  split; [exact second_signal_emitted |]. split; [exact H |]. split.
  - exact (proj1 (proj2 (proj2 (proj2 evidence_counter_matches_log)))
             hsv spotting_worker (video 3) never_stopped 0%Q second_signal
             init ui_filters second_signal_emitted H).
  - exact (proj1 (proj2 evidence_counter_matches_log) _).
Defined.

Lemma evidence_frame_num_is_decoder_index_witness :
  emitted_in hsv spotting_worker (video 3) never_stopped 0 second_signal
  /\ (sig_detection_count second_signal > 0)%Z
  /\ (start_sec spotting_worker <= 0)%Q
  /\ exists entry,
       evidence_log (fst (update_frame init second_signal ui_filters))
       = ([] ++ [entry])%list
       /\ frame_num entry
          = (Py.int_of_float (sig_frame_pos second_signal) - 1)%Z
       /\ nth_error (video 3) (Z.to_nat (frame_num entry))
          = Some (base_frame (frame_rgb entry))
       /\ img_filename entry
          = Py.replace_char ":" "_" (timestamp entry) ++ "_F"
            ++ Py.str_of_int
                 (Py.int_of_float (sig_frame_pos second_signal) - 1)
            ++ ".png"
       /\ sig_frame_counter second_signal = (frame_num entry + 1)%Z.
Proof.
  assert (H : (sig_detection_count second_signal > 0)%Z) by (cbn; lia).
  assert (Hs : (start_sec spotting_worker <= 0)%Q) by discriminate.
  split; [exact second_signal_emitted |]. split; [exact H |].
  split; [exact Hs |].
  destruct (proj1 evidence_frame_num_is_decoder_index
              hsv spotting_worker (video 3) never_stopped 0%Q second_signal
              init ui_filters second_signal_emitted H)
    as (entry & H1 & H2 & H3 & H4 & H5).
  exists entry. repeat split; try assumption. exact (H5 Hs).
Defined.

End EvidenceScenarios.

(* ================================================================== *)
(** * Further properties: time codes *)
(* ================================================================== *)

Module TimeCodeFacts.

Import Py PyFacts TimeUtils Notions MoreNotions TimeUtilsFacts.
Local Open Scope string_scope.

Lemma rstrip_no_space (s : string) : no_space s = true -> rstrip s = s.
Proof.
  unfold no_space.
  induction s as [| c r IH]; cbn [string_forallb rstrip]; [reflexivity |].
  intros [Hc Hr]%andb_prop. apply negb_true_iff in Hc.
  rewrite (IH Hr), Hc. destruct r; reflexivity.
Qed.

Lemma digits_no_space (s : string) :
  string_forallb is_digit s = true -> no_space s = true.
Proof.
  unfold no_space.
  induction s as [| c r IH]; cbn [string_forallb]; [reflexivity |].
  intros [Hc Hr]%andb_prop.
  rewrite (digit_not_space _ Hc), (IH Hr). reflexivity.
Qed.

(** [int] reads a formatted negative number back. *)
Lemma int_of_str_format_02d_negative (n : Z) :
  (n < 0)%Z -> int_of_str (format_02d n) = Some n.
Proof.
  intros Hn. unfold format_02d, zfill.
  replace (n <? 0)%Z with true by lia.
  set (k := (1 - String.length (decimal (- n)))%nat).
  assert (Hd : string_forallb is_digit (zeros k (decimal (- n))) = true)
    by apply zeros_digits, decimal_digits.
  unfold int_of_str, strip. cbn [lstrip].
  replace (is_space "-") with false by reflexivity.
  rewrite rstrip_no_space.
  - rewrite Ascii.eqb_refl, int_digits_zeros by lia.
    cbn. f_equal. lia.
  - unfold no_space. cbn [string_forallb].
    apply andb_true_intro. split; [reflexivity |].
    apply digits_no_space, Hd.
Qed.

Lemma format_02d_negative_free (n : Z) :
  (n < 0)%Z -> free_of ":" (format_02d n) = true.
Proof.
  intros Hn. unfold format_02d, zfill.
  replace (n <? 0)%Z with true by lia.
  unfold free_of. cbn [string_forallb].
  apply andb_true_intro. split; [reflexivity |].
  apply digits_free_of_colon, zeros_digits, decimal_digits.
Qed.

(** The text of a whole number of seconds parses back to it. *)
Lemma hms_of_int_parsed (n : Z) :
  (0 <= n)%Z -> hms_to_seconds (hms_of_int n) = n.
Proof.
  intros Hn.
  destruct (hms_fields n Hn) as (Hh & Hm & Hsec & Hsum).
  rewrite <- Hsum at 2.
  apply (hms_to_seconds_accepted _ (format_02d (n / 3600))
           (format_02d ((n mod 3600) / 60)) (format_02d (n mod 60)));
    try (apply int_of_str_format_02d; lia); [| lia].
  apply split_hms; apply format_02d_digits; lia.
Qed.

(** X1.  A negative number of seconds is formatted with a negative hours
    field, which [hms_to_seconds] refuses: for every integer [s < 0],
    [hms_to_seconds(seconds_to_hms(s)) == -1]. *)
Theorem negative_seconds_do_not_round_trip (s : Z) :
  (s < 0)%Z -> hms_to_seconds (seconds_to_hms (inject_Z s)) = (-1)%Z.
Proof.
  intros Hs. rewrite seconds_to_hms_int, int_of_float_inject_Z.
  unfold hms_of_int, hms_to_seconds.
  assert (Hh : (s / 3600 < 0)%Z)
    by (apply Z.div_lt_upper_bound; lia).
  pose proof (Z.mod_pos_bound s 3600 ltac:(lia)) as B1.
  pose proof (Z.mod_pos_bound s 60 ltac:(lia)) as B3.
  assert (0 <= (s mod 3600) / 60)%Z by (apply Z.div_pos; lia).
  cbn [append].
  rewrite split_app by apply format_02d_negative_free, Hh.
  rewrite split_app
    by (apply digits_free_of_colon, format_02d_digits; lia).
  rewrite split_free
    by (apply digits_free_of_colon, format_02d_digits; lia).
  rewrite int_of_str_format_02d_negative by exact Hh.
  rewrite !int_of_str_format_02d by lia.
  replace (s / 3600 <? 0)%Z with true by lia.
  rewrite !orb_true_r. reflexivity.
Qed.

Lemma negative_seconds_do_not_round_trip_witness :
  (-1 < 0)%Z
  /\ seconds_to_hms (inject_Z (-1)) = "-1:59:59"
  /\ hms_to_seconds (seconds_to_hms (inject_Z (-1))) = (-1)%Z.
Proof.
  split; [lia |]. split; [reflexivity |].
  apply (negative_seconds_do_not_round_trip (-1)). lia.
Defined.

Lemma float_seconds_round_trip_to_floor_aux (x : Q) :
  (0 <= x)%Q -> hms_to_seconds (seconds_to_hms x) = Qfloor x.
Proof.
  intros Hx. rewrite seconds_to_hms_int, (int_of_float_nonneg x Hx).
  apply hms_of_int_parsed.
  change 0%Z with (Qfloor 0). apply Qfloor_resp_le, Hx.
Qed.

(** X2.  A float is cut to whole seconds before it is formatted: for
    every [x >= 0], [hms_to_seconds(seconds_to_hms(x))] is the floor of
    [x]. *)
Theorem float_seconds_round_trip_to_floor (x : Q) :
  (0 <= x)%Q -> hms_to_seconds (seconds_to_hms x) = Qfloor x.
Proof.
  exact (float_seconds_round_trip_to_floor_aux x).
Qed.

Lemma float_seconds_round_trip_to_floor_witness :
  (0 <= 388 # 30)%Q
  /\ hms_to_seconds (seconds_to_hms (388 # 30)) = 12%Z.
Proof.
  split; [discriminate |].
  apply (float_seconds_round_trip_to_floor (388 # 30)). discriminate.
Defined.

Lemma decimal_small (n : Z) :
  (0 <= n < 10)%Z -> decimal n = String (digit_char n) EmptyString.
Proof.
  intros Hn. unfold decimal. cbn [decimal_aux].
  rewrite Z.div_small, Z.mod_small by lia. reflexivity.
Qed.

Lemma decimal_two_digits (n : Z) :
  (10 <= n < 100)%Z ->
  decimal n
  = String (digit_char (n / 10))
      (String (digit_char (n mod 10)) EmptyString).
Proof.
  intros Hn. unfold decimal.
  replace (Z.to_nat n) with (S (Z.to_nat (n - 1))) by lia.
  cbn [decimal_aux].
  assert (Hq : (1 <= n / 10 < 10)%Z).
  { split; [apply Z.div_le_lower_bound; lia
           | apply Z.div_lt_upper_bound; lia]. }
  replace (n / 10 =? 0)%Z with false by lia.
  rewrite (Z.div_small (n / 10) 10), (Z.mod_small (n / 10) 10) by lia.
  reflexivity.
Qed.

Lemma format_02d_length (n : Z) :
  (0 <= n < 100)%Z -> String.length (format_02d n) = 2%nat.
Proof.
  intros Hn. unfold format_02d, zfill.
  replace (n <? 0)%Z with false by lia.
  destruct (Z_lt_ge_dec n 10) as [Hs | Hb].
  - rewrite decimal_small by lia. reflexivity.
  - rewrite decimal_two_digits by lia. reflexivity.
Qed.

Lemma length_append (a b : string) :
  String.length (a ++ b) = (String.length a + String.length b)%nat.
Proof. induction a as [| c a IH]; cbn; [| rewrite IH]; reflexivity. Qed.

(** X3.  Below one hundred hours the time code has exactly eight
    characters, two for each field: for every integer
    [0 <= s < 360000], [len(seconds_to_hms(s)) == 8]. *)
Theorem seconds_to_hms_has_eight_characters (s : Z) :
  (0 <= s < 360000)%Z ->
  String.length (seconds_to_hms (inject_Z s)) = 8%nat.
Proof.
  intros Hs. rewrite seconds_to_hms_int, int_of_float_inject_Z.
  destruct (hms_fields s ltac:(lia)) as (Hh & Hm & Hsec & _).
  assert (s / 3600 < 100)%Z by (apply Z.div_lt_upper_bound; lia).
  unfold hms_of_int. rewrite !length_append, !format_02d_length by lia.
  reflexivity.
Qed.

Lemma seconds_to_hms_has_eight_characters_witness :
  (0 <= 359999 < 360000)%Z
  /\ String.length (seconds_to_hms (inject_Z 359999)) = 8%nat.
Proof.
  split; [lia |].
  apply (seconds_to_hms_has_eight_characters 359999). lia.
Defined.

End TimeCodeFacts.

(* ================================================================== *)
(** * Properties: the texts the time codec takes *)
(* ================================================================== *)

Module PatternFacts.

Import Py PyFacts TimeUtils Notions MoreNotions Pattern TimeUtilsFacts.
Import TimeCodeFacts.
Local Open Scope string_scope.

(** ** Strings *)

Lemma string_app_nil_r (s : string) : s ++ EmptyString = s.
Proof. induction s as [| c r IH]; cbn; [| rewrite IH]; reflexivity. Qed.

Lemma string_forallb_app (p : ascii -> bool) (a b : string) :
  string_forallb p (a ++ b) = string_forallb p a && string_forallb p b.
Proof.
  induction a as [| c r IH]; cbn; [reflexivity |].
  rewrite IH, andb_assoc. reflexivity.
Qed.

Lemma string_forallb_impl (p q : ascii -> bool) (s : string) :
  (forall c, p c = true -> q c = true) ->
  string_forallb p s = true -> string_forallb q s = true.
Proof.
  intros Hpq. induction s as [| c r IH]; cbn; [reflexivity |].
  intros [Hc Hr]%andb_prop. rewrite (Hpq _ Hc), (IH Hr). reflexivity.
Qed.

(** ** [split], read backwards *)

Lemma split_inv (sep : ascii) (s : string) :
  forall p ps,
    split sep s = p :: ps ->
    free_of sep p = true
    /\ match ps with
       | [] => s = p
       | _ :: _ =>
           exists rest, s = p ++ String sep rest /\ split sep rest = ps
       end.
Proof.
  induction s as [| c r IH]; intros p ps; cbn [split].
  - intros [= <- <-]. split; reflexivity.
  - destruct (Ascii.eqb_spec c sep) as [-> | Hne].
    + intros [= <- <-]. split; [reflexivity |].
      destruct (split sep r) as [| q qs] eqn:E;
        [destruct (split_nonempty _ _ E) |].
      exists r. split; [reflexivity | exact E].
    + destruct (split sep r) as [| p' ps'] eqn:E;
        [destruct (split_nonempty _ _ E) |].
      intros [= <- <-]. destruct (IH _ _ eq_refl) as [Hfree Hrest].
      split.
      * unfold free_of in *. cbn [string_forallb]. rewrite Hfree.
        destruct (Ascii.eqb_spec c sep); [contradiction | reflexivity].
      * destruct ps' as [| q qs]; [rewrite Hrest; reflexivity |].
        destruct Hrest as (rest & -> & Hs).
        exists rest. split; [reflexivity | exact Hs].
Qed.

Lemma split_three (text a b c : string) :
  split ":" text = [a; b; c]
  <-> text = a ++ ":" ++ b ++ ":" ++ c
      /\ free_of ":" a = true /\ free_of ":" b = true
      /\ free_of ":" c = true.
Proof.
  split.
  - intros H.
    destruct (split_inv _ _ _ _ H) as (Ha & rest & -> & H1).
    destruct (split_inv _ _ _ _ H1) as (Hb & rest' & -> & H2).
    destruct (split_inv _ _ _ _ H2) as (Hc & ->).
    repeat split; assumption.
  - intros (-> & Ha & Hb & Hc). cbn [append].
    rewrite (split_app _ _ _ Ha), (split_app _ _ _ Hb), (split_free _ _ Hc).
    reflexivity.
Qed.

(** ** [strip], read backwards *)

Lemma lstrip_decompose (s : string) :
  exists lead, s = lead ++ lstrip s /\ all_space lead = true.
Proof.
  induction s as [| c r IH]; cbn [lstrip].
  - exists EmptyString. split; reflexivity.
  - destruct (is_space c) eqn:Ec.
    + destruct IH as (lead & H1 & H2). exists (String c lead). split.
      * cbn [append]. f_equal. exact H1.
      * unfold all_space in *. cbn [string_forallb]. rewrite Ec. exact H2.
    + exists EmptyString. split; reflexivity.
Qed.

Lemma lstrip_spaces (lead x : string) :
  all_space lead = true -> lstrip (lead ++ x) = lstrip x.
Proof.
  unfold all_space.
  induction lead as [| c r IH]; cbn [string_forallb append lstrip];
    [reflexivity |].
  intros [Hc Hr]%andb_prop. rewrite Hc. exact (IH Hr).
Qed.

Lemma rstrip_all_space (t : string) :
  all_space t = true -> rstrip t = EmptyString.
Proof.
  unfold all_space.
  induction t as [| c r IH]; cbn [string_forallb rstrip]; [reflexivity |].
  intros [Hc Hr]%andb_prop. rewrite (IH Hr), Hc. reflexivity.
Qed.

Lemma rstrip_decompose (s : string) :
  exists trail, s = rstrip s ++ trail /\ all_space trail = true.
Proof.
  induction s as [| c r IH]; cbn [rstrip].
  - exists EmptyString. split; reflexivity.
  - destruct IH as (trail & H1 & H2).
    destruct (rstrip r) as [| a r'] eqn:E.
    + cbn [append] in H1. subst trail.
      destruct (is_space c) eqn:Ec.
      * exists (String c r). split; [reflexivity |].
        unfold all_space in *. cbn [string_forallb]. rewrite Ec. exact H2.
      * exists r. split; [reflexivity | exact H2].
    + exists trail. split; [| exact H2].
      cbn [append]. f_equal. exact H1.
Qed.

Lemma rstrip_spaces (x trail : string) :
  all_space trail = true -> rstrip (x ++ trail) = rstrip x.
Proof.
  intros Ht.
  induction x as [| c r IH]; cbn [append rstrip];
    [exact (rstrip_all_space _ Ht) |].
  rewrite IH. reflexivity.
Qed.

(** ** Digits in groups *)

Lemma underscore_no_digit : is_digit "_" = false.
Proof. reflexivity. Qed.

Lemma accepts_false (s : string) : accepts false s = grouped_digits s.
Proof.
  unfold accepts, grouped_digits.
  destruct s as [| c r]; [reflexivity |].
  destruct (first_is_digit (String c r)),
    (last_is_digit (String c r)),
    (string_forallb digit_or_underscore (String c r)),
    (no_double_underscore (String c r)); reflexivity.
Qed.

Lemma accepts_digit (b : bool) (c : ascii) (r : string) :
  is_digit c = true -> accepts b (String c r) = accepts true r.
Proof.
  intros Hc.
  pose proof (digit_not_char c "_" Hc eq_refl) as Hu.
  unfold accepts, digit_or_underscore.
  destruct r as [| x r'];
    cbn [string_forallb first_is_digit last_is_digit no_double_underscore];
    rewrite ?Hc, ?Hu; cbn [orb andb negb]; destruct b; reflexivity.
Qed.

Lemma accepts_underscore (r : string) :
  accepts true (String "_" r) = accepts false r.
Proof.
  unfold accepts, digit_or_underscore.
  destruct r as [| x r']; [reflexivity |].
  cbn [string_forallb first_is_digit last_is_digit no_double_underscore].
  change (Ascii.eqb "_" "_") with true.
  change (is_digit "_") with false. cbn [orb andb].
  destruct (is_digit x) eqn:Hx.
  - rewrite (digit_not_char x "_" Hx eq_refl). cbn [orb andb negb].
    rewrite !andb_true_r. reflexivity.
  - destruct (Ascii.eqb x "_"); cbn [orb andb negb];
      rewrite ?andb_false_r; reflexivity.
Qed.

Lemma accepts_other (b : bool) (c : ascii) (r : string) :
  is_digit c = false -> Ascii.eqb c "_" && b = false ->
  accepts b (String c r) = false.
Proof.
  intros Hc Hu. unfold accepts, digit_or_underscore.
  cbn [string_forallb first_is_digit]. rewrite Hc. cbn [orb].
  destruct (Ascii.eqb c "_"); [| reflexivity].
  cbn [andb] in Hu. subst b. cbn [andb].
  rewrite andb_false_r. reflexivity.
Qed.

(** The parser of [int] takes the digit groups, and reads the digits
    without the underscores. *)
Lemma int_digits_accepts (s : string) :
  forall acc b,
    int_digits acc b s
    = if accepts b s
      then Some (digits_value_from acc (remove_underscores s))
      else None.
Proof.
  induction s as [| c r IH]; intros acc b.
  - destruct b; reflexivity.
  - cbn [int_digits].
    destruct (is_digit c) eqn:Hc.
    + rewrite IH, (accepts_digit _ _ _ Hc).
      cbn [remove_underscores].
      rewrite (digit_not_char c "_" Hc eq_refl). reflexivity.
    + destruct (Ascii.eqb c "_" && b) eqn:Hu.
      * apply andb_prop in Hu as [->%Ascii.eqb_eq ->].
        rewrite IH, accepts_underscore. reflexivity.
      * rewrite (accepts_other _ _ _ Hc Hu). reflexivity.
Qed.

Lemma grouped_head (s : string) :
  grouped_digits s = true ->
  exists c r, s = String c r /\ is_digit c = true.
Proof.
  unfold grouped_digits. destruct s as [| c r]; [discriminate |].
  cbn [first_is_digit]. intros H.
  apply andb_prop in H as [H _]. apply andb_prop in H as [H _].
  apply andb_prop in H as [H _]. eauto.
Qed.

Lemma grouped_chars (s : string) :
  grouped_digits s = true ->
  string_forallb digit_or_underscore s = true.
Proof.
  unfold grouped_digits. intros H.
  apply andb_prop in H as [H _]. apply andb_prop in H as [_ H]. exact H.
Qed.

Lemma group_char_no_space (c : ascii) :
  digit_or_underscore c = true -> negb (is_space c) = true.
Proof.
  unfold digit_or_underscore. intros [H | H]%orb_prop.
  - rewrite (digit_not_space _ H). reflexivity.
  - apply Ascii.eqb_eq in H. subst c. reflexivity.
Qed.

Lemma group_char_no_colon (c : ascii) :
  digit_or_underscore c = true -> negb (Ascii.eqb c ":") = true.
Proof.
  unfold digit_or_underscore. intros [H | H]%orb_prop.
  - rewrite (digit_not_char c ":" H eq_refl). reflexivity.
  - apply Ascii.eqb_eq in H. subst c. reflexivity.
Qed.

Lemma space_no_colon (c : ascii) :
  is_space c = true -> negb (Ascii.eqb c ":") = true.
Proof.
  intros H. destruct (Ascii.eqb_spec c ":") as [-> | _];
    [discriminate | reflexivity].
Qed.

(** ** [int] takes the whole numbers of the grammar, and no other text *)

Lemma int_of_str_literal (text : string) (v : Z) :
  int_of_str text = Some v <-> int_literal text v.
Proof.
  split.
  - unfold int_of_str, strip. intros H.
    destruct (lstrip_decompose text) as (lead & Htext & Hlead).
    destruct (rstrip_decompose (lstrip text)) as (trail & Hcore & Htrail).
    destruct (rstrip (lstrip text)) as [| c r]; [discriminate |].
    rewrite Hcore in Htext. clear Hcore.
    destruct (Ascii.eqb_spec c "-") as [-> | Hminus].
    + destruct (int_digits 0 false r) as [v' |] eqn:Hd; [| discriminate].
      injection H as <-.
      rewrite int_digits_accepts, accepts_false in Hd.
      destruct (grouped_digits r) eqn:Hg; [| discriminate].
      injection Hd as <-.
      exists lead, "-", r, trail. repeat split; try assumption.
      right. split; reflexivity.
    + destruct (Ascii.eqb_spec c "+") as [-> | Hplus].
      * rewrite int_digits_accepts, accepts_false in H.
        destruct (grouped_digits r) eqn:Hg; [| discriminate].
        injection H as <-.
        exists lead, "+", r, trail. repeat split; try assumption.
        left. split; [right |]; reflexivity.
      * rewrite int_digits_accepts, accepts_false in H.
        destruct (grouped_digits (String c r)) eqn:Hg; [| discriminate].
        injection H as <-.
        exists lead, EmptyString, (String c r), trail.
        repeat split; try assumption.
        left. split; [left |]; reflexivity.
  - intros (lead & sign & body & trail & -> & Hlead & Htrail & Hbody & Hv).
    unfold int_of_str, strip. rewrite (lstrip_spaces _ _ Hlead).
    destruct (grouped_head _ Hbody) as (c & r & Ebody & Hc).
    assert (Hns : no_space body = true).
    { apply (string_forallb_impl digit_or_underscore);
        [exact group_char_no_space | exact (grouped_chars _ Hbody)]. }
    assert (Hparse :
              int_digits 0 false body
              = Some (digits_value (remove_underscores body))).
    { rewrite int_digits_accepts, accepts_false, Hbody. reflexivity. }
    destruct Hv as [([-> | ->] & ->) | (-> & ->)].
    + cbn [append]. rewrite Ebody in *. cbn [append lstrip].
      rewrite (digit_not_space _ Hc).
      change (String c (r ++ trail)) with (String c r ++ trail).
      rewrite (rstrip_spaces _ _ Htrail), (rstrip_no_space _ Hns).
      rewrite (digit_not_char c "-" Hc eq_refl).
      rewrite (digit_not_char c "+" Hc eq_refl).
      exact Hparse.
    + cbn [append lstrip]. change (is_space "+") with false. cbn iota.
      change (String "+" (body ++ trail)) with (String "+" body ++ trail).
      rewrite (rstrip_spaces _ _ Htrail).
      rewrite rstrip_no_space by exact Hns.
      change (Ascii.eqb "+" "-") with false.
      change (Ascii.eqb "+" "+") with true. cbn iota.
      exact Hparse.
    + cbn [append lstrip]. change (is_space "-") with false. cbn iota.
      change (String "-" (body ++ trail)) with (String "-" body ++ trail).
      rewrite (rstrip_spaces _ _ Htrail).
      rewrite rstrip_no_space by exact Hns.
      change (Ascii.eqb "-" "-") with true. cbn iota.
      rewrite Hparse. reflexivity.
Qed.

Lemma int_literal_free_of_colon (text : string) (v : Z) :
  int_literal text v -> free_of ":" text = true.
Proof.
  intros (lead & sign & body & trail & -> & Hlead & Htrail & Hbody & Hv).
  unfold free_of. rewrite !string_forallb_app.
  rewrite (string_forallb_impl _ _ _ space_no_colon Hlead).
  rewrite (string_forallb_impl _ _ _ space_no_colon Htrail).
  rewrite (string_forallb_impl _ _ _ group_char_no_colon
             (grouped_chars _ Hbody)).
  destruct Hv as [([-> | ->] & _) | (-> & _)]; reflexivity.
Qed.

(** The parts [hms_to_seconds] gets from [split] and reads with [int]
    are the fields of the grammar. *)
Lemma fields_lenient (text : string) (h m s : Z) :
  (exists p0 p1 p2,
      split ":" text = [p0; p1; p2]
      /\ int_of_str p0 = Some h /\ int_of_str p1 = Some m
      /\ int_of_str p2 = Some s
      /\ (0 <= h /\ 0 <= m < 60 /\ 0 <= s < 60)%Z)
  <-> lenient_hms text h m s.
Proof.
  split.
  - intros (p0 & p1 & p2 & Hsplit & H0 & H1 & H2 & Hb).
    apply split_three in Hsplit as (-> & _).
    exists p0, p1, p2.
    repeat split; try (apply int_of_str_literal; assumption); lia.
  - intros (f0 & f1 & f2 & -> & H0 & H1 & H2 & Hb).
    exists f0, f1, f2. split.
    + apply split_three.
      repeat split; eapply int_literal_free_of_colon; eassumption.
    + repeat split; try (apply int_of_str_literal; assumption); lia.
Qed.

(** ** The pattern of digit fields *)

Lemma digits_grouped (s : string) :
  string_forallb is_digit s = true ->
  string_forallb digit_or_underscore s = true
  /\ no_double_underscore s = true
  /\ remove_underscores s = s
  /\ (s <> EmptyString -> last_is_digit s = true).
Proof.
  induction s as [| c r IH]; [repeat split; congruence |].
  cbn [string_forallb]. intros [Hc Hr]%andb_prop.
  destruct (IH Hr) as (H1 & H2 & H3 & H4).
  pose proof (digit_not_char c "_" Hc eq_refl) as Hu.
  repeat split.
  - unfold digit_or_underscore at 1. rewrite Hc, H1. reflexivity.
  - destruct r as [| x r']; [reflexivity |].
    change (no_double_underscore (String c (String x r')))
      with (negb (Ascii.eqb c "_" && Ascii.eqb x "_")
            && no_double_underscore (String x r')).
    rewrite Hu, H2. reflexivity.
  - cbn [remove_underscores]. rewrite Hu, H3. reflexivity.
  - intros _. destruct r as [| x r']; [exact Hc |].
    cbn [last_is_digit]. apply H4. discriminate.
Qed.

Lemma digits_value_from_nonneg (s : string) :
  forall acc,
    string_forallb is_digit s = true ->
    (0 <= acc)%Z -> (0 <= digits_value_from acc s)%Z.
Proof.
  induction s as [| c r IH]; intros acc; cbn; [auto |].
  intros [Hc Hr]%andb_prop Hacc. apply (IH _ Hr).
  pose proof (is_digit_code _ Hc). unfold digit_val. lia.
Qed.

Lemma digit_field_literal (s : string) :
  digit_field s = true ->
  int_literal s (digits_value s) /\ (0 <= digits_value s)%Z.
Proof.
  unfold digit_field. intros [Hne Hd]%andb_prop.
  apply negb_true_iff, String.eqb_neq in Hne.
  destruct (digits_grouped _ Hd) as (H1 & H2 & H3 & H4).
  split; [| apply digits_value_from_nonneg; [exact Hd | lia]].
  exists EmptyString, EmptyString, s, EmptyString. repeat split.
  - cbn [append]. rewrite string_app_nil_r. reflexivity.
  - unfold grouped_digits. rewrite H1, H2, (H4 Hne).
    destruct s as [| c r]; [contradiction |].
    cbn in Hd. apply andb_prop in Hd as [Hc _]. cbn. rewrite Hc.
    reflexivity.
  - left. split; [left; reflexivity |]. rewrite H3. reflexivity.
Qed.

Lemma plain_lenient (text : string) (h m s : Z) :
  plain_hms text h m s -> lenient_hms text h m s.
Proof.
  intros (fh & fm & fs & -> & Hh & Hm & Hs & -> & -> & -> & Hm60 & Hs60).
  destruct (digit_field_literal _ Hh) as [Lh Ph].
  destruct (digit_field_literal _ Hm) as [Lm Pm].
  destruct (digit_field_literal _ Hs) as [Ls Ps].
  exists fh, fm, fs. repeat split; try assumption; lia.
Qed.

Lemma plain_starts_with_digit (c : ascii) (r : string) (h m s : Z) :
  plain_hms (String c r) h m s -> is_digit c = true.
Proof.
  intros (fh & fm & fs & E & Hh & _).
  unfold digit_field in Hh. destruct fh as [| c' r']; [discriminate |].
  cbn in E. injection E as -> _.
  cbn in Hh. apply andb_prop in Hh as [Hc _]. exact Hc.
Qed.

Lemma hms_to_seconds_lenient_or_rejected (text : string) :
  (exists h m s, lenient_hms text h m s) \/ hms_to_seconds text = (-1)%Z.
Proof.
  unfold hms_to_seconds.
  destruct (split ":" text) as [| p0 [| p1 [| p2 [| p3 rest]]]] eqn:Hsplit;
    try (right; reflexivity).
  destruct (int_of_str p0) as [h |] eqn:H0; [| right; reflexivity].
  destruct (int_of_str p1) as [m |] eqn:H1; [| right; reflexivity].
  destruct (int_of_str p2) as [s |] eqn:H2; [| right; reflexivity].
  destruct ((m >=? 60) || (s >=? 60) || (h <? 0) || (m <? 0)
            || (s <? 0))%Z eqn:E; [right; reflexivity | left].
  exists h, m, s. apply fields_lenient.
  exists p0, p1, p2. repeat split; try assumption; lia.
Qed.

(** C6, as the specification words it, fails: the text [+1:+2:+3] is
    not of the pattern H:M:S, whose fields are decimal digits, and
    [hms_to_seconds] takes it for 1 h 2 min 3 s; so it does a text with
    white space around its fields, and one with underscores between
    the digits. *)
Lemma signed_fields_are_accepted :
  hms_to_seconds "+1:+2:+3" = 3723%Z
  /\ (forall h m s, ~ plain_hms "+1:+2:+3" h m s)
  /\ hms_to_seconds " 1 : 2 : 3 " = 3723%Z
  /\ (forall h m s, ~ plain_hms " 1 : 2 : 3 " h m s)
  /\ hms_to_seconds "1_0:0_0:0_0" = 36000%Z
  /\ (forall h m s, ~ plain_hms "1_0:0_0:0_0" h m s).
Proof.
  split; [reflexivity |]. split.
  { intros h m s H. apply plain_starts_with_digit in H. discriminate. }
  split; [reflexivity |]. split.
  { intros h m s H. apply plain_starts_with_digit in H. discriminate. }
  split; [reflexivity |].
  intros h m s (fh & fm & fs & E & Hh & _).
  unfold digit_field in Hh. apply andb_prop in Hh as [_ Hd].
  destruct fh as [| c0 [| c1 fh]]; [discriminate E | discriminate E |].
  cbn in E. injection E as <- <- _.
  discriminate Hd.
Qed.

(** C6, as the code has it.  [hms_to_seconds] accepts exactly the texts
    of three fields between two colons that [int] reads as whole
    numbers [h], [m], [s] with [0 <= h], [0 <= m < 60] and
    [0 <= s < 60], and returns [h*3600 + m*60 + s] for them; every
    other text gives [-1].  A whole number for [int] is a run of digit
    groups, single underscores between the groups, an optional sign in
    front, white space around; so every text of the pattern H:M:S with
    fields of decimal digits is accepted, with its value, and so are
    texts outside the pattern.  ["25:61:00"], ["1:2"] and ["ab:cd:ef"]
    give [-1]. *)
Theorem hms_to_seconds_accepts_int_fields (text : string) :
  (forall h m s,
      plain_hms text h m s ->
      lenient_hms text h m s
      /\ hms_to_seconds text = (h * 3600 + m * 60 + s)%Z)
  /\ (forall h m s,
         lenient_hms text h m s ->
         hms_to_seconds text = (h * 3600 + m * 60 + s)%Z
         /\ (0 <= hms_to_seconds text)%Z)
  /\ ((exists h m s, lenient_hms text h m s)
      \/ hms_to_seconds text = (-1)%Z)
  /\ hms_to_seconds "25:61:00" = (-1)%Z
  /\ hms_to_seconds "1:2" = (-1)%Z
  /\ hms_to_seconds "ab:cd:ef" = (-1)%Z.
Proof.
  assert (Hval : forall h m s,
             lenient_hms text h m s ->
             hms_to_seconds text = (h * 3600 + m * 60 + s)%Z
             /\ (0 <= hms_to_seconds text)%Z).
  { intros h m s H.
    assert (Hb : (0 <= h /\ 0 <= m < 60 /\ 0 <= s < 60)%Z)
      by (destruct H as (f0 & f1 & f2 & _ & _ & _ & _ & Hb); exact Hb).
    apply fields_lenient in H as (p0 & p1 & p2 & Hs & H0 & H1 & H2 & _).
    rewrite (hms_to_seconds_accepted _ _ _ _ _ _ _ Hs H0 H1 H2 Hb).
    split; [reflexivity | lia]. }
  split.
  { intros h m s H. apply plain_lenient in H.
    split; [exact H | apply Hval, H]. }
  split; [exact Hval |]. split.
  { exact (hms_to_seconds_lenient_or_rejected text). }
  repeat split; reflexivity.
Qed.

Lemma hms_to_seconds_accepts_int_fields_witness :
  plain_hms "01:02:03" 1 2 3
  /\ lenient_hms "01:02:03" 1 2 3
  /\ hms_to_seconds "01:02:03" = (1 * 3600 + 2 * 60 + 3)%Z.
Proof.
  assert (H : plain_hms "01:02:03" 1 2 3).
  { exists "01", "02", "03". repeat split; reflexivity. }
  split; [exact H |].
  exact (proj1 (hms_to_seconds_accepts_int_fields "01:02:03") 1 2 3 H).
Defined.

End PatternFacts.

(* ================================================================== *)
(** * Further properties: the time inputs of the window *)
(* ================================================================== *)

Module GuiFacts.

Import Py PyFacts TimeUtils Notions TimeUtilsFacts TimeCodeFacts.
Import VideoWorker Evidence Gui.
Local Open Scope string_scope.

Lemma formatted_is_not_sentinel (x : Q) :
  (0 <= x)%Q -> String.eqb (seconds_to_hms x) unbounded_end = false.
Proof.
  intros Hx. apply String.eqb_neq. intros E.
  pose proof (float_seconds_round_trip_to_floor_aux x Hx) as H.
  rewrite E in H. cbn in H.
  assert (0 <= Qfloor x)%Z
    by (change 0%Z with (Qfloor 0); apply Qfloor_resp_le, Hx).
  lia.
Qed.

Lemma floor_nonneg (x : Q) : (0 <= x)%Q -> (0 <= Qfloor x)%Z.
Proof. intros Hx. change 0%Z with (Qfloor 0). apply Qfloor_resp_le, Hx. Qed.

Lemma floor_below_one (x : Q) : (x < 1)%Q -> (Qfloor x < 1)%Z.
Proof.
  intros Hx. rewrite Zlt_Qlt.
  apply Qle_lt_trans with (y := x); [apply Qfloor_le | exact Hx].
Qed.

Lemma duration_nonneg (total_frames : Z) (video_fps : Q) :
  (0 < total_frames)%Z -> (0 < video_fps)%Q ->
  (0 <= inject_Z total_frames / video_fps)%Q.
Proof.
  intros Ht Hf. apply Qle_shift_div_l; [exact Hf |].
  rewrite Qmult_0_l. change 0%Q with (inject_Z 0).
  rewrite <- Zle_Qle. lia.
Qed.

Lemma default_end_time_duration (total_frames : Z) (video_fps : Q) :
  (0 < total_frames)%Z -> (0 < video_fps)%Q ->
  default_end_time total_frames video_fps
  = seconds_to_hms (inject_Z total_frames / video_fps).
Proof.
  intros Ht Hf. unfold default_end_time.
  replace (total_frames >? 0)%Z with true by lia.
  destruct (Qle_bool video_fps 0) eqn:E; [| reflexivity].
  apply Qle_bool_iff in E. exfalso. exact (Qlt_not_le _ _ Hf E).
Qed.

(** X4.  The times the window fills in for a selected video, start
    [00:00:00] and end the formatted duration, pass the validation of
    the start button exactly when the video lasts at least one whole
    second; the run is then bounded by the floor of the duration.  For a
    video with fewer frames than its frame rate the pre-filled times are
    refused as invalid. *)
Theorem default_times_need_a_whole_second (total_frames : Z)
  (video_fps : Q) :
  (0 < total_frames)%Z -> (0 < video_fps)%Q ->
  read_times default_start_time (default_end_time total_frames video_fps)
  = (if (1 <=? Qfloor (inject_Z total_frames / video_fps))%Z
     then Some (0%Z, Some (Qfloor (inject_Z total_frames / video_fps)))
     else None)
  /\ ((inject_Z total_frames < video_fps)%Q ->
      read_times default_start_time
        (default_end_time total_frames video_fps) = None).
Proof.
  intros Ht Hf.
  pose proof (duration_nonneg _ _ Ht Hf) as Hd.
  assert (Hread :
            read_times default_start_time
              (default_end_time total_frames video_fps)
            = (if (1 <=? Qfloor (inject_Z total_frames / video_fps))%Z
               then Some (0%Z,
                          Some (Qfloor (inject_Z total_frames / video_fps)))
               else None)).
  { rewrite (default_end_time_duration _ _ Ht Hf). unfold read_times.
    rewrite (formatted_is_not_sentinel _ Hd).
    rewrite (float_seconds_round_trip_to_floor_aux _ Hd).
    change (hms_to_seconds default_start_time) with 0%Z.
    pose proof (floor_nonneg _ Hd).
    destruct (1 <=? Qfloor (inject_Z total_frames / video_fps))%Z eqn:E.
    - replace (Qfloor (inject_Z total_frames / video_fps) =? -1)%Z
        with false by lia.
      replace (0 >=? Qfloor (inject_Z total_frames / video_fps))%Z
        with false by lia.
      reflexivity.
    - replace (0 >=? Qfloor (inject_Z total_frames / video_fps))%Z
        with true by lia.
      rewrite orb_true_r. reflexivity. }
  split; [exact Hread |].
  intros Hshort. rewrite Hread.
  assert (Hlt : (inject_Z total_frames / video_fps < 1)%Q).
  { apply Qlt_shift_div_r; [exact Hf |]. rewrite Qmult_1_l. exact Hshort. }
  pose proof (floor_below_one _ Hlt).
  replace (1 <=? Qfloor (inject_Z total_frames / video_fps))%Z
    with false by lia.
  reflexivity.
Qed.

Lemma default_times_need_a_whole_second_witness :
  (0 < 100)%Z /\ (0 < 30)%Q /\ (0 < 10)%Z /\ (inject_Z 10 < 30)%Q
  /\ default_end_time 100 30 = "00:00:03"
  /\ read_times default_start_time (default_end_time 100 30)
     = Some (0%Z, Some 3%Z)
  /\ read_times default_start_time (default_end_time 10 30) = None.
Proof.
  assert (H1 : (0 < 100)%Z) by lia.
  assert (H2 : (0 < 30)%Q) by reflexivity.
  assert (H3 : (0 < 10)%Z) by lia.
  assert (H4 : (inject_Z 10 < 30)%Q) by reflexivity.
  repeat (split; [assumption |]).
  split; [reflexivity |]. split.
  - exact (proj1 (default_times_need_a_whole_second 100 30 H1 H2)).
  - exact (proj2 (default_times_need_a_whole_second 10 30 H3 H2) H4).
Defined.

(** X5.  Times that pass the validation of the start button are a
    start second from 0 on and either no end bound, which only the text
    [99:99:99] gives, or an end second strictly after the start; both
    are what [hms_to_seconds] reads from the two texts. *)
Theorem read_times_sound (start_text end_time_str : string)
  (start_sec : Z) (end_sec : option Z) :
  read_times start_text end_time_str = Some (start_sec, end_sec) ->
  start_sec = hms_to_seconds start_text
  /\ (0 <= start_sec)%Z
  /\ match end_sec with
     | None => end_time_str = unbounded_end
     | Some e =>
         end_time_str <> unbounded_end
         /\ e = hms_to_seconds end_time_str
         /\ (start_sec < e)%Z
     end.
Proof.
  unfold read_times.
  pose proof (hms_to_seconds_range start_text) as Hs.
  destruct (String.eqb_spec end_time_str unbounded_end) as [-> | Hne].
  - destruct (hms_to_seconds start_text =? -1)%Z eqn:E; cbn;
      [discriminate |].
    intros [= <- <-]. repeat split; lia.
  - destruct ((hms_to_seconds start_text =? -1)%Z
              || (hms_to_seconds end_time_str =? -1)%Z
              || (hms_to_seconds start_text
                  >=? hms_to_seconds end_time_str)%Z) eqn:E;
      [discriminate |].
    intros [= <- <-]. repeat split; try assumption; lia.
Qed.

Lemma read_times_sound_witness :
  read_times "00:00:10" "00:01:00" = Some (10%Z, Some 60%Z)
  /\ 10%Z = hms_to_seconds "00:00:10"
  /\ (0 <= 10)%Z
  /\ "00:01:00" <> unbounded_end
  /\ 60%Z = hms_to_seconds "00:01:00"
  /\ (10 < 60)%Z.
Proof.
  split; [reflexivity |].
  exact (read_times_sound "00:00:10" "00:01:00" 10 (Some 60%Z) eq_refl).
Defined.

(** X6.  The start button checks the times before it looks at the
    worker: while a worker runs, a click stops it if and only if both
    time texts are valid; with an invalid text the worker keeps running.
    In neither case is the evidence log touched. *)
Theorem click_stops_worker_iff_times_valid (w : Window)
  (start_text end_time_str : string) (any_target_class : bool) :
  worker_running w = true ->
  (worker_running
     (fst (start_analysis_from_ui w true start_text end_time_str
             any_target_class)) = false
   <-> read_times start_text end_time_str <> None)
  /\ evidence_log
       (fst (start_analysis_from_ui w true start_text end_time_str
               any_target_class))
     = evidence_log w
  /\ total_evidence_frames
       (fst (start_analysis_from_ui w true start_text end_time_str
               any_target_class))
     = total_evidence_frames w.
Proof.
  intros Hrun. unfold start_analysis_from_ui. cbn [negb].
  destruct (read_times start_text end_time_str) as [[s e] |].
  - rewrite Hrun. cbn. repeat split; congruence.
  - cbn. repeat split; congruence.
Qed.

Lemma click_stops_worker_iff_times_valid_witness :
  worker_running (mkWindow 2 2 [] true false 90) = true
  /\ read_times "00:00:00" "abc" = None
  /\ worker_running
       (fst (start_analysis_from_ui (mkWindow 2 2 [] true false 90) true
               "00:00:00" "abc" true)) = true
  /\ worker_running
       (fst (start_analysis_from_ui (mkWindow 2 2 [] true false 90) true
               "00:00:00" "00:00:05" true)) = false.
Proof.
  split; [reflexivity |]. split; [reflexivity |].
  pose proof (click_stops_worker_iff_times_valid
                (mkWindow 2 2 [] true false 90) "00:00:00" "abc" true
                eq_refl) as [H1 _].
  pose proof (click_stops_worker_iff_times_valid
                (mkWindow 2 2 [] true false 90) "00:00:00" "00:00:05" true
                eq_refl) as [H2 _].
  split.
  - destruct (worker_running _) eqn:E; [reflexivity |].
    exfalso. apply (proj1 H1 eq_refl). reflexivity.
  - apply (proj2 H2). discriminate.
Defined.

End GuiFacts.

(* ================================================================== *)
(** * Further properties: the colour matcher *)
(* ================================================================== *)

Module ColorFacts.

Import Np ColorUtils Notions MoreNotions Samples ColorUtilsFacts.
Local Open Scope string_scope.

Lemma lower_char_idempotent (c : ascii) :
  Py.lower_char (Py.lower_char c) = Py.lower_char c.
Proof.
  destruct c as [b0 b1 b2 b3 b4 b5 b6 b7].
  destruct b0, b1, b2, b3, b4, b5, b6, b7; reflexivity.
Qed.

Lemma lower_idempotent (s : string) : Py.lower (Py.lower s) = Py.lower s.
Proof.
  induction s as [| c r IH]; cbn; [reflexivity |].
  rewrite lower_char_idempotent, IH. reflexivity.
Qed.

Lemma get_hsv_range_lower (color_name : string) :
  get_hsv_range (Py.lower color_name) = get_hsv_range color_name.
Proof. unfold get_hsv_range. rewrite lower_idempotent. reflexivity. Qed.

(** The range table knows a name exactly when its lower-case form is one
    of the six colour names. *)
Lemma get_hsv_range_known (color_name : string) :
  get_hsv_range color_name <> None
  <-> In (Py.lower color_name) known_colors.
Proof.
  unfold get_hsv_range, known_colors. cbv zeta. cbn [In].
  set (n := Py.lower color_name).
  repeat match goal with
         | |- context [String.eqb n ?b] =>
             destruct (String.eqb_spec n b) as [-> | ?];
             [split; [tauto | discriminate] |]
         end.
  split; [congruence |].
  intros [H | [H | [H | [H | [H | [H | []]]]]]]; congruence.
Qed.

Section Matcher.

Variable bgr2hsv : Pixel -> Pixel.

(** The matcher on a region with pixels and a colour of the table. *)
Lemma is_color_match_known (image_roi : Image) (color_filter_name : string)
  (match_threshold : Q) (hsv_ranges : list (Pixel * Pixel)) :
  Py.lower color_filter_name <> "none" ->
  size image_roi <> 0%Z ->
  get_hsv_range color_filter_name = Some hsv_ranges ->
  is_color_match bgr2hsv image_roi color_filter_name match_threshold
  = negb
      (Qle_bool
         (inject_Z (matching_pixels bgr2hsv hsv_ranges image_roi)
          / inject_Z (total_pixels image_roi))
         match_threshold).
Proof.
  intros Hname Hsize Hranges. unfold is_color_match.
  apply String.eqb_neq in Hname. apply Z.eqb_neq in Hsize.
  rewrite Hname, Hsize, Hranges. cbn [orb].
  destruct hsv_ranges as [| r rest];
    [exfalso; exact (get_hsv_range_nonempty _ Hranges) |].
  cbv zeta. rewrite counted_pixels, shape_cvtColor. reflexivity.
Qed.

Lemma total_pixels_positive (image_roi : Image) :
  size image_roi <> 0%Z -> (0 < total_pixels image_roi)%Z.
Proof.
  unfold size, total_pixels, shape0, shape1. intros H.
  destruct image_roi as [| row rest]; [cbn in H; lia |]. nia.
Qed.

Lemma matching_pixels_nonneg (hsv_ranges : list (Pixel * Pixel))
  (image_roi : Image) :
  (0 <= matching_pixels bgr2hsv hsv_ranges image_roi)%Z.
Proof. unfold matching_pixels. lia. Qed.

Lemma matching_pixels_le_total (hsv_ranges : list (Pixel * Pixel))
  (image_roi : Image) (w : nat) :
  rectangular w image_roi ->
  size image_roi <> 0%Z ->
  (matching_pixels bgr2hsv hsv_ranges image_roi
   <= total_pixels image_roi)%Z.
Proof.
  intros Hrect Hsize.
  rewrite (total_pixels_rectangular image_roi w Hrect)
    by (intros ->; apply Hsize; reflexivity).
  unfold matching_pixels. apply inj_le, filter_length_le.
Qed.

Lemma fraction_nonneg (m t : Z) :
  (0 <= m)%Z -> (0 < t)%Z -> (0 <= inject_Z m / inject_Z t)%Q.
Proof.
  intros Hm Ht. apply Qle_shift_div_l.
  - change 0%Q with (inject_Z 0). rewrite <- Zlt_Qlt. exact Ht.
  - rewrite Qmult_0_l. change 0%Q with (inject_Z 0).
    rewrite <- Zle_Qle. exact Hm.
Qed.

Lemma fraction_le_one (m t : Z) :
  (m <= t)%Z -> (0 < t)%Z -> (inject_Z m / inject_Z t <= 1)%Q.
Proof.
  intros Hm Ht. apply Qle_shift_div_r.
  - change 0%Q with (inject_Z 0). rewrite <- Zlt_Qlt. exact Ht.
  - rewrite Qmult_1_l, <- Zle_Qle. exact Hm.
Qed.

Lemma fraction_ge_one (m t : Z) :
  (t <= m)%Z -> (0 < t)%Z -> (1 <= inject_Z m / inject_Z t)%Q.
Proof.
  intros Hm Ht. apply Qle_shift_div_l.
  - change 0%Q with (inject_Z 0). rewrite <- Zlt_Qlt. exact Ht.
  - rewrite Qmult_1_l, <- Zle_Qle. exact Hm.
Qed.

Lemma is_color_match_disabled (image_roi : Image)
  (color_filter_name : string) (match_threshold : Q) :
  Py.lower color_filter_name = "none" \/ size image_roi = 0%Z
  \/ get_hsv_range color_filter_name = None ->
  is_color_match bgr2hsv image_roi color_filter_name match_threshold
  = true.
Proof.
  unfold is_color_match. intros [-> | [-> | ->]].
  - reflexivity.
  - rewrite orb_true_r. reflexivity.
  - destruct (_ || _); reflexivity.
Qed.

Lemma filter_all {A : Type} (p : A -> bool) (l : list A) :
  (forall x, In x l -> p x = true) -> filter p l = l.
Proof.
  induction l as [| a l IH]; cbn; [reflexivity |].
  intros H. rewrite (H a (or_introl eq_refl)), IH; [reflexivity |].
  intros x Hx. apply H. right. exact Hx.
Qed.

Lemma filter_none {A : Type} (p : A -> bool) (l : list A) :
  (forall x, In x l -> p x = false) -> filter p l = [].
Proof.
  induction l as [| a l IH]; cbn; [reflexivity |].
  intros H. rewrite (H a (or_introl eq_refl)). apply IH.
  intros x Hx. apply H. right. exact Hx.
Qed.

(** X7.  The colour name is compared without regard to letter case, in
    the sentinel test and in the range table alike: a name and its
    lower-case form always give the same answer. *)
Theorem is_color_match_ignores_case (image_roi : Image)
  (color_filter_name : string) (match_threshold : Q) :
  is_color_match bgr2hsv image_roi (Py.lower color_filter_name)
    match_threshold
  = is_color_match bgr2hsv image_roi color_filter_name match_threshold
  /\ get_hsv_range (Py.lower color_filter_name)
     = get_hsv_range color_filter_name.
Proof.
  split; [| apply get_hsv_range_lower].
  unfold is_color_match.
  rewrite lower_idempotent, get_hsv_range_lower. reflexivity.
Qed.

(** X8.  Lowering the threshold never turns a match into a mismatch: a
    region that matches at a threshold matches at every smaller one. *)
Theorem is_color_match_antitone (image_roi : Image)
  (color_filter_name : string) (t1 t2 : Q) :
  (t1 <= t2)%Q ->
  is_color_match bgr2hsv image_roi color_filter_name t2 = true ->
  is_color_match bgr2hsv image_roi color_filter_name t1 = true.
Proof.
  intros Hle. unfold is_color_match.
  destruct (_ || _); [reflexivity |].
  destruct (get_hsv_range color_filter_name) as [[| r rest] |];
    try reflexivity.
  cbv zeta. intros H. apply negb_true_iff in H. apply negb_true_iff.
  destruct (Qle_bool _ t1) eqn:E; [| reflexivity].
  apply Qle_bool_iff in E.
  rewrite <- H. symmetry. apply Qle_bool_iff.
  eapply Qle_trans; [exact E | exact Hle].
Qed.

(** X9.  A negative threshold lets every region match.  A threshold of
    1 or more lets no region with pixels match a colour of the table:
    the matching fraction of a region never exceeds 1. *)
Theorem is_color_match_threshold_extremes (image_roi : Image)
  (color_filter_name : string) (match_threshold : Q) :
  ((match_threshold < 0)%Q ->
   is_color_match bgr2hsv image_roi color_filter_name match_threshold
   = true)
  /\ (forall w hsv_ranges,
         rectangular w image_roi ->
         Py.lower color_filter_name <> "none" ->
         size image_roi <> 0%Z ->
         get_hsv_range color_filter_name = Some hsv_ranges ->
         (1 <= match_threshold)%Q ->
         is_color_match bgr2hsv image_roi color_filter_name
           match_threshold = false).
Proof.
  split.
  - intros Hneg.
    destruct (string_dec (Py.lower color_filter_name) "none") as [E | Hn];
      [apply is_color_match_disabled; auto |].
    destruct (Z.eq_dec (size image_roi) 0) as [E | Hs];
      [apply is_color_match_disabled; auto |].
    destruct (get_hsv_range color_filter_name) as [ranges |] eqn:Hr;
      [| apply is_color_match_disabled; auto].
    rewrite (is_color_match_known _ _ _ _ Hn Hs Hr).
    apply negb_true_iff.
    destruct (Qle_bool _ _) eqn:E; [| reflexivity].
    apply Qle_bool_iff in E. exfalso.
    apply (Qlt_not_le _ _ Hneg).
    eapply Qle_trans; [| exact E].
    apply fraction_nonneg;
      [apply matching_pixels_nonneg | apply total_pixels_positive, Hs].
  - intros w ranges Hrect Hn Hs Hr Ht.
    rewrite (is_color_match_known _ _ _ _ Hn Hs Hr).
    apply negb_false_iff, Qle_bool_iff.
    eapply Qle_trans; [| exact Ht].
    apply fraction_le_one;
      [eapply matching_pixels_le_total; eassumption
      | apply total_pixels_positive, Hs].
Qed.

(** X10.  A region with pixels all of which convert into the ranges of
    a colour of the table matches it at every threshold below 1; a
    region none of whose pixels does matches at no threshold from 0
    on. *)
Theorem is_color_match_uniform_region (image_roi : Image)
  (color_filter_name : string) (match_threshold : Q) (w : nat)
  (hsv_ranges : list (Pixel * Pixel)) :
  rectangular w image_roi ->
  Py.lower color_filter_name <> "none" ->
  size image_roi <> 0%Z ->
  get_hsv_range color_filter_name = Some hsv_ranges ->
  ((forall px, In px (List.concat image_roi) ->
               in_ranges hsv_ranges (bgr2hsv px) = true) ->
   (match_threshold < 1)%Q ->
   is_color_match bgr2hsv image_roi color_filter_name match_threshold
   = true)
  /\ ((forall px, In px (List.concat image_roi) ->
                  in_ranges hsv_ranges (bgr2hsv px) = false) ->
      (0 <= match_threshold)%Q ->
      is_color_match bgr2hsv image_roi color_filter_name match_threshold
      = false).
Proof.
  intros Hrect Hn Hs Hr.
  rewrite (is_color_match_known _ _ _ _ Hn Hs Hr).
  pose proof (total_pixels_positive _ Hs) as Hpos.
  split.
  - intros Hall Ht. apply negb_true_iff.
    destruct (Qle_bool _ _) eqn:E; [| reflexivity].
    apply Qle_bool_iff in E. exfalso.
    apply (Qlt_not_le _ _ Ht).
    eapply Qle_trans; [| exact E].
    apply fraction_ge_one; [| exact Hpos].
    unfold matching_pixels. rewrite (filter_all _ _ Hall).
    rewrite (total_pixels_rectangular image_roi w Hrect)
      by (intros ->; apply Hs; reflexivity).
    lia.
  - intros Hnone Ht. apply negb_false_iff, Qle_bool_iff.
    unfold matching_pixels. rewrite (filter_none _ _ Hnone).
    eapply Qle_trans; [| exact Ht].
    apply Qle_shift_div_r.
    + change 0%Q with (inject_Z 0). rewrite <- Zlt_Qlt. exact Hpos.
    + rewrite Qmult_0_l. apply Qle_refl.
Qed.

End Matcher.

Lemma five_pixels_rectangular (reds : nat) :
  (reds <= 5)%nat -> rectangular 5 (five_pixels reds).
Proof.
  intros H. constructor; [| constructor].
  rewrite length_app, !repeat_length. lia.
Qed.

Lemma is_color_match_antitone_witness :
  (10 # 100 <= default_match_threshold)%Q
  /\ is_color_match already_hsv (five_pixels 2) "red"
       default_match_threshold = true
  /\ is_color_match already_hsv (five_pixels 2) "red" (10 # 100) = true.
Proof.
  assert (H1 : (10 # 100 <= default_match_threshold)%Q) by discriminate.
  assert (H2 : is_color_match already_hsv (five_pixels 2) "red"
                 default_match_threshold = true) by reflexivity.
  split; [exact H1 |]. split; [exact H2 |].
  exact (is_color_match_antitone already_hsv (five_pixels 2) "red"
           (10 # 100) default_match_threshold H1 H2).
Defined.

Lemma is_color_match_threshold_extremes_witness :
  ((-1 # 10) < 0)%Q
  /\ is_color_match already_hsv (five_pixels 0) "red" (-1 # 10) = true
  /\ rectangular 5 (five_pixels 5)
  /\ (1 <= 1)%Q
  /\ is_color_match already_hsv (five_pixels 5) "red" 1 = false.
Proof.
  assert (H1 : ((-1 # 10) < 0)%Q) by reflexivity.
  assert (H2 : rectangular 5 (five_pixels 5))
    by (apply five_pixels_rectangular; lia).
  assert (H3 : (1 <= 1)%Q) by discriminate.
  split; [exact H1 |]. split.
  - exact (proj1 (is_color_match_threshold_extremes already_hsv
                    (five_pixels 0) "red" (-1 # 10)) H1).
  - split; [exact H2 |]. split; [exact H3 |].
    refine (proj2 (is_color_match_threshold_extremes already_hsv
                     (five_pixels 5) "red" 1) 5%nat _ H2 _ _ eq_refl H3);
      discriminate.
Defined.

Lemma is_color_match_uniform_region_witness :
  rectangular 5 (five_pixels 5)
  /\ rectangular 5 (five_pixels 0)
  /\ is_color_match already_hsv (five_pixels 5) "red" (99 # 100) = true
  /\ is_color_match already_hsv (five_pixels 0) "red" 0 = false.
Proof.
  assert (H5 : rectangular 5 (five_pixels 5))
    by (apply five_pixels_rectangular; lia).
  assert (H0 : rectangular 5 (five_pixels 0))
    by (apply five_pixels_rectangular; lia).
  split; [exact H5 |]. split; [exact H0 |]. split.
  - refine (proj1 (is_color_match_uniform_region already_hsv
                     (five_pixels 5) "red" (99 # 100) 5%nat _ H5 _ _
                     eq_refl) _ _);
      [discriminate | discriminate | | reflexivity].
    intros px Hpx. cbn in Hpx.
    repeat (destruct Hpx as [<- | Hpx]; [reflexivity |]). destruct Hpx.
  - refine (proj2 (is_color_match_uniform_region already_hsv
                     (five_pixels 0) "red" 0 5%nat _ H0 _ _ eq_refl) _ _);
      [discriminate | discriminate | | discriminate].
    intros px Hpx. cbn in Hpx.
    repeat (destruct Hpx as [<- | Hpx]; [reflexivity |]). destruct Hpx.
Defined.

End ColorFacts.

(* ================================================================== *)
(** * Further properties: the analysis worker *)
(* ================================================================== *)

Module WorkerFacts.

Import Np VideoWorker Notions MoreNotions Samples VideoWorkerFacts.
Local Open Scope string_scope.

Lemma frame_signals_map (fs : list FrameSignal) :
  frame_signals (map frame_signal fs) = fs.
Proof.
  unfold frame_signals.
  induction fs as [| f fs IH]; cbn; [| rewrite IH]; reflexivity.
Qed.

Lemma frame_signals_finished (fs : list FrameSignal) (t : Q) :
  frame_signals (map frame_signal fs ++ [finished_signal t]) = fs.
Proof.
  unfold frame_signals. rewrite flat_map_app. cbn. rewrite app_nil_r.
  apply frame_signals_map.
Qed.

Lemma cap_read_at_end (cap : VideoCapture) :
  (Z.of_nat (List.length (frames cap)) <= pos_frames cap)%Z ->
  cap_read cap = (None, cap).
Proof.
  intros H. unfold cap_read.
  destruct (is_opened cap && (0 <=? pos_frames cap)%Z); [| reflexivity].
  replace (nth_error (frames cap) (Z.to_nat (pos_frames cap)))
    with (@None Image); [reflexivity |].
  symmetry. apply nth_error_None. lia.
Qed.

Lemma cap_read_inside (cap : VideoCapture) :
  is_opened cap = true ->
  (0 <= pos_frames cap < Z.of_nat (List.length (frames cap)))%Z ->
  exists frame,
    cap_read cap
    = (Some frame, mkCap true (frames cap) (pos_frames cap + 1)).
Proof.
  intros Ho Hp. unfold cap_read. rewrite Ho.
  replace (0 <=? pos_frames cap)%Z with true by lia. cbn [andb].
  destruct (nth_error (frames cap) (Z.to_nat (pos_frames cap)))
    as [frame |] eqn:E; [eauto |].
  apply nth_error_None in E. lia.
Qed.

Section Facts.

Variable bgr2hsv : Pixel -> Pixel.
Variable self : Worker.
Variable running : nat -> bool.

Local Abbreviation pass := (pass bgr2hsv self running).
Local Abbreviation loop := (loop bgr2hsv self running).
Local Abbreviation run := (run bgr2hsv self).

(** The signals of a run, through its loop. *)
Lemma run_frame_signals (source : option (list Image)) (total_time : Q)
  (r : RunEnd) :
  run source running total_time = Some r ->
  exists e,
    loop (S (List.length (frames (fst (start self source))))) 0%nat
      (fst (start self source)) (snd (start self source)) = Some e
    /\ frame_signals (emitted r) = loop_emitted e
    /\ frames_read r = loop_reads e
    /\ raised r = loop_raised e.
Proof.
  intros Hrun.
  destruct (run_inv _ _ _ _ _ _ Hrun) as (e & Hloop & Hreads & Hr & Hshape).
  exists e. repeat split; try assumption.
  destruct (loop_raised e); destruct Hshape as [-> _];
    [apply frame_signals_map | apply frame_signals_finished].
Qed.

Lemma pass_at_end (k : nat) (cap : VideoCapture) (fc : Z) :
  (Z.of_nat (List.length (frames cap)) <= pos_frames cap)%Z ->
  pass k cap fc = Break cap fc 0.
Proof.
  intros H. unfold VideoWorker.pass.
  rewrite (cap_read_at_end cap H).
  destruct (negb (running k && is_opened cap)); reflexivity.
Qed.

(** Reads are bounded by the frames that remain, emissions by the
    reads. *)
Lemma loop_reads_bounded (fuel : nat) :
  forall k cap fc e,
    loop fuel k cap fc = Some e ->
    (0 <= loop_reads e <= Z.of_nat (remaining cap))%Z
    /\ (Z.of_nat (List.length (loop_emitted e)) <= loop_reads e)%Z.
Proof.
  induction fuel as [| fuel IH]; intros k cap fc e; [discriminate |].
  cbn [VideoWorker.loop].
  destruct (pass k cap fc) as [c fc' rd | exn c fc' | c fc' em] eqn:Hp.
  - intros [= <-]. cbn.
    destruct (pass_break _ _ _ _ _ _ _ _ _ Hp)
      as [(-> & _) | (-> & _ & fr & Hread)]; [lia |].
    pose proof (remaining_after_read _ _ _ Hread). lia.
  - intros [= <-]. cbn.
    destruct (pass_raise _ _ _ _ _ _ _ _ _ Hp) as (fr & Hread).
    pose proof (remaining_after_read _ _ _ Hread). lia.
  - destruct (loop fuel (S k) c fc') as [e' |] eqn:Hl; [| discriminate].
    intros [= <-].
    destruct (pass_continue _ _ _ _ _ _ _ _ _ Hp) as (_ & (fr & Hread) & _).
    pose proof (remaining_after_read _ _ _ Hread).
    destruct (IH _ _ _ _ Hl) as [H1 H2].
    destruct em; cbn in *; lia.
Qed.

(** X11.  A run over an opened video always comes to an end, and reads
    no more frames than the video holds from the position the decoder
    is left at by the seek; it emits at most one frame signal per frame
    read.  The seek to index [k = int(start_sec * video_fps)] leaves
    the decoder at [k] when [k] lies in the video, and at the end of
    the video, where nothing is read, when [k] lies past it; but an
    index below zero, or one from [2^63] on, leaves the decoder at
    frame 0, and the run goes through the video from its first
    frame. *)
Theorem run_reads_at_most_the_video (video : list Image) (total_time : Q) :
  exists r,
    run (Some video) running total_time = Some r
    /\ (0 <= frames_read r
        <= Z.of_nat (remaining (fst (start self (Some video)))))%Z
    /\ (Z.of_nat (remaining (fst (start self (Some video))))
        <= Z.of_nat (List.length video))%Z
    /\ (Z.of_nat (List.length (frame_signals (emitted r)))
        <= frames_read r)%Z
    /\ ((start_sec self <= 0)%Q ->
        pos_frames (fst (start self (Some video))) = 0%Z)
    /\ ((0 < start_sec self)%Q ->
        forall k,
          k = Py.int_of_float (start_sec self * video_fps self) ->
          ((0 <= k <= Z.of_nat (List.length video))%Z ->
           (k < 2 ^ 63)%Z ->
           pos_frames (fst (start self (Some video))) = k
           /\ (frames_read r <= Z.of_nat (List.length video) - k)%Z)
          /\ ((Z.of_nat (List.length video) <= k < 2 ^ 63)%Z ->
              frames_read r = 0%Z)
          /\ ((k < 0 \/ 2 ^ 63 <= k)%Z ->
              pos_frames (fst (start self (Some video))) = 0%Z)).
Proof.
  destruct (run_total bgr2hsv self running (Some video) total_time)
    as (r & Hrun).
  exists r. split; [exact Hrun |].
  destruct (run_frame_signals _ _ _ Hrun) as (e & Hloop & Hfs & Hreads & _).
  destruct (loop_reads_bounded _ _ _ _ _ Hloop) as [H1 H2].
  rewrite Hfs, Hreads.
  assert (Hfr : frames (fst (start self (Some video))) = video).
  { unfold start.
    destruct (negb (Qle_bool (start_sec self) 0)); reflexivity. }
  pose proof (start_frames self (Some video)) as Hrem.
  rewrite Hfr in Hrem.
  split; [lia |]. split; [lia |]. split; [lia |]. split.
  { intros Hle. apply Qle_bool_iff in Hle. unfold start.
    rewrite Hle. reflexivity. }
  intros Hpos k ->.
  destruct (start_seek_position self video Hpos) as [_ Hseek].
  set (k := Py.int_of_float (start_sec self * video_fps self)) in *.
  assert (Hopen : is_opened (fst (start self (Some video))) = true)
    by (rewrite (start_seek self _ Hpos); reflexivity).
  assert (Hleft :
            (0 <= pos_frames (fst (start self (Some video))))%Z ->
            Z.of_nat (remaining (fst (start self (Some video))))
            = Z.max 0 (Z.of_nat (List.length video)
                       - pos_frames (fst (start self (Some video))))).
  { intros Hp. unfold remaining. rewrite Hopen, Hfr.
    replace (0 <=? pos_frames (fst (start self (Some video))))%Z
      with true by lia.
    cbn [andb]. lia. }
  split; [| split].
  - intros Hk Hk63.
    rewrite seek_index_inside in Hseek by lia.
    rewrite Z.min_l in Hseek by lia.
    split; [exact Hseek |]. rewrite Hleft in H1; lia.
  - intros Hk.
    rewrite seek_index_inside in Hseek by lia.
    rewrite Z.min_r in Hseek by lia.
    rewrite Hleft in H1; lia.
  - intros Hk. rewrite seek_index_outside in Hseek by exact Hk.
    exact Hseek.
Qed.

(** The counters of the emitted signals grow. *)
Lemma loop_emitted_sorted (fuel : nat) :
  forall k cap fc e,
    loop fuel k cap fc = Some e ->
    StronglySorted
      (fun f g => (sig_frame_counter f < sig_frame_counter g)%Z)
      (loop_emitted e).
Proof.
  induction fuel as [| fuel IH]; intros k cap fc e; [discriminate |].
  cbn [VideoWorker.loop].
  destruct (pass k cap fc) as [c fc' rd | exn c fc' | c fc' em] eqn:Hp.
  - intros [= <-]. constructor.
  - intros [= <-]. constructor.
  - destruct (loop fuel (S k) c fc') as [e' |] eqn:Hl; [| discriminate].
    intros [= <-].
    destruct (pass_continue _ _ _ _ _ _ _ _ _ Hp)
      as (_ & _ & _ & _ & _ & Hem).
    destruct em as [f0 |]; cbn; [| exact (IH _ _ _ _ Hl)].
    constructor; [exact (IH _ _ _ _ Hl) |].
    apply Forall_forall. intros g Hg.
    destruct (loop_emitted_inv _ _ _ _ _ _ _ _ Hl g Hg)
      as (_ & _ & _ & _ & Hlt & _).
    destruct Hem as (_ & _ & _ & ->). exact Hlt.
Qed.

(** X12.  Within a run the frame counters of the frame signals grow
    strictly, in emission order, and so do the reported positions,
    which stay a fixed distance ahead of the counters; when
    [frame_skip > 1] every emitted counter is a multiple of
    [frame_skip]. *)
Theorem counters_grow (source : option (list Image)) (total_time : Q)
  (r : RunEnd) :
  run source running total_time = Some r ->
  StronglySorted
    (fun f g => (sig_frame_counter f < sig_frame_counter g)%Z)
    (frame_signals (emitted r))
  /\ (exists ahead,
         forall f,
           In f (frame_signals (emitted r)) ->
           sig_frame_pos f = inject_Z (sig_frame_counter f + ahead))
  /\ ((1 < frame_skip self)%Z ->
      forall f,
        In f (frame_signals (emitted r)) ->
        (sig_frame_counter f mod frame_skip self = 0)%Z).
Proof.
  intros Hrun.
  destruct (run_frame_signals _ _ _ Hrun) as (e & Hloop & -> & _).
  split; [exact (loop_emitted_sorted _ _ _ _ _ Hloop) |]. split.
  - eexists. intros f Hf.
    exact (proj2 (proj2 (proj2 (proj2 (proj2
             (loop_emitted_inv _ _ _ _ _ _ _ _ Hloop f Hf)))))).
  - intros Hskip f Hf.
    destruct (loop_emitted_inv _ _ _ _ _ _ _ _ Hloop f Hf)
      as (_ & _ & _ & Hs & _).
    unfold skipped in Hs.
    replace (frame_skip self >? 1)%Z with true in Hs by lia.
    cbn [andb] in Hs. apply negb_false_iff in Hs. lia.
Qed.

(** X13.  A run either ends with the finished signal or with an
    exception, never both: without an exception the finished signal is
    the last signal, the only one of its kind, and the capture is
    released; with an exception no finished signal is emitted and the
    capture is left open. *)
Theorem finished_or_raised (source : option (list Image)) (total_time : Q)
  (r : RunEnd) :
  run source running total_time = Some r ->
  match raised r with
  | None =>
      emitted r
      = (map frame_signal (frame_signals (emitted r))
         ++ [finished_signal total_time])%list
      /\ is_opened (final_cap r) = false
  | Some _ =>
      emitted r = map frame_signal (frame_signals (emitted r))
      /\ is_opened (final_cap r) = true
  end.
Proof.
  intros Hrun.
  destruct (run_inv _ _ _ _ _ _ Hrun) as (e & Hloop & _ & Hr & Hshape).
  rewrite Hr. destruct (loop_raised e) as [exn |] eqn:Hraised.
  - destruct Hshape as [-> ->]. rewrite frame_signals_map.
    split; [reflexivity |].
    exact (loop_raised_open _ _ _ _ _ _ _ _ exn Hloop Hraised).
  - destruct Hshape as [-> ->]. rewrite frame_signals_finished.
    split; reflexivity.
Qed.

(** Once the flag is seen cleared the loop is left. *)
Lemma loop_stops_when_flag_cleared (fuel : nat) :
  forall k0 k cap fc e,
    loop fuel k0 cap fc = Some e ->
    running k = false ->
    (k0 <= k)%nat ->
    (loop_reads e <= Z.of_nat (k - k0))%Z.
Proof.
  induction fuel as [| fuel IH]; intros k0 k cap fc e; [discriminate |].
  cbn [VideoWorker.loop]. intros Hloop Hflag Hle.
  destruct (Nat.eq_dec k0 k) as [-> | Hne].
  - revert Hloop. unfold VideoWorker.pass. rewrite Hflag. cbn.
    intros [= <-]. cbn. lia.
  - destruct (pass k0 cap fc) as [c fc' rd | exn c fc' | c fc' em] eqn:Hp.
    + injection Hloop as <-. cbn.
      destruct (pass_break _ _ _ _ _ _ _ _ _ Hp) as [(-> & _) | (-> & _)];
        lia.
    + injection Hloop as <-. cbn. lia.
    + destruct (loop fuel (S k0) c fc') as [e' |] eqn:Hl; [| discriminate].
      injection Hloop as <-.
      pose proof (IH _ k _ _ _ Hl Hflag ltac:(lia)).
      destruct em; cbn; lia.
Qed.

(** X14.  Clearing [_is_running] ends the run at the next evaluation of
    the loop condition: if the flag is seen cleared at the [k]-th
    evaluation, at most [k] frames are read and at most [k] frame
    signals are emitted. *)
Theorem stop_flag_bounds_the_run (source : option (list Image))
  (total_time : Q) (r : RunEnd) (k : nat) :
  run source running total_time = Some r ->
  running k = false ->
  (frames_read r <= Z.of_nat k)%Z
  /\ (List.length (frame_signals (emitted r)) <= k)%nat.
Proof.
  intros Hrun Hflag.
  destruct (run_frame_signals _ _ _ Hrun) as (e & Hloop & -> & -> & _).
  pose proof (loop_stops_when_flag_cleared _ _ k _ _ _ Hloop Hflag
                ltac:(lia)) as H.
  destruct (loop_reads_bounded _ _ _ _ _ Hloop) as [_ H2].
  lia.
Qed.

End Facts.

Lemma next_multiple (s lo : Z) :
  (1 < s)%Z ->
  ((lo + 1) / s - lo / s
   = if ((lo + 1) mod s =? 0)%Z then 1 else 0)%Z.
Proof.
  intros Hs.
  pose proof (Z.div_mod lo s ltac:(lia)) as E.
  pose proof (Z.mod_pos_bound lo s ltac:(lia)) as B.
  destruct (Z.eq_dec (lo mod s) (s - 1)) as [Hlast | Hmid].
  - assert (Hq : ((lo + 1) / s = lo / s + 1)%Z).
    { symmetry. apply Z.div_unique with (r := 0%Z); lia. }
    assert (Hr : ((lo + 1) mod s = 0)%Z).
    { symmetry. apply Z.mod_unique with (q := (lo / s + 1)%Z); lia. }
    rewrite Hq, Hr. cbn. lia.
  - assert (Hq : ((lo + 1) / s = lo / s)%Z).
    { symmetry. apply Z.div_unique with (r := (lo mod s + 1)%Z); lia. }
    assert (Hr : ((lo + 1) mod s = lo mod s + 1)%Z).
    { symmetry. apply Z.mod_unique with (q := (lo / s)%Z); lia. }
    rewrite Hq, Hr.
    replace (lo mod s + 1 =? 0)%Z with false by lia. lia.
Qed.

Lemma let_through_step (self : Worker) (lo hi : Z) :
  let_through (frame_skip self) lo hi
  = ((if skipped self (lo + 1) then 0 else 1)
     + let_through (frame_skip self) (lo + 1) hi)%Z.
Proof.
  unfold let_through, skipped.
  destruct (frame_skip self >? 1)%Z eqn:E; cbn [andb]; [| lia].
  pose proof (next_multiple (frame_skip self) lo ltac:(lia)) as H.
  destruct ((lo + 1) mod frame_skip self =? 0)%Z; cbn [negb]; lia.
Qed.

Lemma let_through_none (frame_skip c : Z) :
  let_through frame_skip c c = 0%Z.
Proof. unfold let_through. destruct (frame_skip >? 1)%Z; lia. Qed.

Lemma validate_sublist (bgr2hsv : Pixel -> Pixel) (self : Worker)
  (frame : Image) (detections : list BoxData) :
  incl (validate bgr2hsv self frame detections) detections
  /\ (List.length (validate bgr2hsv self frame detections)
      <= List.length detections)%nat.
Proof.
  unfold validate.
  destruct (negb _); [| split; [apply incl_refl | lia]].
  split; [apply incl_filter | apply filter_length_le].
Qed.

Section CleanRuns.

Variable bgr2hsv : Pixel -> Pixel.
Variable self : Worker.
Variable running : nat -> bool.

Local Abbreviation pass := (pass bgr2hsv self running).
Local Abbreviation loop := (loop bgr2hsv self running).
Local Abbreviation run := (run bgr2hsv self).

Hypothesis detector_reliable : reliable (model self).
Hypothesis never_cancelled : forall k, running k = true.
Hypothesis no_end_bound : end_sec self = None.
Hypothesis fps_not_zero : Qeq_bool (video_fps self) 0 = false.

Lemma pass_clean_read (k : nat) (cap cap' : VideoCapture) (fc : Z)
  (frame : Image) :
  cap_read cap = (Some frame, cap') ->
  exists emission,
    pass k cap fc = Continue cap' (fc + 1) emission
    /\ (if skipped self (fc + 1) then emission = None
        else emission <> None).
Proof.
  intros Hread. destruct (cap_read_some _ _ _ Hread) as (Ho & _).
  unfold VideoWorker.pass.
  rewrite never_cancelled, Ho, Hread, fps_not_zero. cbn [andb negb].
  unfold past_end. rewrite no_end_bound.
  destruct (skipped self (fc + 1)); [eauto |].
  destruct (predict _ _ _ _) as [dets |] eqn:Hd;
    [eexists; split; [reflexivity | discriminate] |].
  exfalso. exact (detector_reliable _ _ _ Hd).
Qed.

(** A clean loop reads every remaining frame and lets through the
    frames the skip rule selects. *)
Lemma loop_clean (fuel : nat) :
  forall k cap fc,
    is_opened cap = true ->
    (0 <= pos_frames cap)%Z ->
    (remaining cap < fuel)%nat ->
    exists e,
      loop fuel k cap fc = Some e
      /\ loop_raised e = None
      /\ loop_reads e = Z.of_nat (remaining cap)
      /\ Z.of_nat (List.length (loop_emitted e))
         = let_through (frame_skip self) fc
             (fc + Z.of_nat (remaining cap)).
Proof.
  induction fuel as [| fuel IH]; intros k cap fc Ho Hp Hfuel; [lia |].
  cbn [VideoWorker.loop].
  assert (Hrem : remaining cap
                 = (List.length (frames cap) - Z.to_nat (pos_frames cap))%nat).
  { unfold remaining. rewrite Ho.
    replace (0 <=? pos_frames cap)%Z with true by lia. reflexivity. }
  destruct (Z_lt_ge_dec (pos_frames cap)
              (Z.of_nat (List.length (frames cap)))) as [Hin | Hout].
  - destruct (cap_read_inside cap Ho ltac:(lia)) as (frame & Hread).
    destruct (pass_clean_read k _ _ fc _ Hread) as (em & -> & Hem).
    assert (Hrem' : remaining (mkCap true (frames cap) (pos_frames cap + 1))
                    = (remaining cap - 1)%nat).
    { rewrite Hrem. unfold remaining. cbn [is_opened pos_frames frames].
      replace (0 <=? pos_frames cap + 1)%Z with true by lia.
      cbn [andb]. lia. }
    destruct (IH (S k) (mkCap true (frames cap) (pos_frames cap + 1))
                (fc + 1)%Z eq_refl ltac:(cbn; lia) ltac:(lia))
      as (e' & -> & Hr & Hreads & Hcount).
    cbn [option_map]. eexists. split; [reflexivity |].
    assert (Hone : (1 <= remaining cap)%nat) by (rewrite Hrem; lia).
    rewrite Hrem' in Hreads, Hcount.
    rewrite (let_through_step self fc).
    replace (fc + 1 + Z.of_nat (remaining cap - 1))%Z
      with (fc + Z.of_nat (remaining cap))%Z in Hcount by lia.
    destruct (skipped self (fc + 1)).
    + subst em. cbn. repeat split; [exact Hr | lia | exact Hcount].
    + destruct em as [f |]; [| contradiction].
      cbn [after_pass one_more_read emit loop_raised loop_reads
             loop_emitted List.length].
      repeat split; [exact Hr | lia | lia].
  - rewrite (pass_at_end bgr2hsv self running k cap fc) by lia.
    eexists. split; [reflexivity |]. cbn.
    replace (remaining cap) with 0%nat by lia.
    rewrite Z.add_0_r, let_through_none. repeat split.
Qed.

(** X15.  A run from the start of the video that is not cancelled, has
    no end bound, a frame rate other than zero and a detector that does
    not raise reads every frame and emits one frame signal for each
    frame whose 1-based number is a multiple of [frame_skip]:
    [len(video) // frame_skip] signals when [frame_skip > 1], one per
    frame otherwise, and then the finished signal. *)
Theorem clean_run_emits_every_nth_frame (video : list Image)
  (total_time : Q) :
  (start_sec self <= 0)%Q ->
  exists r,
    run (Some video) running total_time = Some r
    /\ raised r = None
    /\ frames_read r = Z.of_nat (List.length video)
    /\ Z.of_nat (List.length (frame_signals (emitted r)))
       = (if (frame_skip self >? 1)%Z
          then Z.of_nat (List.length video) / frame_skip self
          else Z.of_nat (List.length video))%Z.
Proof.
  intros Hstart. unfold VideoWorker.run.
  rewrite (EvidenceFacts.start_unseeked self video Hstart).
  cbn [frames].
  destruct (loop_clean (S (List.length video)) 0%nat (mkCap true video 0) 0%Z
              eq_refl ltac:(cbn; lia) ltac:(cbn; lia))
    as (e & -> & Hr & Hreads & Hcount).
  rewrite Hr. eexists. split; [reflexivity |].
  cbn [raised frames_read emitted].
  rewrite frame_signals_finished.
  assert (Hrem : remaining (mkCap true video 0) = List.length video)
    by (cbn; lia).
  rewrite Hrem in Hreads, Hcount.
  repeat split; [exact Hreads |].
  rewrite Hcount. unfold let_through.
  destruct (frame_skip self >? 1)%Z; [| lia].
  rewrite Z.add_0_l, Zdiv_0_l. lia.
Qed.

End CleanRuns.

Section Edges.

Variable bgr2hsv : Pixel -> Pixel.
Variable self : Worker.
Variable running : nat -> bool.

Local Abbreviation pass := (pass bgr2hsv self running).
Local Abbreviation loop := (loop bgr2hsv self running).
Local Abbreviation run := (run bgr2hsv self).

Lemma int_of_float_times_zero (x y : Q) :
  Qeq_bool y 0 = true -> Py.int_of_float (x * y) = 0%Z.
Proof.
  intros H. apply Qeq_bool_iff in H. unfold Qeq in H. cbn in H.
  unfold Py.int_of_float. cbn.
  replace (Qnum y) with 0%Z by lia.
  rewrite Z.mul_0_r. apply Z.quot_0_l. lia.
Qed.

Lemma start_with_zero_fps (video : list Image) :
  Qeq_bool (video_fps self) 0 = true ->
  exists fc, start self (Some video) = (mkCap true video 0, fc).
Proof.
  intros H. unfold start.
  destruct (negb (Qle_bool (start_sec self) 0)); [| eauto].
  rewrite (int_of_float_times_zero _ _ H).
  unfold cap_set_pos_frames. cbn [VideoCapture_open is_opened frames].
  rewrite seek_index_inside by (split; [lia | reflexivity]).
  rewrite Z.min_l by lia. eauto.
Qed.

(** X16.  A worker whose [video_fps] is zero fails on the first frame
    it reads: the division that reconstructs the frame time raises
    [ZeroDivisionError], so a run over a video with at least one frame
    emits no signal at all, not even the finished signal, and leaves
    the capture open. *)
Theorem zero_fps_ends_run_at_first_frame (first : Image)
  (rest : list Image) (total_time : Q) :
  Qeq_bool (video_fps self) 0 = true ->
  running 0%nat = true ->
  run (Some (first :: rest)) running total_time
  = Some (mkRunEnd [] (Some ZeroDivisionError)
            (mkCap true (first :: rest) 1) 1).
Proof.
  intros Hz Hrun. unfold VideoWorker.run.
  destruct (start_with_zero_fps (first :: rest) Hz) as (fc & ->).
  cbn [frames VideoWorker.loop].
  unfold VideoWorker.pass. rewrite Hrun. cbn. rewrite Hz. reflexivity.
Qed.

Lemma pass_emission_detections (k : nat) (cap cap' : VideoCapture)
  (fc fc' : Z) (f : FrameSignal) :
  pass k cap fc = Continue cap' fc' (Some f) ->
  exists detections,
    predict (model self) (base_frame (sig_frame f)) (conf_threshold self)
      (target_classes self) = Some detections
    /\ sig_frame f
       = annotate self (base_frame (sig_frame f))
           (validate bgr2hsv self (base_frame (sig_frame f)) detections)
    /\ sig_detection_count f
       = Z.of_nat
           (List.length
              (validate bgr2hsv self (base_frame (sig_frame f))
                 detections)).
Proof.
  unfold VideoWorker.pass.
  destruct (negb (running k && is_opened cap)); [discriminate |].
  destruct (cap_read cap) as [[frame |] c]; [| discriminate].
  destruct (Qeq_bool (video_fps self) 0); [discriminate |].
  destruct (past_end self _); [discriminate |].
  destruct (skipped self (fc + 1)); [discriminate |].
  destruct (predict _ _ _ _) as [dets |] eqn:Hd; [| discriminate].
  intros [= <- <- <-]. cbn. exists dets. repeat split. exact Hd.
Qed.

Lemma loop_emitted_detections (fuel : nat) :
  forall k cap fc e,
    loop fuel k cap fc = Some e ->
    forall f,
      In f (loop_emitted e) ->
      exists detections,
        predict (model self) (base_frame (sig_frame f))
          (conf_threshold self) (target_classes self) = Some detections
        /\ sig_frame f
           = annotate self (base_frame (sig_frame f))
               (validate bgr2hsv self (base_frame (sig_frame f))
                  detections)
        /\ sig_detection_count f
           = Z.of_nat
               (List.length
                  (validate bgr2hsv self (base_frame (sig_frame f))
                     detections)).
Proof.
  induction fuel as [| fuel IH]; intros k cap fc e; [discriminate |].
  cbn [VideoWorker.loop].
  destruct (pass k cap fc) as [c fc' rd | exn c fc' | c fc' em] eqn:Hp.
  - intros [= <-] f [].
  - intros [= <-] f [].
  - destruct (loop fuel (S k) c fc') as [e' |] eqn:Hl; [| discriminate].
    intros [= <-] f Hin.
    destruct em as [f0 |]; cbn in Hin; [| exact (IH _ _ _ _ Hl f Hin)].
    destruct Hin as [<- | Hin]; [| exact (IH _ _ _ _ Hl f Hin)].
    exact (pass_emission_detections _ _ _ _ _ _ Hp).
Qed.

(** X17.  Every frame signal of a run reports the detections that
    passed the colour filter on its frame: the count is the number of
    validated detections, never negative and never more than the
    detector reported; the annotated frame is a copy of the decoded
    frame with one drawing per validated detection, the boxes as the
    detector gave them, and no drawing for a rejected one. *)
Theorem frame_signal_reports_validated_detections
  (source : option (list Image)) (total_time : Q) (r : RunEnd)
  (f : FrameSignal) :
  run source running total_time = Some r ->
  In f (frame_signals (emitted r)) ->
  exists detections validated,
    predict (model self) (base_frame (sig_frame f)) (conf_threshold self)
      (target_classes self) = Some detections
    /\ validated
       = validate bgr2hsv self (base_frame (sig_frame f)) detections
    /\ incl validated detections
    /\ sig_detection_count f = Z.of_nat (List.length validated)
    /\ (0 <= sig_detection_count f
        <= Z.of_nat (List.length detections))%Z
    /\ drawings (sig_frame f) = map (draw (model self)) validated.
Proof.
  intros Hrun Hf.
  destruct (run_frame_signals _ _ _ _ _ _ Hrun) as (e & Hloop & Hfs & _).
  rewrite Hfs in Hf.
  destruct (loop_emitted_detections _ _ _ _ _ Hloop f Hf)
    as (dets & Hd & Hframe & Hcount).
  exists dets, (validate bgr2hsv self (base_frame (sig_frame f)) dets).
  destruct (validate_sublist bgr2hsv self (base_frame (sig_frame f)) dets)
    as [Hincl Hlen].
  repeat split; try assumption; try lia.
  rewrite Hframe at 1. unfold annotate. cbn [drawings].
  destruct (validate bgr2hsv self (base_frame (sig_frame f)) dets);
    reflexivity.
Qed.

(** X18.  A colour filter whose name is not one of the six names of
    the range table, in any letter case, filters nothing: every
    detection is validated, as with the sentinel [none]. *)
Theorem unknown_colour_validates_everything (frame : Image)
  (detections : list BoxData) :
  ~ In (Py.lower (color_filter self)) known_colors ->
  validate bgr2hsv self frame detections = detections.
Proof.
  intros Hunknown. unfold validate.
  destruct (negb _); [| reflexivity].
  apply ColorFacts.filter_all. intros box_data _.
  apply ColorFacts.is_color_match_disabled. right. right.
  destruct (ColorUtils.get_hsv_range (color_filter self)) eqn:E;
    [| reflexivity].
  exfalso. apply Hunknown, ColorFacts.get_hsv_range_known. congruence.
Qed.

End Edges.

End WorkerFacts.

(* ================================================================== *)
(** * Further runs of the worker on small videos *)
(* ================================================================== *)

Module WorkerScenarios.

Import Np VideoWorker Notions MoreNotions Samples MoreSamples
  VideoWorkerFacts WorkerFacts.
Local Open Scope string_scope.

Lemma quiet_model_reliable : reliable quiet_model.
Proof. intros frame conf classes. discriminate. Qed.

(** A start time past the end of a video of five frames, and the start
    time [85500000000000:00:00], which the window accepts: at 30 frames
    a second its frame index is beyond [2^63], and the run reads the
    video from frame 0. *)
Lemma run_reads_at_most_the_video_witness :
  (exists r,
      run hsv (worker quiet_model 1 30 10 None) (Some (video 5))
        never_stopped 0 = Some r
      /\ Py.int_of_float (10 * 30) = 300%Z
      /\ frames_read r = 0%Z)
  /\ (exists r,
         run hsv (worker quiet_model 1 30 307800000000000000 None)
           (Some (video 5)) never_stopped 0 = Some r
         /\ (2 ^ 63 <= Py.int_of_float (307800000000000000 * 30))%Z
         /\ pos_frames
              (fst (start (worker quiet_model 1 30 307800000000000000 None)
                      (Some (video 5)))) = 0%Z
         /\ frames_read r = 5%Z).
Proof.
  split.
  - destruct (run_reads_at_most_the_video hsv
                (worker quiet_model 1 30 10 None) never_stopped
                (video 5) 0%Q)
      as (r & Hrun & _ & _ & _ & _ & Hseek).
    exists r. split; [exact Hrun |]. split; [reflexivity |].
    destruct (Hseek ltac:(reflexivity) 300%Z eq_refl) as (_ & Hpast & _).
    apply Hpast. split; [cbn; lia | reflexivity].
  - destruct (run_reads_at_most_the_video hsv
                (worker quiet_model 1 30 307800000000000000 None)
                never_stopped (video 5) 0%Q)
      as (r & Hrun & _ & _ & _ & _ & Hseek).
    exists r. split; [exact Hrun |].
    assert (Hbig : (2 ^ 63
                    <= Py.int_of_float (307800000000000000 * 30))%Z)
      by (vm_compute; discriminate).
    split; [exact Hbig |].
    destruct (Hseek ltac:(reflexivity) _ eq_refl) as (_ & _ & Hwrap).
    split; [apply Hwrap; right; exact Hbig |].
    vm_compute in Hrun. injection Hrun as <-. reflexivity.
Defined.

Lemma counters_grow_witness :
  exists r,
    run hsv (worker quiet_model 3 10 0 None) (Some (video 10))
      never_stopped 0 = Some r
    /\ map sig_frame_counter (frame_signals (emitted r)) = [3; 6; 9]%Z
    /\ StronglySorted
         (fun f g => (sig_frame_counter f < sig_frame_counter g)%Z)
         (frame_signals (emitted r))
    /\ (forall f,
           In f (frame_signals (emitted r)) ->
           (sig_frame_counter f mod 3 = 0)%Z).
Proof.
  destruct (run hsv (worker quiet_model 3 10 0 None) (Some (video 10))
              never_stopped 0) as [r |] eqn:Hrun;
    [| vm_compute in Hrun; discriminate].
  exists r. split; [reflexivity |].
  split; [vm_compute in Hrun; injection Hrun as <-; reflexivity |].
  destruct (counters_grow hsv (worker quiet_model 3 10 0 None)
              never_stopped (Some (video 10)) 0%Q r Hrun)
    as (Hsorted & _ & Hmult).
  split; [exact Hsorted |].
  apply Hmult. cbn. lia.
Defined.

Lemma finished_or_raised_witness :
  exists r,
    run hsv (worker quiet_model 1 30 0 None) (Some (video 2))
      never_stopped 5 = Some r
    /\ raised r = None
    /\ emitted r
       = (map frame_signal (frame_signals (emitted r))
          ++ [finished_signal 5])%list
    /\ is_opened (final_cap r) = false.
Proof.
  destruct (run hsv (worker quiet_model 1 30 0 None) (Some (video 2))
              never_stopped 5) as [r |] eqn:Hrun;
    [| vm_compute in Hrun; discriminate].
  exists r. split; [reflexivity |].
  assert (Hr : raised r = None)
    by (vm_compute in Hrun; injection Hrun as <-; reflexivity).
  split; [exact Hr |].
  pose proof (finished_or_raised hsv (worker quiet_model 1 30 0 None)
                never_stopped (Some (video 2)) 5%Q r Hrun) as H.
  rewrite Hr in H. exact H.
Defined.

Lemma stop_flag_bounds_the_run_witness :
  exists r,
    run hsv (worker quiet_model 1 30 0 None) (Some (video 10))
      stopped_after_two 0 = Some r
    /\ stopped_after_two 2 = false
    /\ (frames_read r <= Z.of_nat 2)%Z
    /\ (List.length (frame_signals (emitted r)) <= 2)%nat.
Proof.
  destruct (run hsv (worker quiet_model 1 30 0 None) (Some (video 10))
              stopped_after_two 0) as [r |] eqn:Hrun;
    [| vm_compute in Hrun; discriminate].
  exists r. split; [reflexivity |]. split; [reflexivity |].
  exact (stop_flag_bounds_the_run hsv (worker quiet_model 1 30 0 None)
           stopped_after_two (Some (video 10)) 0%Q r 2%nat Hrun eq_refl).
Defined.

Lemma clean_run_emits_every_nth_frame_witness :
  reliable quiet_model
  /\ (forall k, never_stopped k = true)
  /\ (start_sec (worker quiet_model 3 30 0 None) <= 0)%Q
  /\ exists r,
       run hsv (worker quiet_model 3 30 0 None) (Some (video 10))
         never_stopped 0 = Some r
       /\ raised r = None
       /\ frames_read r = Z.of_nat (List.length (video 10))
       /\ Z.of_nat (List.length (frame_signals (emitted r)))
          = (Z.of_nat (List.length (video 10)) / 3)%Z.
Proof.
  assert (H1 : forall k, never_stopped k = true) by reflexivity.
  assert (H2 : (start_sec (worker quiet_model 3 30 0 None) <= 0)%Q)
    by discriminate.
  split; [exact quiet_model_reliable |]. split; [exact H1 |].
  split; [exact H2 |].
  exact (clean_run_emits_every_nth_frame hsv
           (worker quiet_model 3 30 0 None) never_stopped
           quiet_model_reliable H1 eq_refl eq_refl (video 10) 0%Q H2).
Defined.

Lemma zero_fps_ends_run_at_first_frame_witness :
  Qeq_bool (video_fps (worker quiet_model 1 0 0 None)) 0 = true
  /\ never_stopped 0 = true
  /\ run hsv (worker quiet_model 1 0 0 None)
       (Some [tiny_frame 0; tiny_frame 1]) never_stopped 0
     = Some (mkRunEnd [] (Some ZeroDivisionError)
               (mkCap true [tiny_frame 0; tiny_frame 1] 1) 1).
Proof.
  split; [reflexivity |]. split; [reflexivity |].
  exact (zero_fps_ends_run_at_first_frame hsv
           (worker quiet_model 1 0 0 None) never_stopped (tiny_frame 0)
           [tiny_frame 1] 0%Q eq_refl eq_refl).
Defined.

Lemma frame_signal_reports_validated_detections_witness :
  exists r,
    run hsv spotting_worker (Some (video 3)) never_stopped 0 = Some r
    /\ In second_signal (frame_signals (emitted r))
    /\ exists detections validated,
         predict (model spotting_worker)
           (base_frame (sig_frame second_signal))
           (conf_threshold spotting_worker)
           (target_classes spotting_worker) = Some detections
         /\ validated
            = validate hsv spotting_worker
                (base_frame (sig_frame second_signal)) detections
         /\ incl validated detections
         /\ sig_detection_count second_signal
            = Z.of_nat (List.length validated)
         /\ (0 <= sig_detection_count second_signal
             <= Z.of_nat (List.length detections))%Z
         /\ drawings (sig_frame second_signal)
            = map (draw (model spotting_worker)) validated.
Proof.
  destruct (run hsv spotting_worker (Some (video 3)) never_stopped 0)
    as [r |] eqn:Hrun; [| vm_compute in Hrun; discriminate].
  exists r. split; [reflexivity |].
  assert (Hin : In second_signal (frame_signals (emitted r))).
  { vm_compute in Hrun. injection Hrun as <-. right. left. reflexivity. }
  split; [exact Hin |].
  exact (frame_signal_reports_validated_detections hsv spotting_worker
           never_stopped (Some (video 3)) 0%Q r second_signal Hrun Hin).
Defined.

Lemma unknown_colour_validates_everything_witness :
  ~ In (Py.lower (color_filter purple_worker)) known_colors
  /\ validate hsv purple_worker half_red_frame [box_left_of_frame]
     = [box_left_of_frame].
Proof.
  assert (H : ~ In (Py.lower (color_filter purple_worker)) known_colors).
  { cbn. intros [E | [E | [E | [E | [E | [E | []]]]]]]; discriminate. }
  split; [exact H |].
  exact (unknown_colour_validates_everything hsv purple_worker
           half_red_frame [box_left_of_frame] H).
Defined.

End WorkerScenarios.

(* ================================================================== *)
(** * Further properties: the region of interest *)
(* ================================================================== *)

Module RoiMoreFacts.

Import Np VideoWorker Notions MoreNotions Samples MoreSamples.
Local Open Scope string_scope.

Lemma slice_nonneg {A : Type} (start stop : Z) (l : list A) :
  (0 <= start)%Z -> (0 <= stop)%Z ->
  slice start stop l
  = firstn
      (Z.to_nat (Z.min stop (Z.of_nat (List.length l))
                 - Z.min start (Z.of_nat (List.length l))))
      (skipn (Z.to_nat (Z.min start (Z.of_nat (List.length l)))) l).
Proof.
  intros Ha Hb. unfold slice, slice_bound.
  replace (start <? 0)%Z with false by lia.
  replace (stop <? 0)%Z with false by lia.
  reflexivity.
Qed.

Lemma length_slice {A : Type} (start stop : Z) (l : list A) :
  (0 <= start)%Z -> (0 <= stop)%Z ->
  Z.of_nat (List.length (slice start stop l))
  = Z.max 0 (Z.min stop (Z.of_nat (List.length l)) - start).
Proof.
  intros Ha Hb. rewrite (slice_nonneg _ _ _ Ha Hb).
  rewrite length_firstn, length_skipn. lia.
Qed.

Lemma nth_error_slice {A : Type} (start stop : Z) (l : list A) (i : nat) :
  (0 <= start)%Z -> (0 <= stop)%Z ->
  (i < List.length (slice start stop l))%nat ->
  nth_error (slice start stop l) i = nth_error l (Z.to_nat start + i).
Proof.
  intros Ha Hb Hi.
  pose proof (length_slice start stop l Ha Hb) as Hlen.
  rewrite (slice_nonneg _ _ _ Ha Hb) in *.
  rewrite nth_error_firstn, nth_error_skipn.
  replace (i <? _)%nat with true.
  - f_equal. lia.
  - symmetry. apply Nat.ltb_lt. rewrite length_firstn, length_skipn in Hi.
    lia.
Qed.

(** X19.  For a detection whose far corner is not negative, the region
    handed to the colour matcher is exactly the part of the box that
    lies inside the frame: it has [min(h, y2) - max(0, y1)] rows and
    [min(w, x2) - max(0, x1)] columns, none when that is negative, and
    its pixel in row [i], column [j] is the frame's pixel in row
    [max(0, y1) + i], column [max(0, x1) + j]. *)
Theorem roi_is_box_within_frame (frame : Image) (w : nat) (b : BoxData)
  (x1 y1 x2 y2 : Z) :
  rectangular w frame ->
  int_box b = (x1, y1, x2, y2) ->
  (0 <= x2)%Z -> (0 <= y2)%Z ->
  shape0 (roi_of frame b)
  = Z.max 0 (Z.min (shape0 frame) y2 - Z.max 0 y1)
  /\ rectangular
       (Z.to_nat (Z.max 0 (Z.min (Z.of_nat w) x2 - Z.max 0 x1)))
       (roi_of frame b)
  /\ (forall i j,
         (0 <= i < Z.max 0 (Z.min (shape0 frame) y2 - Z.max 0 y1))%Z ->
         (0 <= j < Z.max 0 (Z.min (Z.of_nat w) x2 - Z.max 0 x1))%Z ->
         pixel_at (roi_of frame b) i j
         = pixel_at frame (Z.max 0 y1 + i) (Z.max 0 x1 + j)).
Proof.
  intros Hrect Hbox Hx2 Hy2.
  destruct frame as [| row0 rest].
  { assert (E : roi_of [] b = []).
    { unfold roi_of, crop, slice. rewrite Hbox. cbn [clamp_box].
      rewrite skipn_nil, firstn_nil. reflexivity. }
    rewrite E. unfold shape0. cbn [List.length].
    split; [lia |]. split; [constructor |].
    intros i j Hi. lia. }
  assert (Hw : shape1 (row0 :: rest) = Z.of_nat w)
    by (cbn; inversion Hrect; subst; reflexivity).
  set (frame := row0 :: rest) in *.
  unfold roi_of. rewrite Hbox. cbn [clamp_box]. rewrite Hw.
  unfold crop.
  set (ya := Z.max 0 y1). set (yb := Z.min (shape0 frame) y2).
  set (xa := Z.max 0 x1). set (xb := Z.min (Z.of_nat w) x2).
  assert (Hya : (0 <= ya)%Z) by lia.
  assert (Hxa : (0 <= xa)%Z) by lia.
  assert (Hyb : (0 <= yb)%Z) by (unfold yb, shape0; lia).
  assert (Hxb : (0 <= xb)%Z) by lia.
  assert (Hrows : Z.of_nat (List.length (slice ya yb frame))
                  = Z.max 0 (yb - ya)).
  { rewrite (length_slice _ _ _ Hya Hyb). unfold yb, shape0. lia. }
  assert (Hcols : forall r, In r frame ->
                            Z.of_nat (List.length (slice xa xb r))
                            = Z.max 0 (xb - xa)).
  { intros r Hr. rewrite (length_slice _ _ _ Hxa Hxb).
    unfold rectangular in Hrect. rewrite Forall_forall in Hrect.
    rewrite (Hrect r Hr). unfold xb. lia. }
  split; [| split].
  - unfold shape0 at 1. rewrite length_map. exact Hrows.
  - unfold rectangular. apply Forall_forall.
    intros r (fr & <- & Hfr)%in_map_iff.
    apply RoiFacts.in_slice in Hfr. rewrite <- (Hcols fr Hfr). lia.
  - intros i j Hi Hj. unfold pixel_at.
    replace ((i <? 0) || (j <? 0))%Z with false by lia.
    replace ((ya + i <? 0) || (xa + j <? 0))%Z with false by lia.
    rewrite nth_error_map, nth_error_slice by (try assumption; lia).
    replace (Z.to_nat ya + Z.to_nat i)%nat with (Z.to_nat (ya + i)) by lia.
    destruct (nth_error frame (Z.to_nat (ya + i))) as [fr |] eqn:E;
      [| reflexivity].
    cbn [option_map].
    rewrite nth_error_slice.
    + f_equal. lia.
    + assumption.
    + assumption.
    + apply nth_error_In in E. pose proof (Hcols fr E). lia.
Qed.

Lemma half_red_frame_rectangular : rectangular 6 half_red_frame.
Proof. repeat constructor. Qed.

Lemma roi_is_box_within_frame_witness :
  rectangular 6 half_red_frame
  /\ int_box box_over_corner = (4, -2, 9, 2)%Z
  /\ (0 <= 9)%Z /\ (0 <= 2)%Z
  /\ roi_of half_red_frame box_over_corner = repeat (repeat blue_hsv 2) 2
  /\ shape0 (roi_of half_red_frame box_over_corner) = 2%Z
  /\ rectangular 2 (roi_of half_red_frame box_over_corner).
Proof.
  assert (H1 : (0 <= 9)%Z) by lia. assert (H2 : (0 <= 2)%Z) by lia.
  split; [exact half_red_frame_rectangular |]. split; [reflexivity |].
  split; [exact H1 |]. split; [exact H2 |]. split; [reflexivity |].
  destruct (roi_is_box_within_frame half_red_frame 6 box_over_corner
              4 (-2) 9 2 half_red_frame_rectangular eq_refl H1 H2)
    as (Hrows & Hrect & _).
  split; [exact Hrows | exact Hrect].
Defined.

End RoiMoreFacts.

(* ================================================================== *)
(** * Properties: the clamped box *)
(* ================================================================== *)

Module RoiBoundsFacts.

Import Np ColorUtils VideoWorker Notions MoreNotions Samples MoreSamples.
Import RoiFacts RoiMoreFacts.
Local Open Scope string_scope.





End RoiBoundsFacts.

(* ================================================================== *)
(** * Scenarios: boxes at the edge of the frame *)
(* ================================================================== *)

Module RoiBoundsScenarios.

Import Np ColorUtils VideoWorker Notions MoreNotions Samples MoreSamples.
Import RoiMoreFacts RoiBoundsFacts.
Local Open Scope string_scope.


End RoiBoundsScenarios.

(* ================================================================== *)
(** * Further properties: the evidence log and the report *)
(* ================================================================== *)

Module EvidenceMoreFacts.

Import Np VideoWorker Notions MoreNotions Samples VideoWorkerFacts
  WorkerFacts Evidence EvidenceFacts Gui.
Local Open Scope string_scope.

(** ** The report button *)

Lemma report_needs_evidence_step (w : Window) (op : Operation) :
  consistent w ->
  (report_enabled w = true -> evidence_log w <> []) ->
  report_enabled (perform w op) = true ->
  evidence_log (perform w op) <> [].
Proof.
  intros Hc Hinv.
  destruct op as [f fs | b | n | any | | t]; cbn; try discriminate;
    try exact Hinv.
  - unfold update_frame, add_evidence_to_gallery.
    destruct (sig_detection_count f >? 0)%Z; [| exact Hinv].
    destruct (negb _ && _); [exact Hinv |].
    cbn. intros _ E. apply app_eq_nil in E as [_ E]. discriminate.
  - unfold consistent in Hc.
    destruct (total_evidence_frames w >? 0)%Z eqn:E; [| exact Hinv].
    intros _ Hnil. rewrite Hnil in Hc. cbn in Hc. lia.
Qed.

Lemma report_needs_evidence_all (ops : list Operation) :
  forall w,
    consistent w ->
    (report_enabled w = true -> evidence_log w <> []) ->
    report_enabled (perform_all w ops) = true ->
    evidence_log (perform_all w ops) <> [].
Proof.
  unfold perform_all.
  induction ops as [| op ops IH]; intros w Hc Hinv; cbn; [exact Hinv |].
  apply IH; [apply perform_consistent, Hc |].
  apply report_needs_evidence_step; assumption.
Qed.

(** X20.  Whatever the user and the worker do, the report button is
    never enabled over an empty evidence log: whenever it is enabled,
    [generate_report] finds entries to write. *)
Theorem report_button_needs_evidence (ops : list Operation) :
  report_enabled (perform_all init ops) = true ->
  evidence_log (perform_all init ops) <> []
  /\ Report.generate_report (evidence_log (perform_all init ops)) <> None.
Proof.
  intros H.
  assert (Hne : evidence_log (perform_all init ops) <> []).
  { apply report_needs_evidence_all; [reflexivity | discriminate | exact H]. }
  split; [exact Hne |].
  destruct (evidence_log (perform_all init ops)); [contradiction |].
  discriminate.
Qed.

(** ** A recorded run *)

Lemma record_signals (filter_settings : FilterSettings)
  (signals : list Signal) :
  forall w,
    (forall f, In f (frame_signals signals) ->
               Qeq_bool (sig_video_fps f) 0 = false) ->
    evidence_log (record_run w signals filter_settings)
    = (evidence_log w
       ++ map (fun f => entry_for f filter_settings)
            (with_detections (frame_signals signals)))%list
    /\ total_evidence_frames (record_run w signals filter_settings)
       = (total_evidence_frames w
          + Z.of_nat
              (List.length (with_detections (frame_signals signals))))%Z.
Proof.
  unfold record_run.
  induction signals as [| s signals IH]; intros w Hfps.
  - cbn. rewrite app_nil_r. split; [reflexivity | lia].
  - cbn [fold_left]. destruct s as [f | t].
    + assert (Hrest : forall g, In g (frame_signals signals) ->
                                Qeq_bool (sig_video_fps g) 0 = false).
      { intros g Hg. apply Hfps. cbn. right. exact Hg. }
      destruct (IH (fst (update_frame w f filter_settings)) Hrest)
        as [Hlog Htotal].
      rewrite Hlog, Htotal.
      change (frame_signals (frame_signal f :: signals))
        with (f :: frame_signals signals).
      unfold with_detections. cbn [filter]. unfold update_frame.
      destruct (sig_detection_count f >? 0)%Z.
      * rewrite add_evidence_stores
          by (rewrite (Hfps f (or_introl eq_refl)); apply andb_false_r).
        cbn [fst evidence_log total_evidence_frames map List.length].
        rewrite <- app_assoc. split; [reflexivity | lia].
      * cbn [fst]. split; reflexivity.
    + destruct (IH (analysis_finished w t) Hfps) as [Hlog Htotal].
      rewrite Hlog, Htotal. split; reflexivity.
Qed.

Lemma run_signals_have_fps (bgr2hsv : Pixel -> Pixel) (self : Worker)
  (running : nat -> bool) (source : option (list Image)) (total_time : Q)
  (r : RunEnd) :
  run bgr2hsv self source running total_time = Some r ->
  forall f, In f (frame_signals (emitted r)) ->
            Qeq_bool (sig_video_fps f) 0 = false.
Proof.
  intros Hrun f Hf.
  destruct (run_frame_signals _ _ _ _ _ _ Hrun) as (e & Hloop & Hfs & _).
  rewrite Hfs in Hf.
  destruct (loop_emitted_inv _ _ _ _ _ _ _ _ Hloop f Hf) as (-> & H & _).
  exact H.
Qed.

(** X21.  Recording the signals of a run appends to the log, in
    emission order, one entry for each frame signal with
    [detection_count > 0] and nothing for the others, and adds the
    number of these entries to [total_evidence_frames]. *)
Theorem recorded_run_logs_detected_frames (bgr2hsv : Pixel -> Pixel)
  (self : Worker) (running : nat -> bool) (source : option (list Image))
  (total_time : Q) (r : RunEnd) (w : Window)
  (filter_settings : FilterSettings) :
  run bgr2hsv self source running total_time = Some r ->
  evidence_log (record_run w (emitted r) filter_settings)
  = (evidence_log w
     ++ map (fun f => entry_for f filter_settings)
          (with_detections (frame_signals (emitted r))))%list
  /\ total_evidence_frames (record_run w (emitted r) filter_settings)
     = (total_evidence_frames w
        + Z.of_nat
            (List.length
               (with_detections (frame_signals (emitted r)))))%Z.
Proof.
  intros Hrun. apply record_signals.
  exact (run_signals_have_fps _ _ _ _ _ _ Hrun).
Qed.

(** X22.  The recorder reconstructs the time of a frame on its own,
    and for every frame signal of a run it arrives at the time the
    worker used for its end check: the time stamp of the entry is
    [seconds_to_hms((position - 1) / video_fps)].  With a positive
    frame rate that time stamp reads back, through [hms_to_seconds], as
    the whole seconds of the frame time. *)
Theorem recorder_time_agrees_with_worker (bgr2hsv : Pixel -> Pixel)
  (self : Worker) (video : list Image) (running : nat -> bool)
  (total_time : Q) (f : FrameSignal) (filter_settings : FilterSettings) :
  emitted_in bgr2hsv self video running total_time f ->
  timestamp (entry_for f filter_settings)
  = TimeUtils.seconds_to_hms (time_of (sig_frame_pos f) (sig_video_fps f))
  /\ ((0 < sig_video_fps f)%Q ->
      TimeUtils.hms_to_seconds (timestamp (entry_for f filter_settings))
      = Qfloor (time_of (sig_frame_pos f) (sig_video_fps f))).
Proof.
  intros Hem.
  destruct (emitted_in_inv _ _ _ _ _ _ Hem) as (_ & z & Hz & Hpos & _).
  assert (Hts : timestamp (entry_for f filter_settings)
                = TimeUtils.seconds_to_hms
                    (time_of (sig_frame_pos f) (sig_video_fps f))).
  { unfold entry_for, entry_of, time_of. cbn [timestamp].
    replace (Qle_bool (sig_frame_pos f) 0) with false; [reflexivity |].
    symmetry. rewrite Hpos.
    destruct (Qle_bool (inject_Z z) 0) eqn:E; [| reflexivity].
    apply Qle_bool_iff in E. change 0%Q with (inject_Z 0) in E.
    rewrite <- Zle_Qle in E. lia. }
  split; [exact Hts |].
  intros Hfps. rewrite Hts.
  apply TimeCodeFacts.float_seconds_round_trip_to_floor_aux.
  unfold time_of. apply Qle_shift_div_l; [exact Hfps |].
  rewrite Qmult_0_l, Hpos.
  unfold Qle. cbn. lia.
Qed.

(** ** The names of the exported images *)

Lemma append_assoc (a b c : string) : (a ++ b) ++ c = a ++ (b ++ c).
Proof. induction a as [| x a IH]; cbn; [| rewrite IH]; reflexivity. Qed.

Lemma append_shift (a : string) (c : ascii) (x : string) :
  a ++ String c x = (a ++ String c EmptyString) ++ x.
Proof. induction a as [| y a IH]; cbn; [| rewrite IH]; reflexivity. Qed.

Lemma forallb_append (p : ascii -> bool) (a b : string) :
  Py.string_forallb p (a ++ b)
  = Py.string_forallb p a && Py.string_forallb p b.
Proof.
  induction a as [| x a IH]; cbn; [reflexivity |].
  rewrite IH, andb_assoc. reflexivity.
Qed.

Lemma forallb_impl (p q : ascii -> bool) (s : string) :
  (forall c, p c = true -> q c = true) ->
  Py.string_forallb p s = true -> Py.string_forallb q s = true.
Proof.
  intros Hpq. induction s as [| x s IH]; cbn; [reflexivity |].
  intros [Hx Hs]%andb_prop. rewrite (Hpq x Hx), (IH Hs). reflexivity.
Qed.

(** A text is cut in one way only at the first occurrence of a
    character. *)
Lemma cut_at_char (c : ascii) (a a' b b' : string) :
  free_of c a = true -> free_of c a' = true ->
  a ++ String c b = a' ++ String c b' -> a = a' /\ b = b'.
Proof.
  unfold free_of. revert a'.
  induction a as [| x a IH]; intros [| y a']; cbn.
  - intros _ _ [= ->]. split; reflexivity.
  - intros _ [Hy _]%andb_prop [= -> _].
    rewrite Ascii.eqb_refl in Hy. discriminate.
  - intros [Hx _]%andb_prop _ [= -> _].
    rewrite Ascii.eqb_refl in Hx. discriminate.
  - intros [_ Ha]%andb_prop [_ Ha']%andb_prop [= -> E].
    destruct (IH a' Ha Ha' E) as [-> ->]. split; reflexivity.
Qed.

Lemma decimal_injective (n m : Z) :
  (0 <= n)%Z -> (0 <= m)%Z -> Py.decimal n = Py.decimal m -> n = m.
Proof.
  intros Hn Hm E.
  pose proof (PyFacts.int_digits_decimal n false Hn) as H1.
  pose proof (PyFacts.int_digits_decimal m false Hm) as H2.
  rewrite E in H1. congruence.
Qed.

Lemma format_02d_field (n : Z) :
  Py.string_forallb field_char (Py.format_02d n) = true.
Proof.
  assert (Hd : forall s, Py.string_forallb Py.is_digit s = true ->
                         Py.string_forallb field_char s = true).
  { intros s. apply forallb_impl. intros c Hc. unfold field_char.
    rewrite Hc. reflexivity. }
  unfold Py.format_02d, Py.zfill. destruct (n <? 0)%Z.
  - cbn [Py.string_forallb]. apply andb_true_intro. split; [reflexivity |].
    apply Hd, PyFacts.zeros_digits, PyFacts.decimal_digits.
  - apply Hd, PyFacts.zeros_digits, PyFacts.decimal_digits.
Qed.

Lemma field_char_not_F (c : ascii) :
  field_char c = true ->
  negb (Ascii.eqb (if Ascii.eqb c ":" then "_"%char else c) "F") = true.
Proof.
  unfold field_char. intros H.
  destruct (Ascii.eqb_spec c ":") as [-> | _]; [reflexivity |].
  destruct (Ascii.eqb_spec c "F") as [-> | _]; [discriminate |].
  reflexivity.
Qed.

Lemma replaced_free_of_F (s : string) :
  Py.string_forallb (fun c => field_char c || Ascii.eqb c ":") s = true ->
  free_of "F" (Py.replace_char ":" "_" s) = true.
Proof.
  unfold free_of.
  induction s as [| x s IH]; cbn [Py.replace_char Py.string_forallb];
    [reflexivity |].
  intros [Hx Hs]%andb_prop. rewrite (IH Hs), andb_true_r.
  destruct (Ascii.eqb_spec x ":") as [-> | Hne]; [reflexivity |].
  rewrite orb_false_r in Hx.
  pose proof (field_char_not_F x Hx) as Hx'.
  destruct (Ascii.eqb_spec x ":"); [contradiction | exact Hx'].
Qed.

Lemma timestamp_free_of_F (x : Q) :
  free_of "F" (Py.replace_char ":" "_" (TimeUtils.seconds_to_hms x)) = true.
Proof.
  apply replaced_free_of_F.
  rewrite TimeUtilsFacts.seconds_to_hms_int. unfold hms_of_int.
  assert (Hf : forall n,
             Py.string_forallb (fun c => field_char c || Ascii.eqb c ":")
               (Py.format_02d n) = true).
  { intros n. apply (forallb_impl field_char); [| apply format_02d_field].
    intros c ->. reflexivity. }
  rewrite !forallb_append, !Hf. reflexivity.
Qed.

(** Two image names with time stamps made by [seconds_to_hms] and
    frame numbers from 0 on are equal only for equal frame numbers. *)
Lemma img_filename_frame_num (e1 e2 : EvidenceEntry) (x1 x2 : Q) :
  timestamp e1 = TimeUtils.seconds_to_hms x1 ->
  timestamp e2 = TimeUtils.seconds_to_hms x2 ->
  (0 <= frame_num e1)%Z -> (0 <= frame_num e2)%Z ->
  img_filename e1 = img_filename e2 ->
  frame_num e1 = frame_num e2.
Proof.
  intros H1 H2 Hn1 Hn2. unfold img_filename. rewrite H1, H2.
  unfold Py.str_of_int.
  replace (frame_num e1 <? 0)%Z with false by lia.
  replace (frame_num e2 <? 0)%Z with false by lia.
  cbn [append].
  rewrite (append_shift
             (Py.replace_char ":" "_" (TimeUtils.seconds_to_hms x1)) "_"
             (String "F" (Py.decimal (frame_num e1) ++ ".png"))).
  rewrite (append_shift
             (Py.replace_char ":" "_" (TimeUtils.seconds_to_hms x2)) "_"
             (String "F" (Py.decimal (frame_num e2) ++ ".png"))).
  intros E.
  apply cut_at_char in E as [_ E].
  - apply cut_at_char in E as [E _];
      [exact (decimal_injective _ _ Hn1 Hn2 E) | |];
      (apply (forallb_impl Py.is_digit);
       [intros c Hc; rewrite (PyFacts.digit_not_char c "." Hc eq_refl);
        reflexivity
       | apply PyFacts.decimal_digits]).
  - unfold free_of. rewrite forallb_append.
    fold (free_of "F" (Py.replace_char ":" "_" (TimeUtils.seconds_to_hms x1))).
    rewrite timestamp_free_of_F. reflexivity.
  - unfold free_of. rewrite forallb_append.
    fold (free_of "F" (Py.replace_char ":" "_" (TimeUtils.seconds_to_hms x2))).
    rewrite timestamp_free_of_F. reflexivity.
Qed.

Lemma sorted_filter {A : Type} (R : A -> A -> Prop) (p : A -> bool)
  (l : list A) :
  StronglySorted R l -> StronglySorted R (filter p l).
Proof.
  induction 1 as [| a l Hs IH Hall]; cbn; [constructor |].
  destruct (p a); [| exact IH].
  constructor; [exact IH |].
  apply Forall_forall. intros x [Hx _]%filter_In.
  rewrite Forall_forall in Hall. exact (Hall x Hx).
Qed.

Lemma sorted_distinct_images {A : Type} (R : A -> A -> Prop)
  (name : A -> string) (l : list A) :
  StronglySorted R l ->
  (forall a b, In a l -> In b l -> R a b -> name a <> name b) ->
  NoDup (map name l).
Proof.
  induction 1 as [| a l Hs IH Hall]; intros Hne; cbn; constructor.
  - intros (b & Hb & Hin)%in_map_iff.
    rewrite Forall_forall in Hall.
    apply (Hne a b); [left; reflexivity | right; exact Hin
                     | exact (Hall b Hin) | symmetry; exact Hb].
  - apply IH. intros x y Hx Hy. apply Hne; right; assumption.
Qed.

(** X23.  The images exported for the entries of one recorded run have
    pairwise different file names, so no image overwrites another and
    the report holds one image per entry. *)
Theorem exported_images_have_distinct_names (bgr2hsv : Pixel -> Pixel)
  (self : Worker) (running : nat -> bool) (source : option (list Image))
  (total_time : Q) (r : RunEnd) (filter_settings : FilterSettings) :
  run bgr2hsv self source running total_time = Some r ->
  NoDup
    (map img_filename
       (evidence_log (record_run init (emitted r) filter_settings)))
  /\ List.length
       (map img_filename
          (evidence_log (record_run init (emitted r) filter_settings)))
     = List.length (with_detections (frame_signals (emitted r))).
Proof.
  intros Hrun.
  destruct (record_signals filter_settings (emitted r) init
              (run_signals_have_fps _ _ _ _ _ _ Hrun)) as [-> _].
  cbn [evidence_log init app].
  split; [| rewrite !length_map; reflexivity].
  rewrite map_map.
  destruct (run_frame_signals _ _ _ _ _ _ Hrun) as (e & Hloop & -> & _).
  apply (sorted_distinct_images
           (fun f g => (sig_frame_counter f < sig_frame_counter g)%Z)).
  - apply sorted_filter, (loop_emitted_sorted _ _ _ _ _ _ _ _ Hloop).
  - intros f g [Hf _]%filter_In [Hg _]%filter_In Hlt Hname.
    destruct (loop_emitted_inv _ _ _ _ _ _ _ _ Hloop f Hf)
      as (_ & _ & _ & _ & _ & Hpf).
    destruct (loop_emitted_inv _ _ _ _ _ _ _ _ Hloop g Hg)
      as (_ & _ & _ & _ & _ & Hpg).
    destruct (loop_emitted_frame _ _ _ _ _ _ _ _ Hloop f Hf)
      as (zf & Hzf & Hpf' & _).
    destruct (loop_emitted_frame _ _ _ _ _ _ _ _ Hloop g Hg)
      as (zg & Hzg & Hpg' & _).
    assert (Hnum : forall h z,
               sig_frame_pos h = inject_Z z ->
               frame_num (entry_for h filter_settings) = (z - 1)%Z).
    { intros h z Hz. unfold entry_for, entry_of. cbn [frame_num].
      rewrite Hz, int_of_float_pred, PyFacts.int_of_float_inject_Z.
      reflexivity. }
    apply (img_filename_frame_num _ _
             (if negb (Qle_bool (sig_frame_pos f) 0)
              then ((sig_frame_pos f - 1) / sig_video_fps f)%Q else 0%Q)
             (if negb (Qle_bool (sig_frame_pos g) 0)
              then ((sig_frame_pos g - 1) / sig_video_fps g)%Q else 0%Q))
      in Hname; try reflexivity.
    + rewrite (Hnum f zf Hpf'), (Hnum g zg Hpg') in Hname.
      rewrite Hpf' in Hpf. rewrite Hpg' in Hpg.
      apply inject_Z_inj in Hpf. apply inject_Z_inj in Hpg. lia.
    + rewrite (Hnum f zf Hpf'). lia.
    + rewrite (Hnum g zg Hpg'). lia.
Qed.

(** ** The CSV file *)


End EvidenceMoreFacts.

(* ================================================================== *)
(** * A recorded run, exported *)
(* ================================================================== *)

Module ReportScenarios.

Import Np VideoWorker Notions MoreNotions Samples VideoWorkerFacts
  WorkerFacts Evidence EvidenceFacts Gui EvidenceMoreFacts.
Local Open Scope string_scope.

Example report_of_three_frames :
  exists r,
    run hsv spotting_worker (Some (video 3)) never_stopped 0 = Some r
    /\ Report.generate_report
         (evidence_log (record_run init (emitted r) ui_filters))
       = Some
           (["00_00_00_F0.png"; "00_00_00_F1.png"; "00_00_00_F2.png"],
            [["Image_File"; "Frame_Number"; "Timestamp";
              "Total_Detections"; "target_objects"; "conf_threshold";
              "frame_skip"; "start_time"; "end_time"; "color_filter"];
             ["00_00_00_F0.png"; "0"; "00:00:00"; "1"; "person"; "0.25";
              "1"; "00:00:00"; "99:99:99"; "None"];
             ["00_00_00_F1.png"; "1"; "00:00:00"; "1"; "person"; "0.25";
              "1"; "00:00:00"; "99:99:99"; "None"];
             ["00_00_00_F2.png"; "2"; "00:00:00"; "1"; "person"; "0.25";
              "1"; "00:00:00"; "99:99:99"; "None"]]).
Proof. eexists. split; [vm_compute; reflexivity | reflexivity]. Qed.

Lemma report_button_needs_evidence_witness :
  report_enabled
    (perform_all init
       [OpStartAnalysis true; OpUpdateFrame second_signal ui_filters;
        OpAnalysisFinished 1]) = true
  /\ evidence_log
       (perform_all init
          [OpStartAnalysis true; OpUpdateFrame second_signal ui_filters;
           OpAnalysisFinished 1]) <> []
  /\ Report.generate_report
       (evidence_log
          (perform_all init
             [OpStartAnalysis true; OpUpdateFrame second_signal ui_filters;
              OpAnalysisFinished 1])) <> None.
Proof.
  split; [reflexivity |].
  exact (report_button_needs_evidence
           [OpStartAnalysis true; OpUpdateFrame second_signal ui_filters;
            OpAnalysisFinished 1] eq_refl).
Defined.

Lemma recorded_run_logs_detected_frames_witness :
  exists r,
    run hsv spotting_worker (Some (video 3)) never_stopped 0 = Some r
    /\ evidence_log (record_run init (emitted r) ui_filters)
       = (evidence_log init
          ++ map (fun f => entry_for f ui_filters)
               (with_detections (frame_signals (emitted r))))%list
    /\ total_evidence_frames (record_run init (emitted r) ui_filters)
       = (total_evidence_frames init
          + Z.of_nat
              (List.length
                 (with_detections (frame_signals (emitted r)))))%Z.
Proof.
  destruct (run hsv spotting_worker (Some (video 3)) never_stopped 0)
    as [r |] eqn:Hrun; [| vm_compute in Hrun; discriminate].
  exists r. split; [reflexivity |].
  exact (recorded_run_logs_detected_frames hsv spotting_worker
           never_stopped (Some (video 3)) 0%Q r init ui_filters Hrun).
Defined.

Lemma recorder_time_agrees_with_worker_witness :
  emitted_in hsv spotting_worker (video 3) never_stopped 0 second_signal
  /\ (0 < sig_video_fps second_signal)%Q
  /\ timestamp (entry_for second_signal ui_filters)
     = TimeUtils.seconds_to_hms
         (time_of (sig_frame_pos second_signal)
            (sig_video_fps second_signal))
  /\ TimeUtils.hms_to_seconds
       (timestamp (entry_for second_signal ui_filters))
     = Qfloor
         (time_of (sig_frame_pos second_signal)
            (sig_video_fps second_signal)).
Proof.
  assert (Hfps : (0 < sig_video_fps second_signal)%Q) by reflexivity.
  split; [exact EvidenceScenarios.second_signal_emitted |].
  split; [exact Hfps |].
  destruct (recorder_time_agrees_with_worker hsv spotting_worker (video 3)
              never_stopped 0%Q second_signal ui_filters
              EvidenceScenarios.second_signal_emitted) as [H1 H2].
  split; [exact H1 | exact (H2 Hfps)].
Defined.

Lemma exported_images_have_distinct_names_witness :
  exists r,
    run hsv spotting_worker (Some (video 3)) never_stopped 0 = Some r
    /\ NoDup
         (map img_filename
            (evidence_log (record_run init (emitted r) ui_filters)))
    /\ List.length
         (map img_filename
            (evidence_log (record_run init (emitted r) ui_filters)))
       = List.length (with_detections (frame_signals (emitted r))).
Proof.
  destruct (run hsv spotting_worker (Some (video 3)) never_stopped 0)
    as [r |] eqn:Hrun; [| vm_compute in Hrun; discriminate].
  exists r. split; [reflexivity |].
  exact (exported_images_have_distinct_names hsv spotting_worker
           never_stopped (Some (video 3)) 0%Q r ui_filters Hrun).
Defined.


End ReportScenarios.
